(** * job-roadmap-agent: the response parser and its fallback, verified

    A shallow embedding of [agent.py]: the Python string operations the
    parser relies on, the JSON decoder and encoder of the standard [json]
    module, and the methods of [RoadmapGenerator] together with
    [get_job_description] and [main], written in a small monad that
    threads the console, the standard input, the clock and the file system
    and that carries Python exceptions. *)

From Stdlib Require Import List ZArith NArith Lia Bool String Ascii.
From Stdlib Require DecimalFacts DecimalPos.
Import ListNotations.

(** ** Python strings

    A Python [str] is a sequence of Unicode code points. *)

Module Py.

Definition char := N.
Definition str := list char.

(** An ASCII literal as a [str]. *)
Definition py (s : string) : str :=
  map N_of_ascii (list_ascii_of_string s).

(** The same, for literals that contain double quotes: the literal is
    written with an apostrophe wherever the Python text has a double quote. *)
Definition pyq (s : string) : str :=
  map (fun c => if N.eqb c 39 then 34%N else c) (py s).

Definition NL : char := 10%N.
Definition DQ : char := 34%N.

Fixpoint str_eqb (a b : str) : bool :=
  match a, b with
  | [], [] => true
  | x :: a', y :: b' => N.eqb x y && str_eqb a' b'
  | _, _ => false
  end.

(** [str.isspace] on one code point (CPython's [_PyUnicode_IsWhitespace]). *)
Definition isspace (c : char) : bool :=
  ((9 <=? c) && (c <=? 13) || (28 <=? c) && (c <=? 32)
   || (c =? 133) || (c =? 160) || (c =? 5760)
   || (8192 <=? c) && (c <=? 8202)
   || (c =? 8232) || (c =? 8233) || (c =? 8239) || (c =? 8287)
   || (c =? 12288))%N.

Fixpoint lstrip (s : str) : str :=
  match s with
  | c :: t => if isspace c then lstrip t else s
  | [] => []
  end.

Definition rstrip (s : str) : str := rev (lstrip (rev s)).

(** [s.strip()] *)
Definition strip (s : str) : str := rstrip (lstrip s).

(** [s.startswith(p)] *)
Fixpoint startswith (p s : str) : bool :=
  match p, s with
  | [], _ => true
  | x :: p', y :: s' => N.eqb x y && startswith p' s'
  | _ :: _, [] => false
  end.

(** [sub in s] *)
Fixpoint contains (sub s : str) : bool :=
  startswith sub s ||
  match s with
  | [] => false
  | _ :: t => contains sub t
  end.

(** [s.find(sub)]: the lowest index at which [sub] occurs, or -1. *)
Fixpoint find_from (sub s : str) (i : Z) : Z :=
  if startswith sub s then i
  else match s with
       | [] => (-1)%Z
       | _ :: t => find_from sub t (i + 1)
       end.

Definition find (sub s : str) : Z := find_from sub s 0.

(** [s.rfind(sub)]: the highest index at which [sub] occurs, or -1. *)
Fixpoint rfind_from (sub s : str) (i : Z) : Z :=
  match s with
  | [] => if startswith sub [] then i else (-1)%Z
  | _ :: t =>
      let r := rfind_from sub t (i + 1) in
      if (r =? -1)%Z then (if startswith sub s then i else (-1)%Z) else r
  end.

Definition rfind (sub s : str) : Z := rfind_from sub s 0.

(** [s.split(sep)] for a non-empty [sep]: the text is scanned from the
    left, every occurrence of [sep] that does not overlap the previous one
    ends a piece.  [skip] counts the characters of a separator still to be
    passed over, [cur] is the current piece, reversed. *)
Fixpoint split_go (sep : str) (skip : nat) (cur s : str) : list str :=
  match s with
  | [] => [rev cur]
  | c :: t =>
      match skip with
      | S k => split_go sep k cur t
      | O =>
          if startswith sep s
          then rev cur :: split_go sep (List.length sep - 1) [] t
          else split_go sep 0 (c :: cur) t
      end
  end.

Definition split (sep s : str) : list str := split_go sep 0 [] s.

(** [sep.join(parts)] *)
Fixpoint join (sep : str) (parts : list str) : str :=
  match parts with
  | [] => []
  | [p] => p
  | p :: rest => p ++ sep ++ join sep rest
  end.

(** A slice bound, as Python normalises it against the length. *)
Definition clamp (len i : Z) : Z :=
  if (i <? 0)%Z then Z.max (i + len) 0 else Z.min i len.

(** [s[start:stop]] *)
Definition slice (s : str) (start stop : Z) : str :=
  let len := Z.of_nat (List.length s) in
  let a := clamp len start in
  let b := clamp len stop in
  firstn (Z.to_nat (b - a)) (skipn (Z.to_nat a) s).

(** [s[:n]] *)
Definition take (n : nat) (s : str) : str := firstn n s.

(** [s.replace(old, new)] for a one-character [old]. *)
Definition replace1 (old : char) (new : str) (s : str) : str :=
  flat_map (fun c => if N.eqb c old then new else [c]) s.

(** [s.lower()] on the ASCII letters. *)
Definition lower_char (c : char) : char :=
  if ((65 <=? c) && (c <=? 90))%N then (c + 32)%N else c.

End Py.
Import Py.

(** ** Exceptions *)

Inductive exn :=
| IndexError
| TypeError
| AttributeError
| KeyError
| JSONDecodeError
| UnicodeEncodeError
| EOFError
| KeyboardInterrupt
| RequestException     (* connection error, timeout or undecodable body *)
| LLMException.        (* the model call failed *)

(** [except Exception] catches everything but [KeyboardInterrupt]. *)
Definition is_Exception (e : exn) : bool :=
  match e with
  | KeyboardInterrupt => false
  | _ => true
  end.

Inductive outcome (A : Type) :=
| Returned (a : A)
| Raised (e : exn).
Arguments Returned {A} a.
Arguments Raised {A} e.

Definition obind {A B} (m : outcome A) (k : A -> outcome B) : outcome B :=
  match m with
  | Returned a => k a
  | Raised e => Raised e
  end.

Declare Scope outcome_scope.
Delimit Scope outcome_scope with outcome.
Notation "x <-- m ;; k" := (obind m (fun x => k))
  (at level 61, m at next level, right associativity) : outcome_scope.

(** [l[i]] for a non-negative index. *)
Definition getitem {A} (l : list A) (i : nat) : outcome A :=
  match nth_error l i with
  | Some a => Returned a
  | None => Raised IndexError
  end.

(** ** The code-fence step of [extract_json_from_text] *)

Definition FENCE_JSON : str := py "```json".
Definition FENCE : str := py "```".

Open Scope outcome_scope.

(** Lines 104-108: the working text after the fences are removed. *)
Definition fence_contents (cleaned : str) : outcome str :=
  if contains FENCE_JSON cleaned then
    inner <-- getitem (split FENCE_JSON cleaned) 1 ;;
    body <-- getitem (split FENCE inner) 0 ;;
    Returned (strip body)
  else if contains FENCE cleaned then
    inner <-- getitem (split FENCE cleaned) 1 ;;
    body <-- getitem (split FENCE inner) 0 ;;
    Returned (strip body)
  else Returned cleaned.

Close Scope outcome_scope.

(** ** Python values

    The values the [json] module produces and consumes.  A [dict] keeps its
    keys in insertion order and holds each key once.  A [float] is kept as
    the call that makes it: [FloatOf lit] is [float(lit)] for the number
    text [lit] the decoder read (binary64 rounding is outside this
    development), the three constants are what [parse_constant] yields. *)

Inductive pyfloat :=
| FloatOf (lit : str)
| FNaN
| FPosInf
| FNegInf.

Unset Elimination Schemes.
Inductive value :=
| VNone
| VBool (b : bool)
| VInt (z : Z)
| VFloat (f : pyfloat)
| VStr (s : str)
| VList (l : list value)
| VDict (d : list (str * value)).
Set Elimination Schemes.

Definition dict := list (str * value).

(** [d.get(k)] as an option; [d[k]] raises [KeyError] where this is [None]. *)
Fixpoint dict_get (d : dict) (k : str) : option value :=
  match d with
  | [] => None
  | (k', v) :: d' => if str_eqb k' k then Some v else dict_get d' k
  end.

(** [d[k] = v]: an existing key keeps its place, a new key goes last. *)
Fixpoint dict_set (d : dict) (k : str) (v : value) : dict :=
  match d with
  | [] => [(k, v)]
  | (k', v') :: d' =>
      if str_eqb k' k then (k', v) :: d' else (k', v') :: dict_set d' k v
  end.

Definition dict_keys (d : dict) : list str := map fst d.

(** [dict(pairs)] *)
Definition dict_of_pairs (pairs : list (str * value)) : dict :=
  fold_left (fun d kv => dict_set d (fst kv) (snd kv)) pairs [].

(** ** The JSON decoder ([json.loads])

    After CPython's scanner: [scanstring], the number matcher, and
    [scan_once] with its object and array loops.  [None] is the decoder
    giving up at that position. *)

Module Json.

Definition is_digit (c : char) : bool := ((48 <=? c) && (c <=? 57))%N.

(** The decoder's whitespace: space, tab, line feed, carriage return. *)
Definition is_ws (c : char) : bool :=
  ((c =? 32) || (c =? 9) || (c =? 10) || (c =? 13))%N.

Fixpoint skip_ws (s : str) : str :=
  match s with
  | c :: t => if is_ws c then skip_ws t else s
  | [] => []
  end.

Definition hexval (c : char) : option N :=
  if ((48 <=? c) && (c <=? 57))%N then Some (c - 48)%N
  else if ((97 <=? c) && (c <=? 102))%N then Some (c - 87)%N
  else if ((65 <=? c) && (c <=? 70))%N then Some (c - 55)%N
  else None.

Definition hex4 (a b c d : char) : option N :=
  match hexval a, hexval b, hexval c, hexval d with
  | Some w, Some x, Some y, Some z => Some (((w * 16 + x) * 16 + y) * 16 + z)%N
  | _, _, _, _ => None
  end.

Definition is_high_surrogate (c : N) : bool := ((55296 <=? c) && (c <=? 56319))%N.
Definition is_low_surrogate (c : N) : bool := ((56320 <=? c) && (c <=? 57343))%N.
Definition join_surrogates (hi lo : N) : N :=
  (65536 + ((hi - 55296) * 1024 + (lo - 56320)))%N.

(** The character a one-letter escape stands for. *)
Definition unescape (e : char) : option char :=
  if (e =? 34)%N then Some 34%N            (* the quote *)
  else if (e =? 92)%N then Some 92%N       (* the backslash *)
  else if (e =? 47)%N then Some 47%N       (* the slash *)
  else if (e =? 98)%N then Some 8%N        (* b: backspace *)
  else if (e =? 102)%N then Some 12%N      (* f: form feed *)
  else if (e =? 110)%N then Some 10%N      (* n: line feed *)
  else if (e =? 114)%N then Some 13%N      (* r: carriage return *)
  else if (e =? 116)%N then Some 9%N       (* t: tab *)
  else None.

Definition cons_chr (c : char) (r : option (str * str)) : option (str * str) :=
  match r with
  | Some (x, rest) => Some (c :: x, rest)
  | None => None
  end.

(** [scanstring], entered after the opening quote, in strict mode: the
    decoded string and the text after the closing quote. *)
Fixpoint scanstring (s : str) : option (str * str) :=
  match s with
  | [] => None
  | c :: t =>
      if (c =? 34)%N then Some ([], t)
      else if (c =? 92)%N then
        match t with
        | [] => None
        | e :: t1 =>
            if (e =? 117)%N then
              match t1 with
              | h1 :: h2 :: h3 :: h4 :: t2 =>
                  match hex4 h1 h2 h3 h4 with
                  | None => None
                  | Some uni =>
                      match t2 with
                      | b :: u :: g1 :: g2 :: g3 :: g4 :: t3 =>
                          if is_high_surrogate uni && (b =? 92)%N && (u =? 117)%N
                          then match hex4 g1 g2 g3 g4 with
                               | None => None
                               | Some uni2 =>
                                   if is_low_surrogate uni2
                                   then cons_chr (join_surrogates uni uni2)
                                                 (scanstring t3)
                                   else cons_chr uni (scanstring t2)
                               end
                          else cons_chr uni (scanstring t2)
                      | _ => cons_chr uni (scanstring t2)
                      end
                  end
              | _ => None
              end
            else match unescape e with
                 | Some c' => cons_chr c' (scanstring t1)
                 | None => None
                 end
        end
      else if (c <? 32)%N then None
      else cons_chr c (scanstring t)
  end.

(** The longest run of digits at the head of [s], and what follows. *)
Fixpoint span_digits (s : str) : str * str :=
  match s with
  | c :: t =>
      if is_digit c
      then let (ds, rest) := span_digits t in (c :: ds, rest)
      else ([], s)
  | [] => ([], [])
  end.

Definition digit_uint (c : char) (u : Decimal.uint) : Decimal.uint :=
  match (c - 48)%N with
  | 0 => Decimal.D0 u | 1 => Decimal.D1 u | 2 => Decimal.D2 u
  | 3 => Decimal.D3 u | 4 => Decimal.D4 u | 5 => Decimal.D5 u
  | 6 => Decimal.D6 u | 7 => Decimal.D7 u | 8 => Decimal.D8 u
  | _ => Decimal.D9 u
  end%N.

Definition uint_of_digits (ds : str) : Decimal.uint :=
  fold_right digit_uint Decimal.Nil ds.

(** [int(text)] for an optional minus sign followed by digits. *)
Definition int_of_str (neg : bool) (ds : str) : Z :=
  let n := Z.of_uint (uint_of_digits ds) in
  if neg then (- n)%Z else n.

(** The integer part of a number: one [0], or a non-zero digit and the
    digits after it. *)
Definition match_int_digits (s : str) : option (str * str) :=
  match s with
  | c :: t =>
      if (c =? 48)%N then Some ([c], t)
      else if is_digit c then Some (span_digits s)
      else None
  | [] => None
  end.

(** The optional fraction: a dot and at least one digit. *)
Definition match_frac (s : str) : str * str :=
  match s with
  | dot :: d :: t =>
      if (dot =? 46)%N && is_digit d
      then let (ds, rest) := span_digits (d :: t) in (dot :: ds, rest)
      else ([], s)
  | _ => ([], s)
  end.

(** The optional exponent: [e] or [E], an optional sign, at least one
    digit; nothing is consumed when no digit follows. *)
Definition match_exp (s : str) : str * str :=
  match s with
  | e :: t =>
      if ((e =? 101) || (e =? 69))%N then
        match t with
        | sg :: d :: t' =>
            if ((sg =? 45) || (sg =? 43))%N && is_digit d
            then let (ds, rest) := span_digits (d :: t') in (e :: sg :: ds, rest)
            else if is_digit sg
            then let (ds, rest) := span_digits t in (e :: ds, rest)
            else ([], s)
        | [d] => if is_digit d then ([e; d], []) else ([], s)
        | [] => ([], s)
        end
      else ([], s)
  | [] => ([], s)
  end.

(** The number matcher: an [int] when there is neither fraction nor
    exponent, a [float] of the whole number text otherwise. *)
Definition match_number (s : str) : option (value * str) :=
  let (neg, s1) :=
    match s with
    | c :: t => if (c =? 45)%N then (true, t) else (false, s)
    | [] => (false, s)
    end in
  match match_int_digits s1 with
  | None => None
  | Some (ds, s2) =>
      let (frac, s3) := match_frac s2 in
      let (ex, s4) := match_exp s3 in
      match frac, ex with
      | [], [] => Some (VInt (int_of_str neg ds), s4)
      | _, _ =>
          Some (VFloat (FloatOf ((if neg then [45%N] else []) ++ ds ++ frac ++ ex)), s4)
      end
  end.

Definition LIT_null := py "null".
Definition LIT_true := py "true".
Definition LIT_false := py "false".
Definition LIT_NaN := py "NaN".
Definition LIT_Infinity := py "Infinity".
Definition LIT_NegInfinity := py "-Infinity".

(** [scan_once] and the two loops it calls into.  [fuel] bounds the calls
    still allowed; [json_loads] below gives more than any text can use. *)
Fixpoint scan_once (fuel : nat) (s : str) : option (value * str) :=
  match fuel with
  | O => None
  | S fuel' =>
      match s with
      | [] => None
      | c :: t =>
          if (c =? 34)%N then
            match scanstring t with
            | Some (x, rest) => Some (VStr x, rest)
            | None => None
            end
          else if (c =? 123)%N then
            match skip_ws t with
            | c' :: t' =>
                if (c' =? 125)%N then Some (VDict [], t')
                else match object_items fuel' (c' :: t') with
                     | Some (pairs, rest) => Some (VDict (dict_of_pairs pairs), rest)
                     | None => None
                     end
            | [] => None
            end
          else if (c =? 91)%N then
            match skip_ws t with
            | c' :: t' =>
                if (c' =? 93)%N then Some (VList [], t')
                else match array_items fuel' (c' :: t') with
                     | Some (vs, rest) => Some (VList vs, rest)
                     | None => None
                     end
            | [] => None
            end
          else if startswith LIT_null s then Some (VNone, skipn 4 s)
          else if startswith LIT_true s then Some (VBool true, skipn 4 s)
          else if startswith LIT_false s then Some (VBool false, skipn 5 s)
          else if startswith LIT_NaN s then Some (VFloat FNaN, skipn 3 s)
          else if startswith LIT_Infinity s then Some (VFloat FPosInf, skipn 8 s)
          else if startswith LIT_NegInfinity s then Some (VFloat FNegInf, skipn 9 s)
          else match_number s
      end
  end

(** The array loop, entered at a value: the values up to the closing
    bracket. *)
with array_items (fuel : nat) (s : str) : option (list value * str) :=
  match fuel with
  | O => None
  | S fuel' =>
      match scan_once fuel' s with
      | None => None
      | Some (v, rest) =>
          match skip_ws rest with
          | c :: t =>
              if (c =? 93)%N then Some ([v], t)
              else if (c =? 44)%N then
                match array_items fuel' (skip_ws t) with
                | Some (vs, rest') => Some (v :: vs, rest')
                | None => None
                end
              else None
          | [] => None
          end
      end
  end

(** The object loop, entered at a key: the key/value pairs up to the
    closing brace, in the order of the text. *)
with object_items (fuel : nat) (s : str) : option (list (str * value) * str) :=
  match fuel with
  | O => None
  | S fuel' =>
      match s with
      | q :: t =>
          if (q =? 34)%N then
            match scanstring t with
            | None => None
            | Some (key, rest) =>
                match skip_ws rest with
                | colon :: t1 =>
                    if (colon =? 58)%N then
                      match scan_once fuel' (skip_ws t1) with
                      | None => None
                      | Some (v, rest1) =>
                          match skip_ws rest1 with
                          | c :: t2 =>
                              if (c =? 125)%N then Some ([(key, v)], t2)
                              else if (c =? 44)%N then
                                match object_items fuel' (skip_ws t2) with
                                | Some (ps, rest') => Some ((key, v) :: ps, rest')
                                | None => None
                                end
                              else None
                          | [] => None
                          end
                      end
                    else None
                | [] => None
                end
            end
          else None
      | [] => None
      end
  end.

(** Fuel no text of that length can use up. *)
Definition fuel_for (s : str) : nat := 2 * List.length s + 1.

(** [JSONDecoder.decode]: leading whitespace, one value, trailing
    whitespace, and nothing more. *)
Definition decode (s : str) : option value :=
  match scan_once (fuel_for s) (skip_ws s) with
  | Some (v, rest) =>
      match skip_ws rest with
      | [] => Some v
      | _ :: _ => None
      end
  | None => None
  end.

(** [json.loads(s)] for a [str]: a leading byte-order mark is refused. *)
Definition loads (s : str) : outcome value :=
  if startswith [65279%N] s then Raised JSONDecodeError
  else match decode s with
       | Some v => Returned v
       | None => Raised JSONDecodeError
       end.

End Json.

(** ** The JSON encoder ([json.dump] with [indent=2, ensure_ascii=False]) *)

(** What this development takes from Python's [float]: the text the
    encoder writes for [float(lit)], and its truth value. *)
Record FloatLib := {
  floatstr : str -> str;
  float_bool : str -> bool
}.

Module JsonEnc.

Definition hexdigit (n : N) : char :=
  if (n <? 10)%N then (48 + n)%N else (87 + n)%N.

(** The replacement of one character inside a string ([ESCAPE_DCT]). *)
Definition escape_char (c : char) : str :=
  if (c =? 92)%N then [92; 92]%N
  else if (c =? 34)%N then [92; 34]%N
  else if (c =? 8)%N then [92; 98]%N
  else if (c =? 12)%N then [92; 102]%N
  else if (c =? 10)%N then [92; 110]%N
  else if (c =? 13)%N then [92; 114]%N
  else if (c =? 9)%N then [92; 116]%N
  else if (c <? 32)%N
       then [92; 117; 48; 48; hexdigit (c / 16); hexdigit (c mod 16)]%N
  else [c].

(** [encode_basestring]: characters above the control range are written
    as they are. *)
Definition encode_basestring (s : str) : str :=
  DQ :: flat_map escape_char s ++ [DQ].

Definition digit_char (d : N) : char := (48 + d)%N.

Fixpoint digits_of_uint (u : Decimal.uint) : str :=
  match u with
  | Decimal.Nil => []
  | Decimal.D0 u' => digit_char 0 :: digits_of_uint u'
  | Decimal.D1 u' => digit_char 1 :: digits_of_uint u'
  | Decimal.D2 u' => digit_char 2 :: digits_of_uint u'
  | Decimal.D3 u' => digit_char 3 :: digits_of_uint u'
  | Decimal.D4 u' => digit_char 4 :: digits_of_uint u'
  | Decimal.D5 u' => digit_char 5 :: digits_of_uint u'
  | Decimal.D6 u' => digit_char 6 :: digits_of_uint u'
  | Decimal.D7 u' => digit_char 7 :: digits_of_uint u'
  | Decimal.D8 u' => digit_char 8 :: digits_of_uint u'
  | Decimal.D9 u' => digit_char 9 :: digits_of_uint u'
  end.

(** [int.__repr__] *)
Definition int_repr (z : Z) : str :=
  match Z.to_int z with
  | Decimal.Pos u => digits_of_uint u
  | Decimal.Neg u => 45%N :: digits_of_uint u
  end.

Definition float_text (fl : FloatLib) (f : pyfloat) : str :=
  match f with
  | FNaN => py "NaN"
  | FPosInf => py "Infinity"
  | FNegInf => py "-Infinity"
  | FloatOf lit => floatstr fl lit
  end.

(** The text of a value that is written in one piece. *)
Definition scalar_text (fl : FloatLib) (v : value) : option str :=
  match v with
  | VStr s => Some (encode_basestring s)
  | VNone => Some (py "null")
  | VBool true => Some (py "true")
  | VBool false => Some (py "false")
  | VInt z => Some (int_repr z)
  | VFloat f => Some (float_text fl f)
  | VList _ | VDict _ => None
  end.

(** A line break and the indentation of [level], two spaces a level. *)
Definition newline_indent (level : nat) : str :=
  NL :: repeat 32%N (2 * level).

Section Encoder.
Variable fl : FloatLib.

(** [_iterencode]: the pieces handed to [fp.write], in order.  In a list a
    scalar item is written together with the separator before it ([buf]);
    in a dict the separator, the key, the colon and the value are pieces
    of their own. *)
Fixpoint iterencode (v : value) (level : nat) : list str :=
  match v with
  | VList [] => [py "[]"]
  | VList (x :: xs) =>
      let item (buf : str) (y : value) : list str :=
        match scalar_text fl y with
        | Some t => [buf ++ t]
        | None => buf :: iterencode y (S level)
        end in
      item (py "[" ++ newline_indent (S level)) x
      ++ flat_map (item (py "," ++ newline_indent (S level))) xs
      ++ [newline_indent level; py "]"]
  | VDict [] => [py "{}"]
  | VDict ((k, x) :: kvs) =>
      let val (y : value) : list str :=
        match scalar_text fl y with
        | Some t => [t]
        | None => iterencode y (S level)
        end in
      [py "{"; newline_indent (S level)]
      ++ (encode_basestring k :: py ": " :: val x)
      ++ flat_map (fun kv : str * value =>
                     match kv with
                     | (k', y) =>
                         (py "," ++ newline_indent (S level))
                           :: encode_basestring k' :: py ": " :: val y
                     end) kvs
      ++ [newline_indent level; py "}"]
  | _ =>
      match scalar_text fl v with
      | Some t => [t]
      | None => []
      end
  end.

(** [json.dumps]: the whole text. *)
Fixpoint encode (v : value) (level : nat) : str :=
  match v with
  | VList [] => py "[]"
  | VList (x :: xs) =>
      py "[" ++ newline_indent (S level) ++ encode x (S level)
      ++ flat_map (fun y => py "," ++ newline_indent (S level) ++ encode y (S level)) xs
      ++ newline_indent level ++ py "]"
  | VDict [] => py "{}"
  | VDict ((k, x) :: kvs) =>
      py "{" ++ newline_indent (S level)
      ++ encode_basestring k ++ py ": " ++ encode x (S level)
      ++ flat_map (fun kv : str * value =>
                     match kv with
                     | (k', y) =>
                         py "," ++ newline_indent (S level)
                         ++ encode_basestring k' ++ py ": " ++ encode y (S level)
                     end) kvs
      ++ newline_indent level ++ py "}"
  | _ =>
      match scalar_text fl v with
      | Some t => t
      | None => []
      end
  end.

Definition dumps (v : value) : str := encode v 0.

End Encoder.

End JsonEnc.

(** ** Dynamic operations on Python values

    What the program applies to decoded JSON, with the exception each
    raises on a value of the wrong type. *)

Definition is_empty {A} (l : list A) : bool :=
  match l with
  | [] => true
  | _ :: _ => false
  end.

(** [bool(v)] *)
Definition py_bool (fl : FloatLib) (v : value) : bool :=
  match v with
  | VNone => false
  | VBool b => b
  | VInt z => negb (Z.eqb z 0)
  | VFloat (FloatOf lit) => float_bool fl lit
  | VFloat _ => true
  | VStr s => negb (is_empty s)
  | VList l => negb (is_empty l)
  | VDict d => negb (is_empty d)
  end.

(** [v.get(k, default)]: only a dict has [get]. *)
Definition py_get (v : value) (k : str) (default : value) : outcome value :=
  match v with
  | VDict d =>
      Returned (match dict_get d k with Some x => x | None => default end)
  | _ => Raised AttributeError
  end.

(** [v[k]] for a string [k]. *)
Definition py_getitem (v : value) (k : str) : outcome value :=
  match v with
  | VDict d =>
      match dict_get d k with
      | Some x => Returned x
      | None => Raised KeyError
      end
  | _ => Raised TypeError
  end.

(** [v[k] = x] for a string [k]: only a dict takes it. *)
Definition py_setitem (v : value) (k : str) (x : value) : outcome value :=
  match v with
  | VDict d => Returned (VDict (dict_set d k x))
  | _ => Raised TypeError
  end.

(** [v[:3]]: a list or a string can be sliced (a dict raises [TypeError],
    from Python 3.12 on [KeyError]). *)
Definition py_first3 (v : value) : outcome value :=
  match v with
  | VList l => Returned (VList (firstn 3 l))
  | VStr s => Returned (VStr (firstn 3 s))
  | _ => Raised TypeError
  end.

(** The items [for x in v] runs over. *)
Definition py_iter (v : value) : outcome (list value) :=
  match v with
  | VList l => Returned l
  | VStr s => Returned (map (fun c => VStr [c]) s)
  | VDict d => Returned (map VStr (dict_keys d))
  | _ => Raised TypeError
  end.

Definition is_str (k : str) (v : value) : bool :=
  match v with
  | VStr s => str_eqb s k
  | _ => false
  end.

(** [k in v] for a string [k]. *)
Definition py_in (k : str) (v : value) : outcome bool :=
  match v with
  | VDict d => Returned (existsb (fun k' => str_eqb k' k) (dict_keys d))
  | VList l => Returned (existsb (is_str k) l)
  | VStr s => Returned (contains k s)
  | _ => Raised TypeError
  end.

(** [len(v)] *)
Definition py_len (v : value) : outcome nat :=
  match v with
  | VList l => Returned (List.length l)
  | VStr s => Returned (List.length s)
  | VDict d => Returned (List.length d)
  | _ => Raised TypeError
  end.

Open Scope outcome_scope.

(** The strings of [vs], when every item is a string. *)
Fixpoint all_strs (vs : list value) : outcome (list str) :=
  match vs with
  | [] => Returned []
  | VStr s :: rest => ss <-- all_strs rest ;; Returned (s :: ss)
  | _ :: _ => Raised TypeError
  end.

(** [sep.join(vs)] for a list [vs]. *)
Definition join_values (sep : str) (vs : list value) : outcome str :=
  ss <-- all_strs vs ;; Returned (join sep ss).

(** [sep.join(v)] for any value [v]. *)
Definition py_join (sep : str) (v : value) : outcome str :=
  items <-- py_iter v ;; join_values sep items.

Close Scope outcome_scope.

(** ** The world the program runs in *)

Inductive stdin_event :=
| Line (s : str)      (* a line typed by the user *)
| Interrupt.          (* Ctrl-C *)

(** What the program prints, one constructor per [print] (and per prompt
    of [input]), with the values that go into the text. *)
Inductive message :=
| MsgSearchFailed (e : exn)
| MsgSearching (company role : str)
| MsgQueryFailed (query : str) (e : exn)
| MsgJsonParsingFailed (e : exn)
| MsgRawResponse (preview : str)
| MsgGenerating (role company : str)
| MsgGathering
| MsgGeneratingWithAI
| MsgLlmFailed (e : exn)
| MsgSuccess
| MsgSaved (filename : str)
| MsgRule (width : nat)
| MsgSummaryTitle
| MsgCompany (v : value)
| MsgRole (v : value)
| MsgDifficulty (v : value)
| MsgTotalRounds (n : nat)
| MsgRoundsTitle
| MsgRound (i : nat) (round_type : value)
| MsgTopics (topics : str)
| MsgStudyOrder (order : str)
| MsgKeySkills (skills : str)
| MsgNote (v : value)
| MsgPasteJobDescription
| MsgPasteHint
| MsgJobDescriptionEmpty
| MsgApiKeyMissing
| MsgApiKeyHint
| MsgBanner
| MsgPromptCompany
| MsgCompanyRequired
| MsgPromptRole
| MsgRoleRequired
| MsgComplete (filename : str)
| MsgErrorGenerating (e : exn).

(** What the program is given from outside. *)
Record Oracle := {
  GOOGLE_API_KEY : option str;
      (* os.getenv of that name *)
  http_get_json : nat -> str -> outcome value;
      (* the n-th request: requests.get with the query, then response.json() *)
  llm_invoke : str -> outcome str;
      (* self.llm.invoke on the prompt, then .content *)
  now_isoformat : nat -> str;
      (* the n-th reading of datetime.now().isoformat() *)
  str_lower : str -> str;
      (* str.lower, by the Unicode case tables *)
  floats : FloatLib
}.

Record World := {
  stdin : list stdin_event;       (* what is still to be read *)
  console : list message;         (* what was printed, oldest first *)
  requests_sent : list str;       (* the search queries issued, oldest first *)
  clock_reads : nat;
  prompts_sent : list str;        (* the prompts given to the model *)
  files : list (str * str)        (* file name and content, newest first *)
}.

(** ** The monad of the program: an oracle to read, a world to change, and
    exceptions *)

Definition M (A : Type) := Oracle -> World -> outcome A * World.

Definition ret {A} (a : A) : M A := fun _ w => (Returned a, w).

Definition bind {A B} (m : M A) (k : A -> M B) : M B :=
  fun o w =>
    match m o w with
    | (Returned a, w') => k a o w'
    | (Raised e, w') => (Raised e, w')
    end.

Definition raise {A} (e : exn) : M A := fun _ w => (Raised e, w).

Definition lift {A} (r : outcome A) : M A := fun _ w => (r, w).

(** [try: body  except <those e with catches e>: handler e] *)
Definition try_except {A} (body : M A) (catches : exn -> bool)
           (handler : exn -> M A) : M A :=
  fun o w =>
    match body o w with
    | (Returned a, w') => (Returned a, w')
    | (Raised e, w') => if catches e then handler e o w' else (Raised e, w')
    end.

Declare Scope m_scope.
Delimit Scope m_scope with M.
Notation "x <- m ;; k" := (bind m (fun x => k))
  (at level 61, m at next level, right associativity) : m_scope.
Notation "m ;; k" := (bind m (fun _ => k))
  (at level 61, right associativity) : m_scope.

Definition oracle : M Oracle := fun o w => (Returned o, w).

(** The world after [msgs] were printed. *)
Definition printed (msgs : list message) (w : World) : World :=
  {| stdin := stdin w; console := console w ++ msgs;
     requests_sent := requests_sent w; clock_reads := clock_reads w;
     prompts_sent := prompts_sent w; files := files w |}.

(** The world after the clock was read. *)
Definition ticked (w : World) : World :=
  {| stdin := stdin w; console := console w;
     requests_sent := requests_sent w; clock_reads := S (clock_reads w);
     prompts_sent := prompts_sent w; files := files w |}.

(** The world after a search request for [query]. *)
Definition requested (query : str) (w : World) : World :=
  {| stdin := stdin w; console := console w;
     requests_sent := requests_sent w ++ [query]; clock_reads := clock_reads w;
     prompts_sent := prompts_sent w; files := files w |}.

(** The world after the model was given [prompt]. *)
Definition prompted (prompt : str) (w : World) : World :=
  {| stdin := stdin w; console := console w;
     requests_sent := requests_sent w; clock_reads := clock_reads w;
     prompts_sent := prompts_sent w ++ [prompt]; files := files w |}.

Definition set_stdin (inp : list stdin_event) (w : World) : World :=
  {| stdin := inp; console := console w;
     requests_sent := requests_sent w; clock_reads := clock_reads w;
     prompts_sent := prompts_sent w; files := files w |}.

Definition set_file (name content : str) (w : World) : World :=
  {| stdin := stdin w; console := console w;
     requests_sent := requests_sent w; clock_reads := clock_reads w;
     prompts_sent := prompts_sent w; files := (name, content) :: files w |}.

Definition print (m : message) : M unit :=
  fun _ w => (Returned tt, printed [m] w).

(** [datetime.now().isoformat()] *)
Definition now : M str :=
  fun o w => (Returned (now_isoformat o (clock_reads w)), ticked w).

(** [requests.get(url, params=..., timeout=10)] and [response.json()] *)
Definition requests_get_json (query : str) : M value :=
  fun o w =>
    (http_get_json o (List.length (requests_sent w)) query, requested query w).

(** [self.llm.invoke([HumanMessage(content=prompt)]).content] *)
Definition llm_call (prompt : str) : M str :=
  fun o w => (llm_invoke o prompt, prompted prompt w).


(** [input()]: the next line, [EOFError] at the end of the input. *)
Definition input : M str :=
  fun _ w =>
    match stdin w with
    | [] => (Raised EOFError, w)
    | Line s :: rest => (Returned s, set_stdin rest w)
    | Interrupt :: rest => (Raised KeyboardInterrupt, set_stdin rest w)
    end.

(** The UTF-8 codec refuses the surrogate code points. *)
Definition utf8_encodable (s : str) : bool :=
  forallb (fun c => negb ((55296 <=? c) && (c <=? 57343))%N) s.

(** [with open(name, 'w', encoding='utf-8') as f:] followed by the writes
    of [chunks]: the file is created empty, every piece is encoded as it
    is written, and the file keeps what was written before a piece that
    cannot be encoded. *)
Fixpoint write_chunks (name : str) (written : str) (chunks : list str)
  : M unit :=
  match chunks with
  | [] => fun _ w => (Returned tt, set_file name written w)
  | c :: rest =>
      if utf8_encodable c then write_chunks name (written ++ c) rest
      else fun _ w => (Raised UnicodeEncodeError, set_file name written w)
  end.

(** ** [RoadmapGenerator] *)

Open Scope m_scope.

Definition no_results_message (query : str) : str :=
  py "Search for '" ++ query
  ++ py "' didn't return specific results. Using standard interview process.".

Definition search_unavailable : str :=
  py "Search unavailable. Using standard interview process for the role.".

(** The loop over the related topics (lines 48-50). *)
Fixpoint collect_topic_texts (topics results : list value)
  : outcome (list value) :=
  match topics with
  | [] => Returned results
  | topic :: rest =>
      obind (py_in (py "Text") topic) (fun has_text =>
        if has_text
        then obind (py_getitem topic (py "Text")) (fun t =>
               collect_topic_texts rest (results ++ [t]))
        else collect_topic_texts rest results)
  end.

(** What lines 39-56 make of the decoded response. *)
Definition extract_results (fl : FloatLib) (query : str) (data : value)
  : outcome str :=
  (abstract <-- py_get data (py "Abstract") VNone ;;
   results <-- (if py_bool fl abstract
                then a <-- py_getitem data (py "Abstract") ;; Returned [a]
                else Returned []) ;;
   related <-- py_get data (py "RelatedTopics") VNone ;;
   results <-- (if py_bool fl related
                then all_topics <-- py_getitem data (py "RelatedTopics") ;;
                     first3 <-- py_first3 all_topics ;;
                     topics <-- py_iter first3 ;;
                     collect_topic_texts topics results
                else Returned results) ;;
   if is_empty results then Returned (no_results_message query)
   else joined <-- join_values (py " ") results ;;
        Returned (take 1500 joined))%outcome.

(** The [try] block of [search_duckduckgo] (lines 28-56). *)
Definition search_duckduckgo_try (query : str) : M str :=
  data <- requests_get_json query ;;
  o <- oracle ;;
  lift (extract_results (floats o) query data).

(** [search_duckduckgo] (lines 25-60). *)
Definition search_duckduckgo (query : str) : M str :=
  try_except
    (search_duckduckgo_try query)
    is_Exception
    (fun e => print (MsgSearchFailed e) ;; ret search_unavailable).

Definition queries (company role : str) : list str :=
  [ company ++ py " " ++ role ++ py " interview process";
    company ++ py " technical interview questions " ++ role;
    company ++ py " hiring process " ++ role;
    py "how to prepare for " ++ company ++ py " " ++ role ++ py " interview" ].

Definition NO_SPECIFIC_RESULTS : str := py "didn't return specific results".

(** The loop over the queries (lines 74-80). *)
Fixpoint search_queries (qs : list str) (all_results : list str)
  : M (list str) :=
  match qs with
  | [] => ret all_results
  | query :: rest =>
      all_results <-
        try_except
          (result <- search_duckduckgo query ;;
           if negb (is_empty result) && negb (contains NO_SPECIFIC_RESULTS result)
           then ret (all_results ++ [result])
           else ret all_results)
          is_Exception
          (fun e => print (MsgQueryFailed query e) ;; ret all_results) ;;
      search_queries rest all_results
  end.

Definition fallback_info (company role : str) : str :=
  join [NL]
    [ [];
      py "        Standard interview process for " ++ role ++ py " positions at " ++ company ++ py ". ";
      py "        Typically includes:";
      py "        - Technical screening round with coding questions";
      py "        - System design discussion for mid-level and above roles";
      py "        - Behavioral and cultural fit interviews";
      py "        - Possible take-home assignment or live coding session";
      py "        ";
      py "        Focus on data structures, algorithms, and company-specific technologies.";
      py "        " ].

(** [search_company_info] (lines 62-96). *)
Definition search_company_info (company role : str) : M str :=
  print (MsgSearching company role) ;;
  all_results <- search_queries (firstn 2 (queries company role)) [] ;;
  if negb (is_empty all_results)
  then ret (take 2000 (join (py " ") all_results))
  else ret (fallback_info company role).

Definition vstrs (l : list str) : value := VList (map VStr l).

Definition round (type : str) (topics : list str) : value :=
  VDict [ (py "type", VStr type); (py "topics", vstrs topics) ].

(** [create_default_roadmap] (lines 200-220). *)
Definition create_default_roadmap (company role : str) : M value :=
  generated_at <- now ;;
  ret (VDict
    [ (py "company", VStr company);
      (py "role", VStr role);
      (py "rounds", VList
        [ round (py "Technical Screening") [py "Data Structures"; py "Algorithms"; py "Problem Solving"];
          round (py "Coding Round") [py "System Design"; py "Object-Oriented Programming"];
          round (py "System Design") [py "Microservices"; py "Scalability"; py "Database Design"];
          round (py "Behavioral") [py "Teamwork"; py "Communication"; py "Experience"] ]);
      (py "difficulty", VStr (py "Medium"));
      (py "recommended_order",
        vstrs [py "Data Structures"; py "Algorithms"; py "System Design"; py "Behavioral"]);
      (py "evidence", VDict
        [ (py "key_skills", vstrs [py "General Programming"; py "Problem Solving"]);
          (py "topic_count", VInt 4) ]);
      (py "generated_at", VStr generated_at);
      (py "version", VStr (py "1.0"));
      (py "note", VStr (py "Default roadmap - AI generation failed")) ]).

(** The text handed to the decoder (lines 101-119), or the exception the
    fence step raises. *)
Definition json_candidate (text : str) : outcome str :=
  obind (fence_contents (strip text)) (fun cleaned =>
    let start := find (py "{") cleaned in
    let end_ := (rfind (py "}") cleaned + 1)%Z in
    if negb (start =? -1)%Z && negb (end_ =? 0)%Z
    then Returned (slice cleaned start end_)
    else Returned cleaned).

Definition is_JSONDecodeError (e : exn) : bool :=
  match e with
  | JSONDecodeError => true
  | _ => false
  end.

(** [extract_json_from_text] (lines 98-125). *)
Definition extract_json_from_text (text : str) : M value :=
  try_except
    (json_str <- lift (json_candidate text) ;;
     lift (Json.loads json_str))
    is_JSONDecodeError
    (fun e =>
       print (MsgJsonParsingFailed e) ;;
       print (MsgRawResponse (take 500 text)) ;;
       create_default_roadmap (py "Unknown") (py "Unknown")).

Definition prompt_text (company role jd_text company_info : str) : str :=
  join [NL]
    [ [];
      py "        Create a comprehensive interview preparation roadmap based on the job description and company information.";
      py "        ";
      py "        COMPANY: " ++ company;
      py "        ROLE: " ++ role;
      py "        ";
      py "        JOB DESCRIPTION:";
      py "        " ++ jd_text;
      py "        ";
      py "        COMPANY INTERVIEW INFO:";
      py "        " ++ company_info;
      py "        ";
      py "        Please provide a structured roadmap in JSON format with these exact fields:";
      py "        - company: Company name";
      py "        - role: Job role  ";
      pyq "        - rounds: List of 3-5 interview rounds, each with 'type' and 'topics' (list of 3-5 topics per round)";
      py "        - difficulty: Overall difficulty (Easy, Medium, Hard, Very Hard)";
      py "        - recommended_order: Suggested study order of main topics";
      pyq "        - evidence: Object with 'key_skills' (from JD) and 'topic_count'";
      py "        ";
      py "        Return ONLY valid JSON without any additional text, comments, or explanations.";
      py "        ";
      py "        Example format:";
      py "        {";
      pyq "            'company': 'Google',";
      pyq "            'role': 'SDE1',";
      pyq "            'rounds': [";
      pyq "                {'type': 'Technical Screening', 'topics': ['Data Structures', 'Algorithms', 'Problem Solving']},";
      pyq "                {'type': 'Coding Round', 'topics': ['System Design', 'Object-Oriented Programming', 'API Design']},";
      pyq "                {'type': 'System Design', 'topics': ['Microservices', 'Scalability', 'Database Design']},";
      pyq "                {'type': 'Behavioral', 'topics': ['Teamwork', 'Communication', 'Leadership']}";
      py "            ],";
      pyq "            'difficulty': 'Hard',";
      pyq "            'recommended_order': ['Data Structures', 'Algorithms', 'System Design', 'Behavioral'],";
      pyq "            'evidence': {";
      pyq "                'key_skills': ['Python', 'AWS', 'Docker'],";
      pyq "                'topic_count': 4";
      py "            }";
      py "        }";
      py "        " ].

(** The four assignments after parsing (lines 190-195). *)
Definition stamp (roadmap : value) (company role : str) : M value :=
  roadmap <- lift (py_setitem roadmap (py "company") (VStr company)) ;;
  roadmap <- lift (py_setitem roadmap (py "role") (VStr role)) ;;
  generated_at <- now ;;
  roadmap <- lift (py_setitem roadmap (py "generated_at") (VStr generated_at)) ;;
  lift (py_setitem roadmap (py "version") (VStr (py "1.0"))).

(** [generate_roadmap] (lines 127-198).  The [return] inside the handler
    of the model call is the [inr] branch. *)
Definition generate_roadmap (company role jd_text : str) : M value :=
  print (MsgGenerating role company) ;;
  print MsgGathering ;;
  company_info <- search_company_info company role ;;
  print MsgGeneratingWithAI ;;
  response <-
    try_except
      (response_text <- llm_call (prompt_text company role jd_text company_info) ;;
       ret (inl response_text))
      is_Exception
      (fun e =>
         print (MsgLlmFailed e) ;;
         default <- create_default_roadmap company role ;;
         ret (inr default)) ;;
  match response with
  | inr default => ret default
  | inl response_text =>
      roadmap <- extract_json_from_text response_text ;;
      roadmap <- stamp roadmap company role ;;
      print MsgSuccess ;;
      ret roadmap
  end.

(** [save_roadmap] (lines 222-230). *)
Definition roadmap_filename (lower : str -> str) (company role : str) : str :=
  lower (replace1 47%N (py "_")
          (replace1 32%N (py "_")
            (company ++ py "_" ++ role ++ py "_roadmap.json"))).

Definition save_roadmap (roadmap : value) (company role : str) : M str :=
  o <- oracle ;;
  let filename := roadmap_filename (str_lower o) company role in
  write_chunks filename [] (JsonEnc.iterencode (floats o) roadmap 0) ;;
  print (MsgSaved filename) ;;
  ret filename.

(** The loop over the rounds (lines 243-247). *)
Fixpoint display_rounds (i : nat) (rounds : list value) : M unit :=
  match rounds with
  | [] => ret tt
  | round_info :: rest =>
      round_type <- lift (py_get round_info (py "type") (VStr (py "Unknown"))) ;;
      topic_list <- lift (py_get round_info (py "topics") (VList [])) ;;
      topics <- lift (py_join (py ", ") topic_list) ;;
      print (MsgRound i round_type) ;;
      print (MsgTopics topics) ;;
      display_rounds (S i) rest
  end.

(** [display_roadmap] (lines 232-258). *)
Definition display_roadmap (roadmap : value) : M unit :=
  print (MsgRule 60) ;;
  print MsgSummaryTitle ;;
  print (MsgRule 60) ;;
  company <- lift (py_get roadmap (py "company") (VStr (py "N/A"))) ;;
  print (MsgCompany company) ;;
  role <- lift (py_get roadmap (py "role") (VStr (py "N/A"))) ;;
  print (MsgRole role) ;;
  difficulty <- lift (py_get roadmap (py "difficulty") (VStr (py "N/A"))) ;;
  print (MsgDifficulty difficulty) ;;
  rounds <- lift (py_get roadmap (py "rounds") (VList [])) ;;
  n <- lift (py_len rounds) ;;
  print (MsgTotalRounds n) ;;
  print MsgRoundsTitle ;;
  rounds <- lift (py_get roadmap (py "rounds") (VList [])) ;;
  round_list <- lift (py_iter rounds) ;;
  display_rounds 1 round_list ;;
  order <- lift (py_get roadmap (py "recommended_order") (VList [])) ;;
  order_text <- lift (py_join (py ", ") order) ;;
  print (MsgStudyOrder order_text) ;;
  o <- oracle ;;
  evidence <- lift (py_get roadmap (py "evidence") (VDict [])) ;;
  (if py_bool (floats o) evidence
   then skills <- lift (py_get evidence (py "key_skills") (VList [])) ;;
        skills_text <- lift (py_join (py ", ") skills) ;;
        print (MsgKeySkills skills_text)
   else ret tt) ;;
  note <- lift (py_get roadmap (py "note") VNone) ;;
  (if py_bool (floats o) note
   then note <- lift (py_get roadmap (py "note") VNone) ;;
        print (MsgNote note)
   else ret tt) ;;
  print (MsgRule 60).

(** ** [get_job_description] and [main] *)

(** The reading loop (lines 267-277): lines are collected until the input
    ends or the user interrupts. *)
Fixpoint read_lines (inp : list stdin_event) : list str * list stdin_event :=
  match inp with
  | [] => ([], [])
  | Interrupt :: rest => ([], rest)
  | Line s :: rest =>
      let (jd_lines, rest') := read_lines rest in (s :: jd_lines, rest')
  end.

Definition input_lines : M (list str) :=
  fun _ w =>
    let (jd_lines, rest) := read_lines (stdin w) in
    (Returned jd_lines, set_stdin rest w).

(** [get_job_description] (lines 260-285): [None] is the empty marker. *)
Definition get_job_description : M (option str) :=
  print MsgPasteJobDescription ;;
  print MsgPasteHint ;;
  print (MsgRule 50) ;;
  jd_lines <- input_lines ;;
  let jd_text := join [NL] jd_lines in
  if is_empty (strip jd_text)
  then print MsgJobDescriptionEmpty ;; ret None
  else ret (Some jd_text).

(** A [while True] loop that asks until the stripped answer is not empty
    (lines 301-305 and 308-312). *)
Fixpoint ask_loop (prompt required : message) (inp : list stdin_event)
         (out : list message)
  : outcome str * list stdin_event * list message :=
  match inp with
  | [] => (Raised EOFError, [], out ++ [prompt])
  | Interrupt :: rest => (Raised KeyboardInterrupt, rest, out ++ [prompt])
  | Line s :: rest =>
      let answer := strip s in
      if negb (is_empty answer) then (Returned answer, rest, out ++ [prompt])
      else ask_loop prompt required rest (out ++ [prompt; required])
  end.

Definition ask (prompt required : message) : M str :=
  fun _ w =>
    match ask_loop prompt required (stdin w) [] with
    | (r, rest, out) => (r, printed out (set_stdin rest w))
    end.

Definition has_api_key (o : Oracle) : bool :=
  match GOOGLE_API_KEY o with
  | Some k => negb (is_empty k)
  | None => false
  end.

(** [main] (lines 287-331). *)
Definition main : M unit :=
  o <- oracle ;;
  if negb (has_api_key o)
  then print MsgApiKeyMissing ;; print MsgApiKeyHint
  else
    print MsgBanner ;;
    print (MsgRule 50) ;;
    company <- ask MsgPromptCompany MsgCompanyRequired ;;
    role <- ask MsgPromptRole MsgRoleRequired ;;
    jd <- get_job_description ;;
    match jd with
    | None => ret tt
    | Some jd_text =>
        try_except
          (roadmap <- generate_roadmap company role jd_text ;;
           display_roadmap roadmap ;;
           filename <- save_roadmap roadmap company role ;;
           print (MsgComplete filename))
          is_Exception
          (fun e => print (MsgErrorGenerating e))
    end.

Close Scope m_scope.

(** ** What the claims speak of *)

(** The fields of the roadmap schema other than the optional note. *)
Definition schema_fields : list str :=
  [ py "company"; py "role"; py "rounds"; py "difficulty";
    py "recommended_order"; py "evidence"; py "generated_at"; py "version" ].

Definition has_field (d : dict) (k : str) : bool :=
  match dict_get d k with
  | Some _ => true
  | None => false
  end.

(** A record that holds every field of the schema. *)
Definition fully_populated (v : value) : bool :=
  match v with
  | VDict d => forallb (has_field d) schema_fields
  | _ => false
  end.

Definition is_record (v : value) : bool :=
  match v with
  | VDict _ => true
  | _ => false
  end.

(** The field set of a record. *)
Definition fields (v : value) : list str :=
  match v with
  | VDict d => dict_keys d
  | _ => []
  end.

(** [v[k]] as an option. *)
Definition field (v : value) (k : str) : option value :=
  match v with
  | VDict d => dict_get d k
  | _ => None
  end.

(** The record [create_default_roadmap] builds, for a given time stamp. *)
Definition default_record (company role generated_at : str) : value :=
  VDict
    [ (py "company", VStr company);
      (py "role", VStr role);
      (py "rounds", VList
        [ round (py "Technical Screening") [py "Data Structures"; py "Algorithms"; py "Problem Solving"];
          round (py "Coding Round") [py "System Design"; py "Object-Oriented Programming"];
          round (py "System Design") [py "Microservices"; py "Scalability"; py "Database Design"];
          round (py "Behavioral") [py "Teamwork"; py "Communication"; py "Experience"] ]);
      (py "difficulty", VStr (py "Medium"));
      (py "recommended_order",
        vstrs [py "Data Structures"; py "Algorithms"; py "System Design"; py "Behavioral"]);
      (py "evidence", VDict
        [ (py "key_skills", vstrs [py "General Programming"; py "Problem Solving"]);
          (py "topic_count", VInt 4) ]);
      (py "generated_at", VStr generated_at);
      (py "version", VStr (py "1.0"));
      (py "note", VStr (py "Default roadmap - AI generation failed")) ].

Fixpoint no_dup_keys (ks : list str) : bool :=
  match ks with
  | [] => true
  | k :: rest => negb (existsb (str_eqb k) rest) && no_dup_keys rest
  end.

(** A value as Python can hold it: every dict has each key once. *)
Fixpoint well_formed (v : value) : bool :=
  match v with
  | VList l => forallb well_formed l
  | VDict d =>
      no_dup_keys (dict_keys d)
      && forallb (fun kv : str * value =>
                    match kv with (_, x) => well_formed x end) d
  | _ => true
  end.


(** No surrogate code point in any string or key of the value. *)
Fixpoint encodable (v : value) : bool :=
  match v with
  | VStr s => utf8_encodable s
  | VList l => forallb encodable l
  | VDict d =>
      forallb (fun kv : str * value =>
                 match kv with (k, x) => utf8_encodable k && encodable x end) d
  | _ => true
  end.

(** A world in which nothing has happened yet. *)
Definition fresh_world (inp : list stdin_event) : World :=
  {| stdin := inp; console := []; requests_sent := []; clock_reads := 0;
     prompts_sent := []; files := [] |}.

(** An oracle for the examples: the search service is down, the model
    answers [answer], the clock shows a fixed time. *)
Definition example_oracle (answer : outcome str) : Oracle :=
  {| GOOGLE_API_KEY := Some (py "key");
     http_get_json := fun _ _ => Raised RequestException;
     llm_invoke := fun _ => answer;
     now_isoformat := fun _ => py "2025-01-01T00:00:00";
     str_lower := map lower_char;
     floats := {| floatstr := fun lit => lit; float_bool := fun _ => true |} |}.

(** The search service fails with exceptions of the [Exception] family
    (connection errors, timeouts, undecodable bodies), the model call
    likewise. *)
Definition network_ok (o : Oracle) : Prop :=
  forall n q e, http_get_json o n q = Raised e -> is_Exception e = true.

Definition llm_ok (o : Oracle) : Prop :=
  forall p e, llm_invoke o p = Raised e -> is_Exception e = true.

(** The filter of [search_company_info] (line 77): a result is kept when
    it is not empty and does not hold the no-results phrase. *)
Definition kept (result : str) : bool :=
  negb (is_empty result) && negb (contains NO_SPECIFIC_RESULTS result).

(** A computation that raises nothing but exceptions of the [Exception]
    family. *)
Definition safe {A} (r : outcome A) : Prop :=
  forall e, r = Raised e -> is_Exception e = true.

(** The world after the parser fell back to the default record. *)
Definition after_fallback (text : str) (w : World) : World :=
  ticked (printed [MsgRawResponse (take 500 text)]
            (printed [MsgJsonParsingFailed JSONDecodeError] w)).

(** A dict after the four assignments of [generate_roadmap]. *)
Definition stamped (d : dict) (company role generated_at : str) : dict :=
  dict_set
    (dict_set
       (dict_set (dict_set d (py "company") (VStr company))
                 (py "role") (VStr role))
       (py "generated_at") (VStr generated_at))
    (py "version") (VStr (py "1.0")).

(** The four fields the system sets: the caller's company and role, a
    reading of the clock, the fixed version tag. *)
Definition system_fields (r : value) (company role : str) (o : Oracle) : Prop :=
  field r (py "company") = Some (VStr company) /\
  field r (py "role") = Some (VStr role) /\
  (exists n, field r (py "generated_at") = Some (VStr (now_isoformat o n))) /\
  field r (py "version") = Some (VStr (py "1.0")).

(** The world in which [generate_roadmap] calls the model, given the world
    the search left. *)
Definition before_llm (prompt : str) (w1 : World) : World :=
  prompted prompt (printed [MsgGeneratingWithAI] w1).

(** An input line that is empty once stripped. *)
Definition blank (ev : stdin_event) : bool :=
  match ev with
  | Line s => is_empty (strip s)
  | Interrupt => false
  end.

(** What an [ask] loop prints while it reads [n] blank answers and then a
    good one. *)
Definition asked (prompt required : message) (n : nat) : list message :=
  List.concat (repeat [prompt; required] n) ++ [prompt].

(** The job description [get_job_description] would read from [inp]. *)
Definition jd_text_of (inp : list stdin_event) : str :=
  join [NL] (fst (read_lines inp)).




(** A text after which a JSON value ends: the end of the text, a comma or
    a line break. *)
Definition stop (rest : str) : bool :=
  match rest with
  | [] => true
  | c :: _ => ((c =? 10) || (c =? 44))%N
  end.







(** ** What the further properties speak of *)

(** The [Text] of a related topic, when it has one. *)
Definition topic_text (topic : dict) : list str :=
  match dict_get topic (py "Text") with
  | Some (VStr t) => [t]
  | _ => []
  end.

(** The [Text] of the topic, if there is one, is a string. *)
Definition text_is_str (topic : dict) : bool :=
  match dict_get topic (py "Text") with
  | Some (VStr _) | None => true
  | Some _ => false
  end.

(** The texts [search_duckduckgo] collects from a response: the abstract
    unless it is empty, then the texts of the first three related topics. *)
Definition response_texts (abstract : str) (topics : list dict) : list str :=
  (if is_empty abstract then [] else [abstract])
  ++ flat_map topic_text (firstn 3 topics).

(** An oracle for the examples: the search service answers every request
    with [data], the model call fails. *)
Definition search_oracle (data : value) : Oracle :=
  {| GOOGLE_API_KEY := Some (py "key");
     http_get_json := fun _ _ => Returned data;
     llm_invoke := fun _ => Raised LLMException;
     now_isoformat := fun _ => py "2025-01-01T00:00:00";
     str_lower := map lower_char;
     floats := {| floatstr := fun lit => lit; float_bool := fun _ => true |} |}.

(** A response of the search service: an abstract and four related
    topics, one of them a group without a text. *)
Definition example_response : dict :=
  [ (py "Abstract", VStr (py "Acme builds rockets."));
    (py "RelatedTopics",
     VList (map VDict
       [ [(py "Text", VStr (py "Acme careers"))];
         [(py "Name", VStr (py "Groups"))];
         [(py "Text", VStr (py "Acme interviews"))];
         [(py "Text", VStr (py "Acme history"))] ])) ].

(** An oracle for the examples with the given value of the key. *)
Definition no_key_oracle (key : option str) : Oracle :=
  {| GOOGLE_API_KEY := key;
     http_get_json := fun _ _ => Raised RequestException;
     llm_invoke := fun _ => Raised LLMException;
     now_isoformat := fun _ => py "2025-01-01T00:00:00";
     str_lower := map lower_char;
     floats := {| floatstr := fun lit => lit; float_bool := fun _ => true |} |}.

(** The keys [generate_roadmap] assigns, in the order of the assignments. *)
Definition system_keys : list str :=
  [ py "company"; py "role"; py "generated_at"; py "version" ].

(** Between [w] and [w'] nothing changed but the console and the list of
    search requests. *)
Definition searched (w w' : World) : Prop :=
  stdin w' = stdin w /\ clock_reads w' = clock_reads w /\
  prompts_sent w' = prompts_sent w /\ files w' = files w.


(** A computation that does nothing to the world but print. *)
Definition prints_only {A} (m : M A) : Prop :=
  forall o w, exists msgs, snd (m o w) = printed msgs w.

(** A computation that, under oracle [o], raises nothing but exceptions of
    the [Exception] family. *)
Definition safe_run {A} (o : Oracle) (m : M A) : Prop :=
  forall w e w', m o w = (Raised e, w') -> is_Exception e = true.

Definition is_string (v : value) : bool :=
  match v with
  | VStr _ => true
  | _ => false
  end.

(** A list of strings. *)
Definition str_list (v : value) : bool :=
  match v with
  | VList l => forallb is_string l
  | _ => false
  end.

(** The value under [k] passes [ok], or [d] has no key [k]. *)
Definition absent_or (ok : value -> bool) (d : dict) (k : str) : bool :=
  match dict_get d k with
  | Some v => ok v
  | None => true
  end.

Definition round_ok (v : value) : bool :=
  match v with
  | VDict r => absent_or str_list r (py "topics")
  | _ => false
  end.

Definition rounds_ok (v : value) : bool :=
  match v with
  | VList l => forallb round_ok l
  | _ => false
  end.

Definition evidence_ok (v : value) : bool :=
  match v with
  | VDict e => absent_or str_list e (py "key_skills")
  | _ => false
  end.

(** A record [display_roadmap] can show: of the fields it has, the rounds
    are a list of objects, the evidence is an object, and the topics, the
    study order and the key skills are lists of strings. *)
Definition displayable (v : value) : bool :=
  match v with
  | VDict d =>
      absent_or rounds_ok d (py "rounds")
      && absent_or str_list d (py "recommended_order")
      && absent_or evidence_ok d (py "evidence")
  | _ => false
  end.

(** The rounds of a record, none when the field is missing. *)
Definition rounds_of (d : dict) : list value :=
  match dict_get d (py "rounds") with
  | Some (VList l) => l
  | _ => []
  end.

(** The numbers of the round lines among [msgs], in order. *)
Definition round_numbers (msgs : list message) : list nat :=
  flat_map (fun m => match m with MsgRound i _ => [i] | _ => [] end) msgs.

(** The entries of a record. *)
Definition record_dict (v : value) : dict :=
  match v with
  | VDict d => d
  | _ => []
  end.

(** [d.get(k, default)] on a dict. *)
Definition get_or (d : dict) (k : str) (default : value) : value :=
  match dict_get d k with
  | Some x => x
  | None => default
  end.

Open Scope m_scope.

(** The [try] block of [main] (lines 323-328). *)
Definition main_try (company role jd_text : str) : M unit :=
  roadmap <- generate_roadmap company role jd_text ;;
  display_roadmap roadmap ;;
  filename <- save_roadmap roadmap company role ;;
  print (MsgComplete filename).

Close Scope m_scope.

(** The world in which [main] enters its [try] block: the banner, the two
    questions with their repetitions and the invitation to paste were
    printed, the input was read up to the end of the job description. *)
Definition inputs_read (blanks1 blanks2 : nat) (rest : list stdin_event)
           (w : World) : World :=
  set_stdin rest
    (printed ([MsgBanner; MsgRule 50]
              ++ asked MsgPromptCompany MsgCompanyRequired blanks1
              ++ asked MsgPromptRole MsgRoleRequired blanks2
              ++ [MsgPasteJobDescription; MsgPasteHint; MsgRule 50]) w).



(** * Properties *)

(** ** Strings *)

Lemma split_go_length sep s : forall skip cur,
  1 <= List.length (split_go sep skip cur s).
Proof.
  induction s as [|c t IH]; intros skip cur; cbn [split_go].
  - cbn. lia.
  - destruct skip as [|k]; [|apply IH].
    destruct (startswith sep (c :: t)); [cbn [List.length]; lia | apply IH].
Qed.

Lemma split_go_length_contains sep s : sep <> [] -> forall cur,
  contains sep s = true -> 2 <= List.length (split_go sep 0 cur s).
Proof.
  intros Hsep. induction s as [|c t IH]; intros cur H.
  - destruct sep; [congruence | discriminate H].
  - cbn [split_go]. cbn [contains] in H.
    destruct (startswith sep (c :: t)).
    + cbn [List.length].
      pose proof (split_go_length sep t (List.length sep - 1) []). lia.
    + apply IH. exact H.
Qed.

Lemma split_parts sep s : sep <> [] ->
  (if contains sep s then 2 else 1) <= List.length (split sep s).
Proof.
  intros Hsep. unfold split. destruct (contains sep s) eqn:E.
  - now apply split_go_length_contains.
  - apply split_go_length.
Qed.

Lemma getitem_in_bounds {A} (l : list A) i :
  i < List.length l -> exists a, getitem l i = Returned a.
Proof.
  intros H. unfold getitem.
  destruct (nth_error l i) eqn:E; [eauto|].
  apply nth_error_None in E. lia.
Qed.

Lemma FENCE_JSON_nonempty : FENCE_JSON <> [].
Proof. discriminate. Qed.

Lemma FENCE_nonempty : FENCE <> [].
Proof. discriminate. Qed.

Lemma fence_pair sep cleaned : sep <> [] -> contains sep cleaned = true ->
  exists inner body,
    getitem (split sep cleaned) 1 = Returned inner /\
    getitem (split FENCE inner) 0 = Returned body.
Proof.
  intros Hsep Hc.
  pose proof (split_parts sep cleaned Hsep) as H2. rewrite Hc in H2.
  destruct (getitem_in_bounds (split sep cleaned) 1) as [inner Hi]; [lia|].
  pose proof (split_parts FENCE inner FENCE_nonempty) as H1.
  destruct (getitem_in_bounds (split FENCE inner) 0) as [body Hb].
  - destruct (contains FENCE inner); lia.
  - eauto.
Qed.

Lemma fence_contents_returns cleaned :
  exists working, fence_contents cleaned = Returned working.
Proof.
  unfold fence_contents.
  destruct (contains FENCE_JSON cleaned) eqn:E1.
  - destruct (fence_pair _ _ FENCE_JSON_nonempty E1) as (inner & body & -> & Hb).
    cbn [obind]. rewrite Hb. cbn [obind]. eauto.
  - destruct (contains FENCE cleaned) eqn:E2; [|eauto].
    destruct (fence_pair _ _ FENCE_nonempty E2) as (inner & body & -> & Hb).
    cbn [obind]. rewrite Hb. cbn [obind]. eauto.
Qed.

(** C10. The fence step is in bounds: splitting on a delimiter yields at
    least two parts whenever the delimiter occurs in the text (and at
    least one part always), so neither the index 1 taken under the guard
    nor the index 0 taken after it is out of range, and the step returns a
    working text for every input. *)
Theorem fence_contents_in_bounds (cleaned : str) :
  (if contains FENCE_JSON cleaned then 2 else 1)
    <= List.length (split FENCE_JSON cleaned) /\
  (if contains FENCE cleaned then 2 else 1)
    <= List.length (split FENCE cleaned) /\
  exists working, fence_contents cleaned = Returned working.
Proof.
  split; [apply split_parts, FENCE_JSON_nonempty|].
  split; [apply split_parts, FENCE_nonempty|].
  apply fence_contents_returns.
Qed.

(** ** The default record *)

Lemma create_default_roadmap_eq company role o w :
  create_default_roadmap company role o w
  = (Returned (default_record company role (now_isoformat o (clock_reads w))),
     ticked w).
Proof. reflexivity. Qed.

(** C5. For every company and role the default record holds exactly four
    interview rounds, a note, the difficulty "Medium", and every field of
    the schema: company, role, rounds, recommended_order, evidence with
    key_skills and topic_count, generated_at and version. *)
Theorem default_roadmap_shape (company role : str) (o : Oracle) (w : World) :
  exists r w',
    create_default_roadmap company role o w = (Returned r, w') /\
    (exists rounds,
        field r (py "rounds") = Some (VList rounds) /\ List.length rounds = 4) /\
    (exists note, field r (py "note") = Some (VStr note)) /\
    field r (py "difficulty") = Some (VStr (py "Medium")) /\
    fully_populated r = true /\
    field r (py "company") = Some (VStr company) /\
    field r (py "role") = Some (VStr role) /\
    (exists order, field r (py "recommended_order") = Some (VList order)) /\
    (exists evidence skills count,
        field r (py "evidence") = Some evidence /\
        field evidence (py "key_skills") = Some (VList skills) /\
        field evidence (py "topic_count") = Some (VInt count)) /\
    field r (py "generated_at")
      = Some (VStr (now_isoformat o (clock_reads w))) /\
    field r (py "version") = Some (VStr (py "1.0")).
Proof.
  exists (default_record company role (now_isoformat o (clock_reads w))),
         (ticked w).
  split; [apply create_default_roadmap_eq|].
  repeat split; try reflexivity.
  - eexists. split; reflexivity.
  - eexists. reflexivity.
  - eexists. reflexivity.
  - do 3 eexists. repeat split; reflexivity.
Qed.

(** ** Exceptions of the pure steps *)

Lemma safe_returned {A} (a : A) : safe (Returned a).
Proof. intros e H. discriminate H. Qed.

Lemma safe_raised {A} e : is_Exception e = true -> safe (@Raised A e).
Proof. intros He e' H. injection H as <-. exact He. Qed.

Lemma safe_obind {A B} (m : outcome A) (k : A -> outcome B) :
  safe m -> (forall a, safe (k a)) -> safe (obind m k).
Proof.
  intros Hm Hk e H. destruct m as [a|e']; cbn in H.
  - exact (Hk a e H).
  - injection H as <-. apply Hm. reflexivity.
Qed.

Lemma safe_if {A} (b : bool) (x y : outcome A) :
  safe x -> safe y -> safe (if b then x else y).
Proof. destruct b; auto. Qed.

Create HintDb safe_db.
#[local] Hint Resolve safe_returned safe_obind safe_if : safe_db.

Lemma safe_py_get v k d : safe (py_get v k d).
Proof. destruct v; cbn; auto using safe_returned, safe_raised. Qed.

Lemma safe_py_getitem v k : safe (py_getitem v k).
Proof.
  destruct v; cbn; auto using safe_raised.
  destruct (dict_get d k); auto using safe_returned, safe_raised.
Qed.

Lemma safe_py_first3 v : safe (py_first3 v).
Proof. destruct v; cbn; auto using safe_returned, safe_raised. Qed.

Lemma safe_py_iter v : safe (py_iter v).
Proof. destruct v; cbn; auto using safe_returned, safe_raised. Qed.

Lemma safe_py_in k v : safe (py_in k v).
Proof. destruct v; cbn; auto using safe_returned, safe_raised. Qed.

Lemma safe_all_strs vs : safe (all_strs vs).
Proof.
  induction vs as [|v vs IH]; cbn; [apply safe_returned|].
  destruct v; auto using safe_raised.
  apply safe_obind; [exact IH | intros; apply safe_returned].
Qed.

Lemma safe_join_values sep vs : safe (join_values sep vs).
Proof.
  unfold join_values. apply safe_obind; [apply safe_all_strs|].
  intros; apply safe_returned.
Qed.

Lemma safe_collect_topic_texts topics : forall results,
  safe (collect_topic_texts topics results).
Proof.
  induction topics as [|t ts IH]; intros results; cbn [collect_topic_texts].
  - apply safe_returned.
  - apply safe_obind; [apply safe_py_in|]. intros [|]; [|apply IH].
    apply safe_obind; [apply safe_py_getitem|]. intros; apply IH.
Qed.

#[local] Hint Resolve safe_py_get safe_py_getitem safe_py_first3 safe_py_iter
  safe_py_in safe_join_values safe_collect_topic_texts : safe_db.

Lemma safe_extract_results fl query data : safe (extract_results fl query data).
Proof.
  unfold extract_results.
  repeat (first [ apply safe_obind; [|intros ?] | apply safe_if ];
          auto with safe_db).
Qed.

(** ** The search collaborator *)

(** What [search_duckduckgo] does, by the outcome of its [try] block. *)
Lemma search_duckduckgo_cases query o w :
  search_duckduckgo query o w =
  match obind (http_get_json o (List.length (requests_sent w)) query)
              (extract_results (floats o) query) with
  | Returned s => (Returned s, requested query w)
  | Raised e =>
      if is_Exception e
      then (Returned search_unavailable,
            printed [MsgSearchFailed e] (requested query w))
      else (Raised e, requested query w)
  end.
Proof.
  unfold search_duckduckgo, try_except, search_duckduckgo_try, bind,
    requests_get_json, oracle, lift.
  destruct (http_get_json o (List.length (requests_sent w)) query) as [data|e];
    cbn [obind].
  - destruct (extract_results (floats o) query data) as [s|e]; [reflexivity|].
    destruct (is_Exception e); reflexivity.
  - destruct (is_Exception e); reflexivity.
Qed.

Lemma search_try_safe query o w : network_ok o ->
  safe (obind (http_get_json o (List.length (requests_sent w)) query)
              (extract_results (floats o) query)).
Proof.
  intros Hnet. apply safe_obind.
  - intros e He. exact (Hnet _ _ _ He).
  - intros data. apply safe_extract_results.
Qed.

Lemma search_duckduckgo_returns query o w : network_ok o ->
  exists s,
    search_duckduckgo query o w = (Returned s, snd (search_duckduckgo query o w))
    /\ requests_sent (snd (search_duckduckgo query o w))
       = requests_sent w ++ [query]
    /\ (forall e, fst (search_duckduckgo_try query o w) = Raised e ->
        s = search_unavailable).
Proof.
  intros Hnet. pose proof (search_try_safe query o w Hnet) as Hsafe.
  rewrite search_duckduckgo_cases.
  unfold search_duckduckgo_try, bind, requests_get_json, oracle, lift.
  destruct (http_get_json o (List.length (requests_sent w)) query) as [data|e];
    cbn [obind] in *.
  - destruct (extract_results (floats o) query data) as [s|e].
    + exists s. cbn. repeat split. intros e H. discriminate H.
    + rewrite (Hsafe e eq_refl). exists search_unavailable. cbn. repeat split.
  - rewrite (Hsafe e eq_refl). exists search_unavailable. cbn. repeat split.
Qed.

(** C7. Whatever the search service does (an answer of any shape, a
    connection error, a timeout, a body that is not JSON),
    [search_duckduckgo] returns a string to its caller and raises nothing;
    whenever its [try] block fails, the string is the placeholder. *)
Theorem search_duckduckgo_never_raises (query : str) (o : Oracle) (w : World) :
  network_ok o ->
  exists s w',
    search_duckduckgo query o w = (Returned s, w') /\
    (forall e, fst (search_duckduckgo_try query o w) = Raised e ->
       s = search_unavailable).
Proof.
  intros Hnet.
  destruct (search_duckduckgo_returns query o w Hnet) as (s & E & _ & H).
  eauto.
Qed.

(** [search_company_info] runs the first two queries and joins what the
    filter keeps. *)
Lemma search_company_info_cases company role o w : network_ok o ->
  let q1 := company ++ py " " ++ role ++ py " interview process" in
  let q2 := company ++ py " technical interview questions " ++ role in
  let w0 := printed [MsgSearching company role] w in
  let w1 := snd (search_duckduckgo q1 o w0) in
  let w2 := snd (search_duckduckgo q2 o w1) in
  exists r1 r2,
    search_duckduckgo q1 o w0 = (Returned r1, w1) /\
    search_duckduckgo q2 o w1 = (Returned r2, w2) /\
    search_company_info company role o w =
      (Returned (let all_results := filter kept [r1; r2] in
                 if is_empty all_results then fallback_info company role
                 else take 2000 (join (py " ") all_results)), w2) /\
    requests_sent w2 = requests_sent w ++ [q1; q2] /\
    (forall e, fst (search_duckduckgo_try q1 o w0) = Raised e ->
       r1 = search_unavailable) /\
    (forall e, fst (search_duckduckgo_try q2 o w1) = Raised e ->
       r2 = search_unavailable).
Proof.
  intros Hnet q1 q2 w0 w1 w2.
  destruct (search_duckduckgo_returns q1 o w0 Hnet) as (r1 & E1 & R1 & U1).
  destruct (search_duckduckgo_returns q2 o w1 Hnet) as (r2 & E2 & R2 & U2).
  fold w1 in E1, R1. fold w2 in E2, R2.
  exists r1, r2. split; [exact E1|]. split; [exact E2|].
  split; [|split; [|split; [exact U1 | exact U2]]].
  - unfold search_company_info, bind, print.
    cbn [queries firstn search_queries]. fold q1 q2 w0.
    unfold bind, try_except. rewrite E1.
    unfold kept, filter.
    destruct (negb (is_empty r1) && negb (contains NO_SPECIFIC_RESULTS r1));
      cbn [ret app]; rewrite E2;
      destruct (negb (is_empty r2) && negb (contains NO_SPECIFIC_RESULTS r2));
      reflexivity.
  - rewrite R2, R1. subst w0. cbn [requests_sent printed].
    rewrite <- app_assoc. reflexivity.
Qed.

Lemma search_try_raises query o w e :
  http_get_json o (List.length (requests_sent w)) query = Raised e ->
  fst (search_duckduckgo_try query o w) = Raised e.
Proof.
  intros H. unfold search_duckduckgo_try, bind, requests_get_json.
  rewrite H. reflexivity.
Qed.

(** C6, as the code has it.  [search_company_info] issues the first two of
    the four queries and no other; it keeps a result when the result is
    not empty and does not hold the phrase of the no-results sentence,
    joins what it keeps with single spaces and cuts the text at 2000
    characters; when it keeps nothing it returns the static paragraph.
    The sentence [search_duckduckgo] returns for a failed call passes the
    filter: when every call fails, the text is that sentence twice, joined
    by a space. *)
Theorem search_company_info_aggregates (company role : str) (o : Oracle)
        (w : World) :
  network_ok o ->
  exists r1 r2 w1 w2,
    let q1 := company ++ py " " ++ role ++ py " interview process" in
    let q2 := company ++ py " technical interview questions " ++ role in
    search_duckduckgo q1 o (printed [MsgSearching company role] w)
      = (Returned r1, w1) /\
    search_duckduckgo q2 o w1 = (Returned r2, w2) /\
    search_company_info company role o w =
      (Returned (let all_results := filter kept [r1; r2] in
                 if is_empty all_results then fallback_info company role
                 else take 2000 (join (py " ") all_results)), w2) /\
    requests_sent w2 = requests_sent w ++ firstn 2 (queries company role) /\
    ((forall n q, exists e, http_get_json o n q = Raised e) ->
     fst (search_company_info company role o w)
     = Returned (search_unavailable ++ py " " ++ search_unavailable)).
Proof.
  intros Hnet.
  destruct (search_company_info_cases company role o w Hnet)
    as (r1 & r2 & E1 & E2 & E & R & U1 & U2).
  exists r1, r2. do 2 eexists. cbv zeta.
  split; [exact E1|]. split; [exact E2|]. split; [exact E|].
  split; [exact R|].
  intros Hfail. rewrite E. cbn [fst].
  match type of E1 with ?f ?q ?o ?w0 = _ =>
    destruct (Hfail (List.length (requests_sent w0)) q) as [e1 H1];
    rewrite (U1 e1 (search_try_raises q o w0 e1 H1))
  end.
  match type of E2 with ?f ?q ?o ?w0 = _ =>
    destruct (Hfail (List.length (requests_sent w0)) q) as [e2 H2];
    rewrite (U2 e2 (search_try_raises q o w0 e2 H2))
  end.
  reflexivity.
Qed.

Lemma example_network_ok answer : network_ok (example_oracle answer).
Proof. intros n q e H. cbn in H. injection H as <-. reflexivity. Qed.

Lemma search_duckduckgo_never_raises_witness :
  network_ok (example_oracle (Raised LLMException)) /\
  exists s w',
    search_duckduckgo (py "Acme Dev interview process")
                      (example_oracle (Raised LLMException)) (fresh_world [])
    = (Returned s, w') /\
    (forall e,
       fst (search_duckduckgo_try (py "Acme Dev interview process")
              (example_oracle (Raised LLMException)) (fresh_world []))
       = Raised e ->
       s = search_unavailable).
Proof.
  split; [apply example_network_ok|].
  apply (search_duckduckgo_never_raises (py "Acme Dev interview process")
           (example_oracle (Raised LLMException)) (fresh_world [])).
  apply example_network_ok.
Defined.

(** When every search call fails, the company-info text is not the
    placeholder sentence: it is the sentence twice. *)
Lemma search_company_info_all_fail_counterexample :
  (forall n q,
     http_get_json (example_oracle (Raised LLMException)) n q
     = Raised RequestException) /\
  fst (search_company_info (py "Acme") (py "Dev")
         (example_oracle (Raised LLMException)) (fresh_world []))
  = Returned (search_unavailable ++ py " " ++ search_unavailable) /\
  fst (search_company_info (py "Acme") (py "Dev")
         (example_oracle (Raised LLMException)) (fresh_world []))
  <> Returned search_unavailable.
Proof.
  split; [reflexivity|]. split; [vm_compute; reflexivity|].
  vm_compute. discriminate.
Qed.

Lemma search_company_info_aggregates_witness :
  network_ok (example_oracle (Raised LLMException)) /\
  exists r1 r2 w1 w2,
    search_duckduckgo (py "Acme" ++ py " " ++ py "Dev" ++ py " interview process")
      (example_oracle (Raised LLMException))
      (printed [MsgSearching (py "Acme") (py "Dev")] (fresh_world []))
      = (Returned r1, w1) /\
    search_duckduckgo
      (py "Acme" ++ py " technical interview questions " ++ py "Dev")
      (example_oracle (Raised LLMException)) w1 = (Returned r2, w2) /\
    search_company_info (py "Acme") (py "Dev")
      (example_oracle (Raised LLMException)) (fresh_world []) =
      (Returned (if is_empty (filter kept [r1; r2])
                 then fallback_info (py "Acme") (py "Dev")
                 else take 2000 (join (py " ") (filter kept [r1; r2]))), w2) /\
    requests_sent w2
      = requests_sent (fresh_world [])
        ++ firstn 2 (queries (py "Acme") (py "Dev")) /\
    ((forall n q, exists e,
         http_get_json (example_oracle (Raised LLMException)) n q = Raised e) ->
     fst (search_company_info (py "Acme") (py "Dev")
            (example_oracle (Raised LLMException)) (fresh_world []))
     = Returned (search_unavailable ++ py " " ++ search_unavailable)).
Proof.
  split; [apply example_network_ok|].
  apply (search_company_info_aggregates (py "Acme") (py "Dev")
           (example_oracle (Raised LLMException)) (fresh_world [])).
  apply example_network_ok.
Defined.

(** ** Dicts *)

Lemma str_eqb_refl a : str_eqb a a = true.
Proof. induction a as [|x a IH]; cbn; [reflexivity|]. now rewrite N.eqb_refl. Qed.

Lemma str_eqb_eq a : forall b, str_eqb a b = true -> a = b.
Proof.
  induction a as [|x a IH]; intros [|y b] H; cbn in H; try discriminate.
  - reflexivity.
  - apply andb_true_iff in H as [Hx Hab].
    apply N.eqb_eq in Hx. f_equal; auto.
Qed.

Lemma dict_get_set_same d k v : dict_get (dict_set d k v) k = Some v.
Proof.
  induction d as [|[k0 v0] d IH]; cbn.
  - now rewrite str_eqb_refl.
  - destruct (str_eqb k0 k) eqn:E; cbn; rewrite E; [reflexivity | exact IH].
Qed.

Lemma dict_get_set_other d k k' v :
  str_eqb k k' = false -> dict_get (dict_set d k v) k' = dict_get d k'.
Proof.
  intros Hk. induction d as [|[k0 v0] d IH]; cbn.
  - now rewrite Hk.
  - destruct (str_eqb k0 k) eqn:E; cbn.
    + apply str_eqb_eq in E. subst k0. now rewrite Hk.
    + destruct (str_eqb k0 k'); [reflexivity | exact IH].
Qed.

Lemma dict_keys_set_present d k v :
  has_field d k = true -> dict_keys (dict_set d k v) = dict_keys d.
Proof.
  unfold has_field. induction d as [|[k0 v0] d IH]; cbn; [discriminate|].
  destruct (str_eqb k0 k); cbn; [reflexivity|].
  intros H. f_equal. exact (IH H).
Qed.

(** ** The parser *)

Lemma json_candidate_returns text : exists c, json_candidate text = Returned c.
Proof.
  unfold json_candidate.
  destruct (fence_contents_returns (strip text)) as [cleaned ->]. cbn [obind].
  match goal with |- context [if ?b then _ else _] => destruct b end; eauto.
Qed.

Lemma loads_raises s e : Json.loads s = Raised e -> e = JSONDecodeError.
Proof.
  unfold Json.loads. destruct (startswith _ s); [congruence|].
  destruct (Json.decode s); congruence.
Qed.

Lemma extract_json_cases text o w :
  exists c,
    json_candidate text = Returned c /\
    extract_json_from_text text o w =
    match Json.loads c with
    | Returned v => (Returned v, w)
    | Raised _ =>
        (Returned (default_record (py "Unknown") (py "Unknown")
                     (now_isoformat o (clock_reads w))),
         after_fallback text w)
    end.
Proof.
  destruct (json_candidate_returns text) as [c Hc]. exists c.
  split; [exact Hc|].
  unfold extract_json_from_text, try_except, bind, lift. rewrite Hc.
  destruct (Json.loads c) as [v|e] eqn:E; [reflexivity|].
  apply loads_raises in E. subst e. reflexivity.
Qed.



(** A JSON array is decoded and returned as it is; the assignments of
    [generate_roadmap] then raise [TypeError]. *)
Example extract_json_array :
  fst (extract_json_from_text (py "[1, 2]")
         (example_oracle (Raised LLMException)) (fresh_world []))
  = Returned (VList [VInt 1; VInt 2]) /\
  fst (generate_roadmap (py "Acme") (py "Dev") (py "Build things")
         (example_oracle (Returned (py "[1, 2]"))) (fresh_world []))
  = Raised TypeError.
Proof. split; vm_compute; reflexivity. Qed.

(** ** [generate_roadmap] *)

Lemma stamp_record d company role o w :
  stamp (VDict d) company role o w
  = (Returned (VDict (stamped d company role (now_isoformat o (clock_reads w)))),
     ticked w).
Proof. reflexivity. Qed.

Lemma stamp_not_record v company role o w :
  is_record v = false -> stamp v company role o w = (Raised TypeError, w).
Proof. destruct v; cbn; intros H; try reflexivity; discriminate H. Qed.

Lemma stamped_system_fields d company role o n :
  system_fields (VDict (stamped d company role (now_isoformat o n)))
                company role o.
Proof.
  unfold system_fields, stamped, field. repeat split.
  - rewrite !dict_get_set_other by reflexivity. apply dict_get_set_same.
  - rewrite !dict_get_set_other by reflexivity. apply dict_get_set_same.
  - exists n. rewrite dict_get_set_other by reflexivity.
    apply dict_get_set_same.
  - apply dict_get_set_same.
Qed.

Lemma default_system_fields company role o n :
  system_fields (default_record company role (now_isoformat o n)) company role o.
Proof. unfold system_fields. repeat split; try reflexivity. exists n. reflexivity. Qed.

(** [generate_roadmap], step by step. *)
Lemma generate_roadmap_cases company role jd o w :
  generate_roadmap company role jd o w =
  match search_company_info company role o
          (printed [MsgGathering] (printed [MsgGenerating role company] w)) with
  | (Raised e, w1) => (Raised e, w1)
  | (Returned info, w1) =>
      let w2 := before_llm (prompt_text company role jd info) w1 in
      match llm_invoke o (prompt_text company role jd info) with
      | Raised e =>
          if is_Exception e
          then (Returned (default_record company role
                            (now_isoformat o (clock_reads w2))),
                ticked (printed [MsgLlmFailed e] w2))
          else (Raised e, w2)
      | Returned text =>
          match extract_json_from_text text o w2 with
          | (Raised e, w3) => (Raised e, w3)
          | (Returned roadmap, w3) =>
              match stamp roadmap company role o w3 with
              | (Raised e, w4) => (Raised e, w4)
              | (Returned r, w4) => (Returned r, printed [MsgSuccess] w4)
              end
          end
      end
  end.
Proof.
  unfold generate_roadmap, bind, print.
  destruct (search_company_info company role o _) as [[info|e] w1]; [|reflexivity].
  unfold try_except, bind, llm_call, before_llm.
  destruct (llm_invoke o (prompt_text company role jd info)) as [text|e].
  - cbn [ret].
    destruct (extract_json_from_text text o _) as [[roadmap|e] w3]; [|reflexivity].
    destruct (stamp roadmap company role o w3) as [[r|e] w4]; reflexivity.
  - destruct (is_Exception e); reflexivity.
Qed.

Lemma search_company_info_returns company role o w : network_ok o ->
  exists info w1, search_company_info company role o w = (Returned info, w1).
Proof.
  intros Hnet.
  destruct (search_company_info_cases company role o w Hnet)
    as (r1 & r2 & _ & _ & E & _).
  eauto.
Qed.

(** C4. Whatever the model answers, a record [generate_roadmap] returns
    has the caller's company and role, a time stamp read from the system
    clock and the fixed version tag, on the path through the parser and on
    the path of a failed model call alike; it returns such a record unless
    the model answer decodes to something that is not an object, where the
    assignments raise [TypeError] and no record is returned. *)
Theorem generate_roadmap_system_fields (company role jd : str) (o : Oracle)
        (w : World) :
  network_ok o -> llm_ok o ->
  match generate_roadmap company role jd o w with
  | (Returned r, _) => system_fields r company role o
  | (Raised e, _) =>
      exists info text c v,
        llm_invoke o (prompt_text company role jd info) = Returned text /\
        json_candidate text = Returned c /\
        Json.loads c = Returned v /\
        is_record v = false /\ e = TypeError
  end.
Proof.
  intros Hnet Hllm. rewrite generate_roadmap_cases.
  destruct (search_company_info_returns company role o
              (printed [MsgGathering] (printed [MsgGenerating role company] w))
              Hnet) as (info & w1 & ->).
  cbv zeta.
  destruct (llm_invoke o (prompt_text company role jd info)) as [text|e] eqn:L.
  - destruct (extract_json_cases text o
                (before_llm (prompt_text company role jd info) w1))
      as (c & Hc & ->).
    destruct (Json.loads c) as [v|e] eqn:D.
    + destruct v; try (rewrite stamp_not_record by reflexivity;
                       exists info, text, c; eexists; repeat split; eauto).
      rewrite stamp_record. apply stamped_system_fields.
    + unfold default_record. rewrite stamp_record. apply stamped_system_fields.
  - rewrite (Hllm _ _ L). apply default_system_fields.
Qed.


Lemma example_llm_ok answer :
  (forall e, answer = Raised e -> is_Exception e = true) ->
  llm_ok (example_oracle answer).
Proof. intros H p e E. apply H. exact E. Qed.

Lemma generate_roadmap_system_fields_witness :
  network_ok (example_oracle
                (Returned (pyq "{'company': 'Other', 'version': '9', 'x': 1}"))) /\
  llm_ok (example_oracle
            (Returned (pyq "{'company': 'Other', 'version': '9', 'x': 1}"))) /\
  match generate_roadmap (py "Acme") (py "Dev") (py "Build things")
          (example_oracle
             (Returned (pyq "{'company': 'Other', 'version': '9', 'x': 1}")))
          (fresh_world []) with
  | (Returned r, _) =>
      system_fields r (py "Acme") (py "Dev")
        (example_oracle
           (Returned (pyq "{'company': 'Other', 'version': '9', 'x': 1}")))
  | (Raised e, _) =>
      exists info text c v,
        llm_invoke
          (example_oracle
             (Returned (pyq "{'company': 'Other', 'version': '9', 'x': 1}")))
          (prompt_text (py "Acme") (py "Dev") (py "Build things") info)
        = Returned text /\
        json_candidate text = Returned c /\
        Json.loads c = Returned v /\
        is_record v = false /\ e = TypeError
  end.
Proof.
  split; [apply example_network_ok|].
  split; [apply example_llm_ok; intros e H; discriminate H|].
  apply (generate_roadmap_system_fields (py "Acme") (py "Dev")
           (py "Build things")
           (example_oracle
              (Returned (pyq "{'company': 'Other', 'version': '9', 'x': 1}")))
           (fresh_world [])).
  - apply example_network_ok.
  - apply example_llm_ok; intros e H; discriminate H.
Defined.


(** ** [get_job_description] and [main] *)

Lemma ask_loop_answer prompt required blanks answer rest : forall out,
  forallb blank blanks = true ->
  is_empty (strip answer) = false ->
  ask_loop prompt required (blanks ++ Line answer :: rest) out
  = (Returned (strip answer), rest,
     out ++ asked prompt required (List.length blanks)).
Proof.
  unfold asked.
  induction blanks as [|ev blanks IH]; intros out Hb Ha; cbn [app ask_loop].
  - rewrite Ha. reflexivity.
  - cbn [forallb] in Hb. apply andb_true_iff in Hb as [Hev Hb].
    destruct ev as [s|]; [|discriminate Hev]. cbn [blank] in Hev.
    rewrite Hev. cbn [negb]. rewrite (IH _ Hb Ha).
    cbn [List.length repeat List.concat]. rewrite <- !app_assoc. reflexivity.
Qed.

Lemma ask_answer prompt required blanks answer rest o w :
  stdin w = blanks ++ Line answer :: rest ->
  forallb blank blanks = true ->
  is_empty (strip answer) = false ->
  ask prompt required o w
  = (Returned (strip answer),
     printed (asked prompt required (List.length blanks)) (set_stdin rest w)).
Proof.
  intros Hin Hb Ha. unfold ask. rewrite Hin.
  rewrite (ask_loop_answer prompt required blanks answer rest [] Hb Ha).
  reflexivity.
Qed.

Lemma get_job_description_empty o w :
  is_empty (strip (jd_text_of (stdin w))) = true ->
  get_job_description o w
  = (Returned None,
     printed [MsgJobDescriptionEmpty]
       (set_stdin (snd (read_lines (stdin w)))
          (printed [MsgRule 50]
             (printed [MsgPasteHint] (printed [MsgPasteJobDescription] w))))).
Proof.
  unfold jd_text_of. intros H.
  unfold get_job_description, bind, print, input_lines. cbn [stdin printed].
  destruct (read_lines (stdin w)) as [jd_lines rest]. cbn [fst snd] in *.
  rewrite H. reflexivity.
Qed.

(** C8. With the key set and a company and a role entered, a job
    description that is empty once the lines are joined and stripped makes
    [get_job_description] print its message and return the empty marker,
    and [main] return at once: no search request, no model call, no
    reading of the clock, no file, and nothing printed after the message. *)
Theorem empty_job_description_aborts (o : Oracle) (w : World)
        (blanks1 blanks2 jd_events : list stdin_event) (company role : str) :
  has_api_key o = true ->
  stdin w = blanks1 ++ Line company :: blanks2 ++ Line role :: jd_events ->
  forallb blank blanks1 = true -> is_empty (strip company) = false ->
  forallb blank blanks2 = true -> is_empty (strip role) = false ->
  is_empty (strip (jd_text_of jd_events)) = true ->
  (forall w0, stdin w0 = jd_events ->
     fst (get_job_description o w0) = Returned None) /\
  exists w',
    main o w = (Returned tt, w') /\
    files w' = files w /\
    requests_sent w' = requests_sent w /\
    prompts_sent w' = prompts_sent w /\
    clock_reads w' = clock_reads w /\
    console w' =
      console w ++ [MsgBanner; MsgRule 50]
      ++ asked MsgPromptCompany MsgCompanyRequired (List.length blanks1)
      ++ asked MsgPromptRole MsgRoleRequired (List.length blanks2)
      ++ [MsgPasteJobDescription; MsgPasteHint; MsgRule 50;
          MsgJobDescriptionEmpty].
Proof.
  intros Hkey Hin Hb1 Hc Hb2 Hr Hjd. split.
  - intros w0 H0. rewrite get_job_description_empty; [reflexivity|].
    now rewrite H0.
  - unfold main, bind, oracle. rewrite Hkey. cbn [negb]. unfold print at 1 2.
    rewrite (ask_answer MsgPromptCompany MsgCompanyRequired blanks1 company
               (blanks2 ++ Line role :: jd_events))
      by first [assumption | cbn; assumption].
    rewrite (ask_answer MsgPromptRole MsgRoleRequired blanks2 role jd_events)
      by first [assumption | reflexivity].
    rewrite get_job_description_empty by exact Hjd.
    eexists. split; [reflexivity|]. cbn.
    repeat split. rewrite <- !app_assoc. reflexivity.
Qed.

Lemma empty_job_description_aborts_witness :
  has_api_key (example_oracle (Raised LLMException)) = true /\
  stdin (fresh_world [Line []; Line (py " Acme "); Line (py "Dev");
                      Line (py "  "); Line []])
  = [Line []] ++ Line (py " Acme ") :: [] ++ Line (py "Dev")
      :: [Line (py "  "); Line []] /\
  (forall w0, stdin w0 = [Line (py "  "); Line []] ->
     fst (get_job_description (example_oracle (Raised LLMException)) w0)
     = Returned None) /\
  exists w',
    main (example_oracle (Raised LLMException))
         (fresh_world [Line []; Line (py " Acme "); Line (py "Dev");
                       Line (py "  "); Line []])
    = (Returned tt, w') /\
    files w' = [] /\ requests_sent w' = [] /\ prompts_sent w' = [] /\
    clock_reads w' = 0 /\
    console w' =
      [MsgBanner; MsgRule 50; MsgPromptCompany; MsgCompanyRequired;
       MsgPromptCompany; MsgPromptRole;
       MsgPasteJobDescription; MsgPasteHint; MsgRule 50;
       MsgJobDescriptionEmpty].
Proof.
  split; [reflexivity|]. split; [reflexivity|].
  apply (empty_job_description_aborts (example_oracle (Raised LLMException))
           (fresh_world [Line []; Line (py " Acme "); Line (py "Dev");
                         Line (py "  "); Line []])
           [Line []] [] [Line (py "  "); Line []] (py " Acme ") (py "Dev"));
    reflexivity.
Defined.

(** ** Finding the braces *)

Lemma startswith_char c x t : startswith [c] (x :: t) = N.eqb c x.
Proof. cbn. apply andb_true_r. Qed.

Lemma contains_char_cons c x t :
  contains [c] (x :: t) = N.eqb c x || contains [c] t.
Proof. cbn [contains]. now rewrite startswith_char. Qed.






(** ** Splitting at a fence *)

Lemma startswith_app (sep s : str) : startswith sep (sep ++ s) = true.
Proof. induction sep as [|x sep IH]; cbn; [reflexivity|]. now rewrite N.eqb_refl. Qed.

Lemma startswith_other (c : char) (sep' : str) (x : char) (t : str) :
  N.eqb c x = false -> startswith (c :: sep') (x :: t) = false.
Proof. intros H. cbn. now rewrite H. Qed.

(** A stretch without the first character of the separator is passed over. *)
Lemma split_go_pass (c : char) (sep' m : str) : forall cur s : str,
  contains [c] m = false ->
  split_go (c :: sep') 0 cur (m ++ s) = split_go (c :: sep') 0 (rev m ++ cur) s.
Proof.
  induction m as [|x m IH]; intros cur s H; [reflexivity|].
  rewrite contains_char_cons in H. apply orb_false_iff in H as [Hx Hm].
  cbn [app split_go]. rewrite (startswith_other c sep' x _ Hx).
  rewrite (IH _ _ Hm). cbn [rev]. now rewrite <- app_assoc.
Qed.

Lemma split_go_skip (sep x : str) : forall cur b : str,
  split_go sep (List.length x) cur (x ++ b) = split_go sep 0 cur b.
Proof.
  induction x as [|y x IH]; intros cur b; cbn [List.length app].
  - reflexivity.
  - cbn [split_go]. apply IH.
Qed.

(** At the separator a piece ends. *)
Lemma split_go_match (c : char) (sep' cur b : str) :
  split_go (c :: sep') 0 cur ((c :: sep') ++ b)
  = rev cur :: split_go (c :: sep') 0 [] b.
Proof.
  cbn [app]. cbn [split_go].
  change (c :: sep' ++ b) with ((c :: sep') ++ b). rewrite startswith_app.
  replace (List.length (c :: sep') - 1) with (List.length sep')
    by (cbn [List.length]; lia).
  now rewrite split_go_skip.
Qed.

Lemma split_go_none (c : char) (sep' s : str) : forall cur : str,
  contains [c] s = false -> split_go (c :: sep') 0 cur s = [rev cur ++ s].
Proof.
  intros cur H. rewrite <- (app_nil_r s) at 1.
  rewrite split_go_pass by exact H. cbn [split_go].
  rewrite rev_app_distr, rev_involutive. reflexivity.
Qed.


Lemma contains_app_r (sep a s : str) : contains sep s = true -> contains sep (a ++ s) = true.
Proof.
  intros H. induction a as [|x a IH]; [exact H|].
  cbn [app contains]. rewrite IH. apply orb_true_r.
Qed.

Lemma contains_at (sep a b : str) : contains sep (a ++ sep ++ b) = true.
Proof.
  apply contains_app_r. destruct sep as [|c sep']; [destruct b; reflexivity|].
  cbn [contains app].
  change (c :: sep' ++ b) with ((c :: sep') ++ b).
  now rewrite startswith_app.
Qed.

(** The pieces of a text with one separator, none of whose first
    character occurs elsewhere. *)
Lemma split_one (c : char) (sep' a b : str) :
  contains [c] a = false -> contains [c] b = false ->
  split (c :: sep') (a ++ (c :: sep') ++ b) = [a; b].
Proof.
  intros Ha Hb. unfold split. rewrite split_go_pass by exact Ha.
  rewrite split_go_match, split_go_none by exact Hb.
  rewrite app_nil_r, rev_involutive. reflexivity.
Qed.





Lemma getitem_0 {A} (x : A) l : getitem (x :: l) 0 = Returned x.
Proof. reflexivity. Qed.






(** ** Recovering an embedded object *)





(** ** The round trip through the persisted file format *)

(** *** Strings *)







(** *** Integers *)













(** *** Scalars *)





(** *** Layout *)



Lemma stop_indent level (s : str) : stop (JsonEnc.newline_indent level ++ s) = true.
Proof. reflexivity. Qed.

Lemma stop_comma (s : str) : stop (py "," ++ s) = true.
Proof. reflexivity. Qed.



(** *** Lists *)


(** *** Dicts *)






Lemma str_eqb_sym a b : str_eqb a b = str_eqb b a.
Proof.
  destruct (str_eqb a b) eqn:E.
  - apply str_eqb_eq in E. subst. now rewrite str_eqb_refl.
  - destruct (str_eqb b a) eqn:E'; [|reflexivity].
    apply str_eqb_eq in E'. subst. now rewrite str_eqb_refl in E.
Qed.




(** *** Values *)

Section ValueInduction.
Variable P : value -> Prop.
Hypothesis HNone : P VNone.
Hypothesis HBool : forall b, P (VBool b).
Hypothesis HInt : forall z, P (VInt z).
Hypothesis HFloat : forall f, P (VFloat f).
Hypothesis HStr : forall s, P (VStr s).
Hypothesis HList : forall l, Forall P l -> P (VList l).
Hypothesis HDict :
  forall d, Forall (fun kv : str * value => P (snd kv)) d -> P (VDict d).

Fixpoint value_ind (v : value) : P v :=
  match v with
  | VNone => HNone
  | VBool b => HBool b
  | VInt z => HInt z
  | VFloat f => HFloat f
  | VStr s => HStr s
  | VList l =>
      HList l
        ((fix items (l : list value) : Forall P l :=
            match l with
            | [] => Forall_nil P
            | x :: t => Forall_cons x (value_ind x) (items t)
            end) l)
  | VDict d =>
      HDict d
        ((fix entries (d : list (str * value))
            : Forall (fun kv : str * value => P (snd kv)) d :=
            match d with
            | [] => Forall_nil _
            | (k, x) :: t =>
                @Forall_cons _ (fun kv : str * value => P (snd kv))
                             (k, x) t (value_ind x) (entries t)
            end) d)
  end.
End ValueInduction.





(** *** Fuel *)






(** *** [json.loads] after [json.dumps] *)



(** *** The pieces written to the file *)

Lemma scalar_text_encode fl v t level :
  JsonEnc.scalar_text fl v = Some t ->
  JsonEnc.encode fl v level = t /\ JsonEnc.iterencode fl v level = [t].
Proof.
  destruct v as [|b|z|f|s|l|d]; cbn; intros H; try discriminate H;
    try (destruct b); injection H as <-; split; reflexivity.
Qed.

Lemma concat_flat_map {A B} (f : A -> list (list B)) (l : list A) :
  List.concat (flat_map f l) = flat_map (fun a => List.concat (f a)) l.
Proof.
  induction l as [|a l IH]; [reflexivity|].
  cbn [flat_map]. now rewrite concat_app, IH.
Qed.

Lemma flat_map_ext_Forall {A B} (P : A -> Prop) (f g : A -> list B) l :
  Forall P l -> (forall a, P a -> f a = g a) -> flat_map f l = flat_map g l.
Proof.
  intros HP Hfg. induction HP as [|a l Ha _ IH]; [reflexivity|].
  cbn [flat_map]. now rewrite (Hfg a Ha), IH.
Qed.

(** An item of a list or the value of an entry: its pieces make its text. *)
Lemma concat_item fl y level (buf : str) :
  List.concat (JsonEnc.iterencode fl y level) = JsonEnc.encode fl y level ->
  List.concat
    (match JsonEnc.scalar_text fl y with
     | Some t => [buf ++ t]
     | None => buf :: JsonEnc.iterencode fl y level
     end)
  = buf ++ JsonEnc.encode fl y level.
Proof.
  intros IH. destruct (JsonEnc.scalar_text fl y) as [t|] eqn:E.
  - destruct (scalar_text_encode fl y t level E) as [-> _].
    cbn [List.concat]. apply app_nil_r.
  - cbn [List.concat]. now rewrite IH.
Qed.

Lemma concat_val fl y level :
  List.concat (JsonEnc.iterencode fl y level) = JsonEnc.encode fl y level ->
  List.concat
    (match JsonEnc.scalar_text fl y with
     | Some t => [t]
     | None => JsonEnc.iterencode fl y level
     end)
  = JsonEnc.encode fl y level.
Proof.
  intros IH. destruct (JsonEnc.scalar_text fl y) as [t|] eqn:E; [|exact IH].
  destruct (scalar_text_encode fl y t level E) as [-> _].
  cbn [List.concat]. apply app_nil_r.
Qed.

Ltac replace_concat H :=
  match type of H with
  | _ = ?r =>
      match goal with
      | |- context [@List.concat ?B ?m] =>
          replace (@List.concat B m) with r by (symmetry; exact H)
      end
  end.

(** The pieces [json.dump] writes make the text [json.dumps] returns. *)
Lemma concat_iterencode fl v :
  forall level,
    List.concat (JsonEnc.iterencode fl v level) = JsonEnc.encode fl v level.
Proof.
  assert (Hscalar : forall u t level,
             JsonEnc.scalar_text fl u = Some t ->
             List.concat (JsonEnc.iterencode fl u level)
             = JsonEnc.encode fl u level).
  { intros u t level E. destruct (scalar_text_encode fl u t level E) as [-> ->].
    cbn [List.concat]. apply app_nil_r. }
  induction v as [|b|z|f|s|l IH|d IH] using value_ind; intros level.
  - now apply (Hscalar VNone (py "null")).
  - destruct b; [now apply (Hscalar (VBool true) (py "true"))
                | now apply (Hscalar (VBool false) (py "false"))].
  - now apply (Hscalar (VInt z) (JsonEnc.int_repr z)).
  - now apply (Hscalar (VFloat f) (JsonEnc.float_text fl f)).
  - now apply (Hscalar (VStr s) (JsonEnc.encode_basestring s)).
  - destruct l as [|x xs]; [reflexivity|].
    inversion IH as [|? ? Px Pxs]; subst.
    cbn [JsonEnc.iterencode JsonEnc.encode]. cbv zeta.
    rewrite !concat_app, (concat_flat_map (A:=value) (B:=char)).
    rewrite (concat_item fl x (S level) _ (Px (S level))).
    rewrite (flat_map_ext_Forall _ _
               (fun y => py "," ++ JsonEnc.newline_indent (S level)
                         ++ JsonEnc.encode fl y (S level)) xs Pxs).
    + cbn [List.concat]. rewrite app_nil_r, <- !app_assoc. reflexivity.
    + intros y Py. rewrite (concat_item fl y (S level) _ (Py (S level))).
      now rewrite <- app_assoc.
  - destruct d as [|[k x] kvs]; [reflexivity|].
    inversion IH as [|? ? Px Pxs]; subst. cbn [snd] in Px.
    cbn [JsonEnc.iterencode JsonEnc.encode]. cbv zeta.
    rewrite !concat_app, (concat_flat_map (A:=str * value) (B:=char)).
    cbn [List.concat].
    pose proof (concat_val fl x (S level) (Px (S level))) as Hx.
    replace_concat Hx.
    rewrite (flat_map_ext_Forall _ _
               (fun kv : str * value =>
                  match kv with
                  | (k', y) =>
                      py "," ++ JsonEnc.newline_indent (S level)
                      ++ JsonEnc.encode_basestring k' ++ py ": "
                      ++ JsonEnc.encode fl y (S level)
                  end) kvs Pxs).
    + rewrite !app_nil_r, <- !app_assoc. reflexivity.
    + intros [k' y] Py. cbn [snd] in Py. cbn [List.concat].
      pose proof (concat_val fl y (S level) (Py (S level))) as Hy.
      replace_concat Hy. now rewrite <- !app_assoc.
Qed.

(** *** What the UTF-8 codec accepts *)

Lemma utf8_app (a b : str) :
  utf8_encodable (a ++ b) = utf8_encodable a && utf8_encodable b.
Proof. apply forallb_app. Qed.

Lemma utf8_concat (chunks : list str) :
  utf8_encodable (List.concat chunks) = forallb utf8_encodable chunks.
Proof.
  induction chunks as [|c chunks IH]; [reflexivity|].
  cbn [List.concat forallb]. now rewrite utf8_app, IH.
Qed.

Lemma utf8_flat_map {A} (f : A -> str) (l : list A) :
  utf8_encodable (flat_map f l) = forallb (fun a => utf8_encodable (f a)) l.
Proof.
  induction l as [|a l IH]; [reflexivity|].
  cbn [flat_map forallb]. now rewrite utf8_app, IH.
Qed.

Lemma utf8_small (c : char) : (c < 55296)%N -> utf8_encodable [c] = true.
Proof.
  intros H. cbn. destruct (N.leb_spec 55296 c); [lia | reflexivity].
Qed.

Lemma hexdigit_small n : (n < 32)%N -> (JsonEnc.hexdigit n < 55296)%N.
Proof. intros H. unfold JsonEnc.hexdigit. destruct (n <? 10)%N; lia. Qed.

Lemma utf8_escape_char (c : char) :
  utf8_encodable [c] = true -> utf8_encodable (JsonEnc.escape_char c) = true.
Proof.
  intros H. unfold JsonEnc.escape_char.
  repeat match goal with
         | |- context [if ?b then _ else _] =>
             destruct b eqn:?; [try reflexivity|]
         end; [|exact H].
  match goal with E : (c <? 32)%N = true |- _ => apply N.ltb_lt in E end.
  change [92; 117; 48; 48; JsonEnc.hexdigit (c / 16); JsonEnc.hexdigit (c mod 16)]%N
    with ([92; 117; 48; 48]%N ++ [JsonEnc.hexdigit (c / 16)]
          ++ [JsonEnc.hexdigit (c mod 16)]).
  rewrite !utf8_app, !utf8_small; [reflexivity | |];
    apply hexdigit_small.
  - pose proof (N.mod_lt c 16). lia.
  - assert (c / 16 <= c)%N by (apply N.Div0.div_le_upper_bound; lia). lia.
Qed.







(** *** Decoded values are well formed *)

Lemma existsb_keys_set a (d : dict) k v :
  existsb (str_eqb a) (dict_keys (dict_set d k v))
  = existsb (str_eqb a) (dict_keys d) || str_eqb a k.
Proof.
  induction d as [|[k0 v0] d IH]; cbn [dict_set].
  - cbn. now rewrite orb_false_r.
  - destruct (str_eqb k0 k) eqn:E; cbn [dict_keys map fst existsb].
    + apply str_eqb_eq in E. subst k0.
      destruct (str_eqb a k); [now rewrite !orb_true_r | now rewrite orb_false_r].
    + fold (dict_keys (dict_set d k v)). fold (dict_keys d).
      rewrite IH. now rewrite orb_assoc.
Qed.

Lemma no_dup_keys_set (d : dict) k v :
  no_dup_keys (dict_keys d) = true ->
  no_dup_keys (dict_keys (dict_set d k v)) = true.
Proof.
  induction d as [|[k0 v0] d IH]; intros H; [reflexivity|].
  cbn [dict_set]. destruct (str_eqb k0 k) eqn:E; [exact H|].
  cbn [dict_keys map fst no_dup_keys] in *.
  fold (dict_keys (dict_set d k v)). fold (dict_keys d) in H.
  apply andb_true_iff in H as [Hk Hd]. apply andb_true_iff. split.
  - rewrite existsb_keys_set, E, orb_false_r. exact Hk.
  - exact (IH Hd).
Qed.

Lemma values_well_formed_set (d : dict) k v :
  forallb (fun kv : str * value => match kv with (_, x) => well_formed x end) d
  = true ->
  well_formed v = true ->
  forallb (fun kv : str * value => match kv with (_, x) => well_formed x end)
          (dict_set d k v) = true.
Proof.
  intros Hd Hv. induction d as [|[k0 v0] d IH]; cbn [dict_set forallb].
  - now rewrite Hv.
  - cbn [forallb] in Hd. apply andb_true_iff in Hd as [H0 Hd].
    destruct (str_eqb k0 k); cbn [forallb].
    + now rewrite Hv, Hd.
    + now rewrite H0, (IH Hd).
Qed.

Lemma well_formed_dict_set (d : dict) k v :
  well_formed (VDict d) = true -> well_formed v = true ->
  well_formed (VDict (dict_set d k v)) = true.
Proof.
  cbn [well_formed]. intros H Hv. apply andb_true_iff in H as [Hk Hd].
  apply andb_true_iff. split;
    [now apply no_dup_keys_set | now apply values_well_formed_set].
Qed.

Lemma well_formed_dict_of_pairs (pairs : list (str * value)) :
  forallb (fun kv : str * value => match kv with (_, x) => well_formed x end)
          pairs = true ->
  well_formed (VDict (dict_of_pairs pairs)) = true.
Proof.
  unfold dict_of_pairs.
  assert (H : forall acc : dict,
             well_formed (VDict acc) = true ->
             forallb (fun kv : str * value =>
                        match kv with (_, x) => well_formed x end) pairs = true ->
             well_formed
               (VDict (fold_left (fun a kv => dict_set a (fst kv) (snd kv))
                                 pairs acc)) = true).
  { induction pairs as [|[k v] pairs IH]; intros acc Hacc Hp; [exact Hacc|].
    cbn [forallb] in Hp. apply andb_true_iff in Hp as [Hv Hp].
    cbn [fold_left fst snd]. apply IH; [|exact Hp].
    now apply well_formed_dict_set. }
  intros Hp. now apply H.
Qed.

Lemma match_number_well_formed s v rest :
  Json.match_number s = Some (v, rest) -> well_formed v = true.
Proof.
  unfold Json.match_number. intros H.
  repeat match type of H with
         | context [let (_, _) := ?x in _] => destruct x
         | context [match ?x with _ => _ end] => destruct x
         end;
    try discriminate H; injection H as <- _; reflexivity.
Qed.

Ltac decoded H :=
  repeat match type of H with
         | context [match ?x with _ => _ end] => destruct x eqn:?
         end;
  try discriminate H.

Lemma decoder_well_formed fuel :
  (forall s v rest,
     Json.scan_once fuel s = Some (v, rest) -> well_formed v = true) /\
  (forall s vs rest,
     Json.array_items fuel s = Some (vs, rest) ->
     forallb well_formed vs = true) /\
  (forall s ps rest,
     Json.object_items fuel s = Some (ps, rest) ->
     forallb (fun kv : str * value => match kv with (_, x) => well_formed x end)
             ps = true).
Proof.
  induction fuel as [|fuel (IHs & IHa & IHo)];
    [repeat split; intros; discriminate|].
  repeat split.
  - intros s v rest H. cbn [Json.scan_once] in H.
    destruct s as [|c t]; [discriminate H|].
    destruct (c =? 34)%N.
    { decoded H. injection H as <- _. reflexivity. }
    destruct (c =? 123)%N.
    { destruct (Json.skip_ws t) as [|c' t']; [discriminate H|].
      destruct (c' =? 125)%N; [injection H as <- _; reflexivity|].
      destruct (Json.object_items fuel (c' :: t')) as [[ps r]|] eqn:E;
        [|discriminate H].
      injection H as <- _. apply well_formed_dict_of_pairs. exact (IHo _ _ _ E). }
    destruct (c =? 91)%N.
    { destruct (Json.skip_ws t) as [|c' t']; [discriminate H|].
      destruct (c' =? 93)%N; [injection H as <- _; reflexivity|].
      destruct (Json.array_items fuel (c' :: t')) as [[vs r]|] eqn:E;
        [|discriminate H].
      injection H as <- _. cbn [well_formed]. exact (IHa _ _ _ E). }
    repeat match type of H with
           | context [if ?b then _ else _] =>
               destruct b; [injection H as <- _; reflexivity|]
           end.
    exact (match_number_well_formed _ _ _ H).
  - intros s vs rest H. cbn [Json.array_items] in H.
    destruct (Json.scan_once fuel s) as [[v r]|] eqn:E; [|discriminate H].
    destruct (Json.skip_ws r) as [|c t]; [discriminate H|].
    destruct (c =? 93)%N.
    { injection H as <- _. cbn [forallb]. now rewrite (IHs _ _ _ E). }
    destruct (c =? 44)%N; [|discriminate H].
    destruct (Json.array_items fuel (Json.skip_ws t)) as [[vs' r']|] eqn:E';
      [|discriminate H].
    injection H as <- _. cbn [forallb].
    now rewrite (IHs _ _ _ E), (IHa _ _ _ E').
  - intros s ps rest H. cbn [Json.object_items] in H.
    destruct s as [|q t]; [discriminate H|].
    destruct (q =? 34)%N; [|discriminate H].
    destruct (Json.scanstring t) as [[key r]|]; [|discriminate H].
    destruct (Json.skip_ws r) as [|colon t1]; [discriminate H|].
    destruct (colon =? 58)%N; [|discriminate H].
    destruct (Json.scan_once fuel (Json.skip_ws t1)) as [[v r1]|] eqn:E;
      [|discriminate H].
    destruct (Json.skip_ws r1) as [|c t2]; [discriminate H|].
    destruct (c =? 125)%N.
    { injection H as <- _. cbn [forallb]. now rewrite (IHs _ _ _ E). }
    destruct (c =? 44)%N; [|discriminate H].
    destruct (Json.object_items fuel (Json.skip_ws t2)) as [[ps' r']|] eqn:E';
      [|discriminate H].
    injection H as <- _. cbn [forallb].
    now rewrite (IHs _ _ _ E), (IHo _ _ _ E').
Qed.

Lemma loads_well_formed s v : Json.loads s = Returned v -> well_formed v = true.
Proof.
  unfold Json.loads, Json.decode. intros H.
  destruct (startswith _ s); [discriminate H|].
  destruct (Json.scan_once _ _) as [[v' r]|] eqn:E; [|discriminate H].
  destruct (Json.skip_ws r); [|discriminate H].
  injection H as <-. exact (proj1 (decoder_well_formed _) _ _ _ E).
Qed.

(** *** The records the program produces *)

Lemma default_record_well_formed company role generated_at :
  well_formed (default_record company role generated_at) = true.
Proof. reflexivity. Qed.










(** ** The fuel of the decoder is never the reason for refusing a text

    Every call of the decoder that returns has consumed at least one
    character, so the calls nest at most twice as deep as the text is
    long; with that much fuel or more the answer is the same. *)

Lemma skip_ws_length (s : str) : List.length (Json.skip_ws s) <= List.length s.
Proof.
  induction s as [|c t IH]; [reflexivity|]. cbn [Json.skip_ws].
  destruct (Json.is_ws c); cbn [List.length]; lia.
Qed.

Lemma cons_chr_some c r x rest :
  Json.cons_chr c r = Some (x, rest) ->
  exists x', r = Some (x', rest) /\ x = c :: x'.
Proof.
  destruct r as [[x' rest']|]; cbn; intros H; [|discriminate H].
  injection H as <- <-. eauto.
Qed.

Lemma scanstring_length n : forall (s x rest : str),
  List.length s < n ->
  Json.scanstring s = Some (x, rest) -> List.length rest < List.length s.
Proof.
  induction n as [|n IH]; intros s x rest Hn H; [lia|].
  destruct s as [|c t]; [discriminate H|]. cbn [Json.scanstring] in H.
  cbn [List.length] in *.
  destruct (c =? 34)%N; [injection H as _ <-; lia|].
  destruct (c =? 92)%N.
  - destruct t as [|e t1]; [discriminate H|]. cbn [List.length] in *.
    destruct (e =? 117)%N.
    + destruct t1 as [|h1 [|h2 [|h3 [|h4 t2]]]]; try discriminate H.
      cbn [List.length] in *.
      destruct (Json.hex4 h1 h2 h3 h4) as [uni|]; [|discriminate H].
      assert (Hplain : forall x rest,
                 Json.cons_chr uni (Json.scanstring t2) = Some (x, rest) ->
                 List.length rest < List.length t2).
      { intros x0 rest0 H0. apply cons_chr_some in H0 as (x' & H0 & _).
        apply (IH t2 x' rest0); [lia | exact H0]. }
      destruct t2 as [|b [|u [|g1 [|g2 [|g3 [|g4 t3]]]]]];
        try (specialize (Hplain _ _ H); cbn [List.length] in *; lia).
      destruct (Json.is_high_surrogate uni && (b =? 92)%N && (u =? 117)%N);
        [|specialize (Hplain _ _ H); cbn [List.length] in *; lia].
      destruct (Json.hex4 g1 g2 g3 g4) as [uni2|]; [|discriminate H].
      destruct (Json.is_low_surrogate uni2);
        [|specialize (Hplain _ _ H); cbn [List.length] in *; lia].
      apply cons_chr_some in H as (x' & H & _).
      apply IH in H; cbn [List.length] in *; lia.
    + destruct (Json.unescape e) as [c'|]; [|discriminate H].
      apply cons_chr_some in H as (x' & H & _).
      apply IH in H; lia.
  - destruct (c <? 32)%N; [discriminate H|].
    apply cons_chr_some in H as (x' & H & _).
    apply IH in H; lia.
Qed.

Lemma span_digits_length (s : str) :
  List.length (snd (Json.span_digits s)) <= List.length s.
Proof.
  induction s as [|c t IH]; [reflexivity|]. cbn [Json.span_digits].
  destruct (Json.is_digit c); [|reflexivity].
  destruct (Json.span_digits t) as [ds rest]. cbn [snd List.length] in *. lia.
Qed.

Lemma match_frac_length (s : str) :
  List.length (snd (Json.match_frac s)) <= List.length s.
Proof.
  unfold Json.match_frac. destruct s as [|dot [|d t]]; try reflexivity.
  destruct ((dot =? 46)%N && Json.is_digit d); [|reflexivity].
  pose proof (span_digits_length (d :: t)).
  destruct (Json.span_digits (d :: t)) as [ds rest].
  cbn [snd List.length] in *. lia.
Qed.

Lemma match_exp_length (s : str) :
  List.length (snd (Json.match_exp s)) <= List.length s.
Proof.
  unfold Json.match_exp. destruct s as [|e t]; [reflexivity|].
  destruct ((e =? 101) || (e =? 69))%N; [|reflexivity].
  destruct t as [|sg [|d t']]; try reflexivity.
  - destruct (Json.is_digit sg); cbn [snd List.length]; lia.
  - destruct (((sg =? 45) || (sg =? 43))%N && Json.is_digit d).
    + pose proof (span_digits_length (d :: t')).
      destruct (Json.span_digits (d :: t')) as [ds rest].
      cbn [snd List.length] in *. lia.
    + destruct (Json.is_digit sg); [|reflexivity].
      pose proof (span_digits_length (sg :: d :: t')).
      destruct (Json.span_digits (sg :: d :: t')) as [ds rest].
      cbn [snd List.length] in *. lia.
Qed.

Lemma match_int_digits_length (s ds rest : str) :
  Json.match_int_digits s = Some (ds, rest) ->
  List.length rest < List.length s.
Proof.
  unfold Json.match_int_digits. destruct s as [|c t]; [discriminate|].
  destruct (c =? 48)%N; [intros H; injection H as _ <-; cbn; lia|].
  destruct (Json.is_digit c) eqn:Hd; [|discriminate].
  intros H. injection H as H. cbn [Json.span_digits] in H. rewrite Hd in H.
  pose proof (span_digits_length t).
  destruct (Json.span_digits t) as [ds' rest']. injection H as _ <-.
  cbn [snd List.length] in *. lia.
Qed.

Lemma match_number_length (s : str) v rest :
  Json.match_number s = Some (v, rest) -> List.length rest < List.length s.
Proof.
  unfold Json.match_number. intros H.
  assert (Hneg : forall s1,
             match Json.match_int_digits s1 with
             | None => None
             | Some (ds, s2) =>
                 let (frac, s3) := Json.match_frac s2 in
                 let (ex, s4) := Json.match_exp s3 in
                 Some (s4)
             end = Some rest -> List.length rest < List.length s1).
  { intros s1 H1.
    destruct (Json.match_int_digits s1) as [[ds s2]|] eqn:E; [|discriminate H1].
    apply match_int_digits_length in E.
    pose proof (match_frac_length s2).
    destruct (Json.match_frac s2) as [frac s3].
    pose proof (match_exp_length s3).
    destruct (Json.match_exp s3) as [ex s4].
    injection H1 as <-. cbn [snd] in *. lia. }
  destruct s as [|c t].
  - apply (Hneg []). cbn in H |- *. discriminate H.
  - destruct (c =? 45)%N.
    + assert (List.length rest < List.length t); [|cbn [List.length]; lia].
      apply Hneg.
      destruct (Json.match_int_digits t) as [[ds s2]|]; [|discriminate H].
      destruct (Json.match_frac s2) as [frac s3].
      destruct (Json.match_exp s3) as [ex s4].
      destruct frac, ex; injection H as _ <-; reflexivity.
    + apply Hneg.
      destruct (Json.match_int_digits (c :: t)) as [[ds s2]|]; [|discriminate H].
      destruct (Json.match_frac s2) as [frac s3].
      destruct (Json.match_exp s3) as [ex s4].
      destruct frac, ex; injection H as _ <-; reflexivity.
Qed.

Lemma skipn_shorter n (c : char) (t : str) :
  List.length (skipn (S n) (c :: t)) < List.length (c :: t).
Proof. cbn [skipn List.length]. rewrite length_skipn. lia. Qed.

(** A call of the decoder that returns has consumed something. *)
Lemma decoder_consumes fuel :
  (forall (s : str) v rest,
     Json.scan_once fuel s = Some (v, rest) ->
     List.length rest < List.length s) /\
  (forall (s : str) vs rest,
     Json.array_items fuel s = Some (vs, rest) ->
     List.length rest < List.length s) /\
  (forall (s : str) ps rest,
     Json.object_items fuel s = Some (ps, rest) ->
     List.length rest < List.length s).
Proof.
  induction fuel as [|fuel (IHs & IHa & IHo)];
    [repeat split; intros; discriminate|].
  repeat split.
  - intros s v rest H. cbn [Json.scan_once] in H.
    destruct s as [|c t]; [discriminate H|].
    destruct (c =? 34)%N.
    { destruct (Json.scanstring t) as [[x r]|] eqn:E; [|discriminate H].
      injection H as ? <-.
      apply (scanstring_length (S (List.length t))) in E; cbn [List.length]; lia. }
    destruct (c =? 123)%N.
    { pose proof (skip_ws_length t) as Hws.
      destruct (Json.skip_ws t) as [|c' t']; [discriminate H|].
      destruct (c' =? 125)%N;
        [injection H as ? <-; cbn [List.length] in *; lia|].
      destruct (Json.object_items fuel (c' :: t')) as [[ps r]|] eqn:E;
        [|discriminate H].
      injection H as ? <-. apply IHo in E. cbn [List.length] in *. lia. }
    destruct (c =? 91)%N.
    { pose proof (skip_ws_length t) as Hws.
      destruct (Json.skip_ws t) as [|c' t']; [discriminate H|].
      destruct (c' =? 93)%N;
        [injection H as ? <-; cbn [List.length] in *; lia|].
      destruct (Json.array_items fuel (c' :: t')) as [[vs r]|] eqn:E;
        [|discriminate H].
      injection H as ? <-. apply IHa in E. cbn [List.length] in *. lia. }
    repeat match type of H with
           | context [if ?b then _ else _] =>
               destruct b;
               [injection H as ? <-;
                first [ exact (skipn_shorter 2 c t) | exact (skipn_shorter 3 c t)
                      | exact (skipn_shorter 4 c t) | exact (skipn_shorter 7 c t)
                      | exact (skipn_shorter 8 c t) ]|]
           end.
    exact (match_number_length _ _ _ H).
  - intros s vs rest H. cbn [Json.array_items] in H.
    destruct (Json.scan_once fuel s) as [[v r]|] eqn:E; [|discriminate H].
    apply IHs in E. pose proof (skip_ws_length r) as Hws.
    destruct (Json.skip_ws r) as [|c t]; [discriminate H|].
    destruct (c =? 93)%N; [injection H as ? <-; cbn [List.length] in *; lia|].
    destruct (c =? 44)%N; [|discriminate H].
    pose proof (skip_ws_length t) as Hws'.
    destruct (Json.array_items fuel (Json.skip_ws t)) as [[vs' r']|] eqn:E';
      [|discriminate H].
    injection H as ? <-. apply IHa in E'. cbn [List.length] in *. lia.
  - intros s ps rest H. cbn [Json.object_items] in H.
    destruct s as [|q t]; [discriminate H|].
    destruct (q =? 34)%N; [|discriminate H].
    destruct (Json.scanstring t) as [[key r]|] eqn:Ek; [|discriminate H].
    apply (scanstring_length (S (List.length t))) in Ek; [|lia].
    pose proof (skip_ws_length r) as Hws.
    destruct (Json.skip_ws r) as [|colon t1]; [discriminate H|].
    destruct (colon =? 58)%N; [|discriminate H].
    pose proof (skip_ws_length t1) as Hws1.
    destruct (Json.scan_once fuel (Json.skip_ws t1)) as [[v r1]|] eqn:E;
      [|discriminate H].
    apply IHs in E. pose proof (skip_ws_length r1) as Hws2.
    destruct (Json.skip_ws r1) as [|c t2]; [discriminate H|].
    destruct (c =? 125)%N; [injection H as ? <-; cbn [List.length] in *; lia|].
    destruct (c =? 44)%N; [|discriminate H].
    pose proof (skip_ws_length t2) as Hws3.
    destruct (Json.object_items fuel (Json.skip_ws t2)) as [[ps' r']|] eqn:E';
      [|discriminate H].
    injection H as ? <-. apply IHo in E'. cbn [List.length] in *. lia.
Qed.

(** With the fuel [json.loads] gives, or more, the decoder's answer is the
    same. *)
Lemma decoder_fuel f1 : forall f2,
  (forall s : str,
     Json.fuel_for s <= f1 -> Json.fuel_for s <= f2 ->
     Json.scan_once f1 s = Json.scan_once f2 s) /\
  (forall s : str,
     S (Json.fuel_for s) <= f1 -> S (Json.fuel_for s) <= f2 ->
     Json.array_items f1 s = Json.array_items f2 s) /\
  (forall s : str,
     S (Json.fuel_for s) <= f1 -> S (Json.fuel_for s) <= f2 ->
     Json.object_items f1 s = Json.object_items f2 s).
Proof.
  unfold Json.fuel_for.
  induction f1 as [|f1 IH]; intros f2; [repeat split; intros; lia|].
  destruct f2 as [|f2]; [repeat split; intros; lia|].
  destruct (IH f2) as (IHs & IHa & IHo). repeat split.
  - intros s H1 H2. cbn [Json.scan_once].
    destruct s as [|c t]; [reflexivity|]. cbn [List.length] in H1, H2.
    destruct (c =? 34)%N; [reflexivity|].
    destruct (c =? 123)%N.
    { pose proof (skip_ws_length t) as Hws.
      destruct (Json.skip_ws t) as [|c' t']; [reflexivity|].
      destruct (c' =? 125)%N; [reflexivity|].
      rewrite (IHo (c' :: t')) by (cbn [List.length] in *; lia). reflexivity. }
    destruct (c =? 91)%N; [|reflexivity].
    pose proof (skip_ws_length t) as Hws.
    destruct (Json.skip_ws t) as [|c' t']; [reflexivity|].
    destruct (c' =? 93)%N; [reflexivity|].
    rewrite (IHa (c' :: t')) by (cbn [List.length] in *; lia). reflexivity.
  - intros s H1 H2. cbn [Json.array_items].
    rewrite (IHs s) by lia.
    destruct (Json.scan_once f2 s) as [[v r]|] eqn:E; [|reflexivity].
    apply (proj1 (decoder_consumes f2)) in E.
    pose proof (skip_ws_length r) as Hws.
    destruct (Json.skip_ws r) as [|c t]; [reflexivity|].
    destruct (c =? 93)%N; [reflexivity|].
    destruct (c =? 44)%N; [|reflexivity].
    pose proof (skip_ws_length t) as Hws'.
    rewrite (IHa (Json.skip_ws t)) by (cbn [List.length] in *; lia).
    reflexivity.
  - intros s H1 H2. cbn [Json.object_items].
    destruct s as [|q t]; [reflexivity|]. cbn [List.length] in H1, H2.
    destruct (q =? 34)%N; [|reflexivity].
    destruct (Json.scanstring t) as [[key r]|] eqn:Ek; [|reflexivity].
    apply (scanstring_length (S (List.length t))) in Ek; [|lia].
    pose proof (skip_ws_length r) as Hws.
    destruct (Json.skip_ws r) as [|colon t1]; [reflexivity|].
    destruct (colon =? 58)%N; [|reflexivity].
    pose proof (skip_ws_length t1) as Hws1.
    rewrite (IHs (Json.skip_ws t1)) by (cbn [List.length] in *; lia).
    destruct (Json.scan_once f2 (Json.skip_ws t1)) as [[v r1]|] eqn:E;
      [|reflexivity].
    apply (proj1 (decoder_consumes f2)) in E.
    pose proof (skip_ws_length r1) as Hws2.
    destruct (Json.skip_ws r1) as [|c t2]; [reflexivity|].
    destruct (c =? 125)%N; [reflexivity|].
    destruct (c =? 44)%N; [|reflexivity].
    pose proof (skip_ws_length t2) as Hws3.
    rewrite (IHo (Json.skip_ws t2)) by (cbn [List.length] in *; lia).
    reflexivity.
Qed.

(** [json.loads] does not depend on its fuel: any larger amount decodes
    the text to the same value, or refuses it all the same. *)
Theorem decode_fuel_independent (s : str) (fuel : nat) :
  Json.fuel_for s <= fuel ->
  Json.scan_once fuel (Json.skip_ws s)
  = Json.scan_once (Json.fuel_for s) (Json.skip_ws s).
Proof.
  intros H. pose proof (skip_ws_length s) as Hws.
  apply (proj1 (decoder_fuel fuel (Json.fuel_for s)));
    unfold Json.fuel_for in *; lia.
Qed.

(** * Further properties of the code

    Properties of the functions of [agent.py] beyond the claims above:
    bounds and shapes of the search results, what [generate_roadmap] calls
    and returns on each of its paths, the file name and the failure of
    [save_roadmap], what [display_roadmap] shows, and whole runs of
    [main].  As everywhere in this development, [print] itself does not
    fail: the console is taken to show every character it is given. *)

(** ** The search collaborator: bounds and shapes *)

Lemma extract_results_bounded fl query data s :
  extract_results fl query data = Returned s ->
  List.length s <= 1500 \/ s = no_results_message query.
Proof.
  unfold extract_results. intros H.
  repeat match type of H with
         | obind ?m _ = _ => destruct m; cbn [obind] in H; [|discriminate H]
         end.
  match type of H with
  | (if ?b then _ else _) = _ => destruct b
  end.
  - injection H as <-. now right.
  - destruct (join_values _ _) as [joined|]; cbn [obind] in H;
      [|discriminate H].
    injection H as <-. left. exact (firstn_le_length 1500 joined).
Qed.

Lemma search_duckduckgo_outcome query o w :
  match search_duckduckgo query o w with
  | (Returned _, w') => requests_sent w' = requests_sent w ++ [query]
  | (Raised e, w') =>
      is_Exception e = false /\ requests_sent w' = requests_sent w ++ [query]
  end.
Proof.
  rewrite search_duckduckgo_cases.
  destruct (obind _ _) as [s|e]; [reflexivity|].
  destruct (is_Exception e) eqn:He; [reflexivity|].
  split; [exact He | reflexivity].
Qed.

(** X1. Whatever the search service answers, [search_duckduckgo] issues
    exactly one request, for the query it was given.  A text it returns is
    at most 1500 characters long, unless it is the no-results sentence,
    which embeds the whole query; an exception that leaves it is none of
    the [Exception] family (an interrupt from the keyboard). *)
Theorem search_duckduckgo_bounded (query : str) (o : Oracle) (w : World) :
  match search_duckduckgo query o w with
  | (Returned s, w') =>
      (List.length s <= 1500 \/ s = no_results_message query) /\
      requests_sent w' = requests_sent w ++ [query]
  | (Raised e, w') =>
      is_Exception e = false /\
      requests_sent w' = requests_sent w ++ [query]
  end.
Proof.
  rewrite search_duckduckgo_cases.
  destruct (http_get_json o _ query) as [data|e]; cbn [obind].
  - destruct (extract_results (floats o) query data) as [s|e] eqn:E.
    + split; [exact (extract_results_bounded _ _ _ _ E) | reflexivity].
    + destruct (is_Exception e) eqn:He; (split; [|reflexivity]);
        [left; apply Nat.leb_le; vm_compute; reflexivity | exact He].
  - destruct (is_Exception e) eqn:He; (split; [|reflexivity]);
      [left; apply Nat.leb_le; vm_compute; reflexivity | exact He].
Qed.

Lemma search_queries_outcome qs : forall acc o w,
  match search_queries qs acc o w with
  | (Returned _, w') => requests_sent w' = requests_sent w ++ qs
  | (Raised e, w') =>
      is_Exception e = false /\
      exists n, requests_sent w' = requests_sent w ++ firstn n qs
  end.
Proof.
  induction qs as [|q qs IH]; intros acc o w; cbn [search_queries].
  - cbn. now rewrite app_nil_r.
  - unfold bind at 1. unfold try_except, bind.
    pose proof (search_duckduckgo_outcome q o w) as Hq.
    destruct (search_duckduckgo q o w) as [[s|e] w1].
    + match goal with
      | |- context [if ?b then _ else _] => destruct b
      end; cbn [ret];
      match goal with
      | |- context [search_queries qs ?a o w1] => specialize (IH a o w1)
      end;
      destruct (search_queries qs _ o w1) as [[l|e] w2].
      all: first [ rewrite IH, Hq, <- app_assoc; reflexivity
                 | destruct IH as [He [n Hn]]; split; [exact He|];
                   exists (S n); rewrite Hn, Hq, <- app_assoc; reflexivity ].
    + destruct Hq as [He Hq]. rewrite He. split; [exact He|].
      exists 1. rewrite Hq. reflexivity.
Qed.

(** X2. Whatever the search service answers, [search_company_info] issues
    at most two requests, for the first two of its four queries and in that
    order.  The text it returns is at most 2000 characters long or is the
    static paragraph for the company and the role; an exception that
    leaves it is none of the [Exception] family. *)
Theorem search_company_info_bounded (company role : str) (o : Oracle)
        (w : World) :
  match search_company_info company role o w with
  | (Returned info, w') =>
      (List.length info <= 2000 \/ info = fallback_info company role) /\
      requests_sent w' = requests_sent w ++ firstn 2 (queries company role)
  | (Raised e, w') =>
      is_Exception e = false /\
      exists n, n <= 2 /\
        requests_sent w' = requests_sent w ++ firstn n (queries company role)
  end.
Proof.
  unfold search_company_info, bind, print.
  pose proof (search_queries_outcome (firstn 2 (queries company role)) []
                o (printed [MsgSearching company role] w)) as H.
  destruct (search_queries _ _ o _) as [[l|e] w1].
  - destruct (negb (is_empty l)); cbn [ret]; (split; [|exact H]).
    + left. exact (firstn_le_length 2000 _).
    + now right.
  - destruct H as [He [n Hn]]. split; [exact He|].
    exists (Nat.min n 2). split; [apply Nat.le_min_r|].
    rewrite Hn, firstn_firstn. reflexivity.
Qed.

Lemma all_strs_map (l : list str) : all_strs (map VStr l) = Returned l.
Proof.
  induction l as [|s l IH]; [reflexivity|].
  cbn [map all_strs]. rewrite IH. reflexivity.
Qed.

Lemma py_in_dict_key (t : dict) (k : str) :
  existsb (fun k' => str_eqb k' k) (dict_keys t)
  = match dict_get t k with Some _ => true | None => false end.
Proof.
  induction t as [|[k0 v] t IH]; [reflexivity|].
  cbn [dict_keys map fst existsb dict_get].
  destruct (str_eqb k0 k); [reflexivity | exact IH].
Qed.

Lemma collect_topic_texts_dicts (topics : list dict) :
  forall results : list str,
    forallb text_is_str topics = true ->
    collect_topic_texts (map VDict topics) (map VStr results)
    = Returned (map VStr (results ++ flat_map topic_text topics)).
Proof.
  induction topics as [|t ts IH]; intros results H.
  - cbn. now rewrite app_nil_r.
  - cbn [forallb] in H. apply andb_true_iff in H as [Ht H].
    cbn [map collect_topic_texts flat_map py_in py_getitem obind].
    unfold text_is_str in Ht. unfold topic_text at 1.
    rewrite py_in_dict_key.
    destruct (dict_get t (py "Text")) as [x|].
    + destruct x; try discriminate Ht. cbn [obind].
      change (map VStr results ++ [VStr s])
        with (map VStr results ++ map VStr [s]).
      rewrite <- map_app, (IH _ H), <- app_assoc. reflexivity.
    + rewrite (IH _ H). reflexivity.
Qed.

Lemma extract_results_well_shaped fl query (d : dict) (abstract : str)
      (topics : list dict) :
  dict_get d (py "Abstract") = Some (VStr abstract) ->
  dict_get d (py "RelatedTopics") = Some (VList (map VDict topics)) ->
  forallb text_is_str (firstn 3 topics) = true ->
  extract_results fl query (VDict d)
  = Returned (if is_empty (response_texts abstract topics)
              then no_results_message query
              else take 1500 (join (py " ") (response_texts abstract topics))).
Proof.
  intros Ha Ht Hs.
  unfold extract_results, py_get, py_getitem. rewrite Ha, Ht.
  cbn [obind py_bool].
  set (results := if is_empty abstract then [] else [abstract]).
  assert (R : (if negb (is_empty abstract) then Returned [VStr abstract]
               else Returned []) = Returned (map VStr results)).
  { subst results. destruct abstract; reflexivity. }
  rewrite R. cbn [obind].
  assert (C : (if negb (is_empty (map VDict topics))
               then obind (py_first3 (VList (map VDict topics)))
                      (fun first3 => obind (py_iter first3)
                         (fun ts => collect_topic_texts ts (map VStr results)))
               else Returned (map VStr results))
              = Returned (map VStr (response_texts abstract topics))).
  { unfold response_texts. fold results.
    destruct topics as [|t ts]; [cbn; now rewrite app_nil_r|].
    cbn [map is_empty negb py_first3 obind py_iter].
    change (VDict t :: map VDict ts) with (map VDict (t :: ts)).
    rewrite firstn_map. cbn [obind py_iter].
    apply collect_topic_texts_dicts. exact Hs. }
  rewrite C. cbn [obind].
  destruct (response_texts abstract topics) as [|x xs]; [reflexivity|].
  cbn [map is_empty]. unfold join_values.
  change (VStr x :: map VStr xs) with (map VStr (x :: xs)).
  rewrite all_strs_map. reflexivity.
Qed.

(** X3. When the search service answers with an object whose [Abstract]
    is a string and whose [RelatedTopics] is a list of objects,
    [search_duckduckgo] returns the abstract (unless it is empty) and the
    [Text] of those of the first three topics that have one, joined by
    single spaces and cut at 1500 characters; topics after the third and
    topics without a [Text] are left out, and when nothing is collected the
    result is the no-results sentence for the query. *)
Theorem search_duckduckgo_well_shaped (query : str) (o : Oracle) (w : World)
        (d : dict) (abstract : str) (topics : list dict) :
  http_get_json o (List.length (requests_sent w)) query = Returned (VDict d) ->
  dict_get d (py "Abstract") = Some (VStr abstract) ->
  dict_get d (py "RelatedTopics") = Some (VList (map VDict topics)) ->
  forallb text_is_str (firstn 3 topics) = true ->
  search_duckduckgo query o w
  = (Returned (if is_empty (response_texts abstract topics)
               then no_results_message query
               else take 1500 (join (py " ") (response_texts abstract topics))),
     requested query w).
Proof.
  intros Hget Ha Ht Hs. rewrite search_duckduckgo_cases, Hget. cbn [obind].
  rewrite (extract_results_well_shaped (floats o) query d abstract topics
             Ha Ht Hs).
  reflexivity.
Qed.

Lemma search_duckduckgo_well_shaped_witness :
  http_get_json (search_oracle (VDict example_response))
    (List.length (requests_sent (fresh_world [])))
    (py "Acme Dev interview process")
  = Returned (VDict example_response) /\
  search_duckduckgo (py "Acme Dev interview process")
    (search_oracle (VDict example_response)) (fresh_world [])
  = (Returned (py "Acme builds rockets. Acme careers Acme interviews"),
     requested (py "Acme Dev interview process") (fresh_world [])).
Proof.
  split; [reflexivity|].
  apply (search_duckduckgo_well_shaped (py "Acme Dev interview process")
           (search_oracle (VDict example_response)) (fresh_world [])
           example_response (py "Acme builds rockets.")
           [ [(py "Text", VStr (py "Acme careers"))];
             [(py "Name", VStr (py "Groups"))];
             [(py "Text", VStr (py "Acme interviews"))];
             [(py "Text", VStr (py "Acme history"))] ]);
    reflexivity.
Defined.

Lemma no_results_message_dropped (query : str) :
  kept (no_results_message query) = false.
Proof.
  unfold kept, no_results_message.
  assert (H : contains NO_SPECIFIC_RESULTS
                (py "Search for '" ++ query
                 ++ py "' didn't return specific results. Using standard interview process.")
              = true).
  { apply contains_app_r, contains_app_r.
    exact (contains_at NO_SPECIFIC_RESULTS (py "' ")
             (py ". Using standard interview process.")). }
  rewrite H. apply andb_false_r.
Qed.

(** X4. The no-results sentence of [search_duckduckgo] never passes the
    filter of [search_company_info], whatever the query: when both searches
    come back with that sentence, the company-info text is the static
    paragraph for the company and the role. *)
Theorem search_company_info_no_results (company role : str) (o : Oracle)
        (w : World) :
  (forall q w0,
     fst (search_duckduckgo q o w0) = Returned (no_results_message q)) ->
  fst (search_company_info company role o w)
  = Returned (fallback_info company role).
Proof.
  intros H.
  assert (Hq : forall q w0,
             search_duckduckgo q o w0
             = (Returned (no_results_message q),
                snd (search_duckduckgo q o w0))).
  { intros q w0. specialize (H q w0).
    destruct (search_duckduckgo q o w0) as [r w1]. cbn [fst snd] in *.
    now rewrite H. }
  unfold search_company_info, bind, print.
  cbn [queries firstn search_queries]. unfold bind, try_except, ret.
  rewrite Hq.
  fold (kept (no_results_message
                (company ++ py " " ++ role ++ py " interview process"))).
  rewrite no_results_message_dropped. cbv beta iota.
  rewrite Hq.
  fold (kept (no_results_message
                (company ++ py " technical interview questions " ++ role))).
  rewrite no_results_message_dropped. reflexivity.
Qed.

Lemma search_company_info_no_results_witness :
  (forall q w0,
     fst (search_duckduckgo q (search_oracle (VDict [])) w0)
     = Returned (no_results_message q)) /\
  fst (search_company_info (py "Acme") (py "Dev") (search_oracle (VDict []))
         (fresh_world []))
  = Returned (fallback_info (py "Acme") (py "Dev")).
Proof.
  split; [intros q w0; reflexivity|].
  apply (search_company_info_no_results (py "Acme") (py "Dev")
           (search_oracle (VDict [])) (fresh_world [])).
  intros q w0. reflexivity.
Defined.

(** ** [generate_roadmap]: what it calls and what it returns *)

Lemma searched_trans w1 w2 w3 :
  searched w1 w2 -> searched w2 w3 -> searched w1 w3.
Proof.
  unfold searched. intros (A1 & B1 & C1 & D1) (A2 & B2 & C2 & D2).
  repeat split; congruence.
Qed.

Lemma search_duckduckgo_searched query o w :
  searched w (snd (search_duckduckgo query o w)).
Proof.
  rewrite search_duckduckgo_cases.
  destruct (obind _ _) as [s|e]; [|destruct (is_Exception e)]; repeat split.
Qed.

Lemma search_company_info_searched company role o w : network_ok o ->
  searched w (snd (search_company_info company role o w)).
Proof.
  intros Hnet.
  destruct (search_company_info_cases company role o w Hnet)
    as (r1 & r2 & _ & _ & -> & _). cbn [snd].
  eapply searched_trans; [|apply search_duckduckgo_searched].
  eapply searched_trans; [|apply search_duckduckgo_searched].
  repeat split.
Qed.

Lemma search_company_info_requests company role o w : network_ok o ->
  requests_sent (snd (search_company_info company role o w))
  = requests_sent w ++ firstn 2 (queries company role).
Proof.
  intros Hnet.
  destruct (search_company_info_cases company role o w Hnet)
    as (r1 & r2 & _ & _ & -> & R & _). exact R.
Qed.

Ltac world_fields :=
  cbn [snd requests_sent prompts_sent files stdin clock_reads console printed
       ticked prompted before_llm after_fallback].

(** [generate_roadmap] after its search, which changes nothing but the
    console and the list of requests. *)
Lemma generate_roadmap_searched company role jd o w : network_ok o ->
  exists info w1,
    searched w w1 /\
    requests_sent w1 = requests_sent w ++ firstn 2 (queries company role) /\
    generate_roadmap company role jd o w =
    match llm_invoke o (prompt_text company role jd info) with
    | Raised e =>
        if is_Exception e
        then (Returned (default_record company role
                          (now_isoformat o (clock_reads w))),
              ticked (printed [MsgLlmFailed e]
                        (before_llm (prompt_text company role jd info) w1)))
        else (Raised e, before_llm (prompt_text company role jd info) w1)
    | Returned text =>
        match extract_json_from_text text o
                (before_llm (prompt_text company role jd info) w1) with
        | (Raised e, w3) => (Raised e, w3)
        | (Returned roadmap, w3) =>
            match stamp roadmap company role o w3 with
            | (Raised e, w4) => (Raised e, w4)
            | (Returned r, w4) => (Returned r, printed [MsgSuccess] w4)
            end
        end
    end.
Proof.
  intros Hnet. rewrite generate_roadmap_cases.
  set (w0 := printed [MsgGathering] (printed [MsgGenerating role company] w)).
  pose proof (search_company_info_searched company role o w0 Hnet) as Hs.
  pose proof (search_company_info_requests company role o w0 Hnet) as Hrq.
  destruct (search_company_info_returns company role o w0 Hnet)
    as (info & w1 & E).
  rewrite E in *. cbn [snd] in Hs, Hrq. exists info, w1.
  split; [exact Hs|]. split; [exact Hrq|]. cbv zeta.
  destruct Hs as (_ & Hck & _).
  change (clock_reads w0) with (clock_reads w) in Hck.
  cbn [before_llm clock_reads prompted printed]. rewrite Hck. reflexivity.
Qed.

(** X5. Whatever the search service and the model answer, one call of
    [generate_roadmap] issues exactly two search requests (the first two
    queries) and gives the model exactly one prompt, built from its
    arguments and the company-info text; it writes no file, reads no
    input, and reads the clock at most twice. *)
Theorem generate_roadmap_calls (company role jd : str) (o : Oracle)
        (w : World) :
  network_ok o ->
  exists info,
    requests_sent (snd (generate_roadmap company role jd o w))
    = requests_sent w ++ firstn 2 (queries company role) /\
    prompts_sent (snd (generate_roadmap company role jd o w))
    = prompts_sent w ++ [prompt_text company role jd info] /\
    files (snd (generate_roadmap company role jd o w)) = files w /\
    stdin (snd (generate_roadmap company role jd o w)) = stdin w /\
    clock_reads w <= clock_reads (snd (generate_roadmap company role jd o w))
    <= clock_reads w + 2.
Proof.
  intros Hnet.
  destruct (generate_roadmap_searched company role jd o w Hnet)
    as (info & w1 & (Hin & Hck & Hpr & Hfs) & Hrq & ->).
  exists info.
  destruct (llm_invoke o (prompt_text company role jd info)) as [text|e].
  - destruct (extract_json_cases text o
                (before_llm (prompt_text company role jd info) w1))
      as (c & _ & ->).
    destruct (Json.loads c) as [v|e].
    + destruct v; try rewrite stamp_record;
        try (rewrite stamp_not_record by reflexivity);
        world_fields; rewrite ?Hrq, ?Hpr, ?Hfs, ?Hin, ?Hck;
        repeat split; try reflexivity; lia.
    + unfold default_record. rewrite stamp_record.
      world_fields; rewrite ?Hrq, ?Hpr, ?Hfs, ?Hin, ?Hck;
        repeat split; try reflexivity; lia.
  - destruct (is_Exception e);
      world_fields; rewrite ?Hrq, ?Hpr, ?Hfs, ?Hin, ?Hck;
      repeat split; try reflexivity; lia.
Qed.

Lemma generate_roadmap_calls_witness :
  network_ok (example_oracle (Returned (py "Sorry, I cannot help."))) /\
  exists info,
    requests_sent
      (snd (generate_roadmap (py "Acme") (py "Dev") (py "Build things")
              (example_oracle (Returned (py "Sorry, I cannot help.")))
              (fresh_world [])))
    = requests_sent (fresh_world [])
      ++ firstn 2 (queries (py "Acme") (py "Dev")) /\
    prompts_sent
      (snd (generate_roadmap (py "Acme") (py "Dev") (py "Build things")
              (example_oracle (Returned (py "Sorry, I cannot help.")))
              (fresh_world [])))
    = prompts_sent (fresh_world [])
      ++ [prompt_text (py "Acme") (py "Dev") (py "Build things") info] /\
    files
      (snd (generate_roadmap (py "Acme") (py "Dev") (py "Build things")
              (example_oracle (Returned (py "Sorry, I cannot help.")))
              (fresh_world [])))
    = files (fresh_world []) /\
    stdin
      (snd (generate_roadmap (py "Acme") (py "Dev") (py "Build things")
              (example_oracle (Returned (py "Sorry, I cannot help.")))
              (fresh_world [])))
    = stdin (fresh_world []) /\
    clock_reads (fresh_world [])
    <= clock_reads
         (snd (generate_roadmap (py "Acme") (py "Dev") (py "Build things")
                 (example_oracle (Returned (py "Sorry, I cannot help.")))
                 (fresh_world [])))
    <= clock_reads (fresh_world []) + 2.
Proof.
  split; [apply example_network_ok|].
  apply (generate_roadmap_calls (py "Acme") (py "Dev") (py "Build things")
           (example_oracle (Returned (py "Sorry, I cannot help.")))
           (fresh_world [])).
  apply example_network_ok.
Defined.

Lemma generate_roadmap_llm_fails (company role jd : str) (o : Oracle)
      (w : World) (e : exn) :
  network_ok o ->
  (forall p, llm_invoke o p = Raised e) ->
  is_Exception e = true ->
  exists w',
    generate_roadmap company role jd o w
    = (Returned (default_record company role (now_isoformat o (clock_reads w))),
       w') /\
    clock_reads w' = S (clock_reads w) /\
    files w' = files w /\
    last (console w') MsgSuccess = MsgLlmFailed e.
Proof.
  intros Hnet Hllm He.
  destruct (generate_roadmap_searched company role jd o w Hnet)
    as (info & w1 & (_ & Hck & _ & Hfs) & _ & ->).
  rewrite Hllm, He. eexists. split; [reflexivity|]. world_fields.
  split; [now rewrite Hck|]. split; [exact Hfs | apply last_last].
Qed.

(** X6. When the model call fails with an exception of the [Exception]
    family, [generate_roadmap] returns exactly the default record for the
    caller's company and role, stamped with the one reading of the clock
    it makes; the parser is not run and the last line printed is the
    failure report, not the success line. *)
Theorem llm_failure_yields_default (company role jd : str) (o : Oracle)
        (w : World) (e : exn) :
  network_ok o ->
  (forall p, llm_invoke o p = Raised e) ->
  is_Exception e = true ->
  exists w',
    generate_roadmap company role jd o w
    = (Returned (default_record company role (now_isoformat o (clock_reads w))),
       w') /\
    clock_reads w' = S (clock_reads w) /\
    last (console w') MsgSuccess = MsgLlmFailed e.
Proof.
  intros Hnet Hllm He.
  destruct (generate_roadmap_llm_fails company role jd o w e Hnet Hllm He)
    as (w' & E & Hck & _ & Hl).
  exists w'. auto.
Qed.

Lemma llm_failure_yields_default_witness :
  network_ok (example_oracle (Raised LLMException)) /\
  (forall p, llm_invoke (example_oracle (Raised LLMException)) p
             = Raised LLMException) /\
  is_Exception LLMException = true /\
  exists w',
    generate_roadmap (py "Acme") (py "Dev") (py "Build things")
      (example_oracle (Raised LLMException)) (fresh_world [])
    = (Returned (default_record (py "Acme") (py "Dev")
                   (now_isoformat (example_oracle (Raised LLMException))
                      (clock_reads (fresh_world [])))), w') /\
    clock_reads w' = S (clock_reads (fresh_world [])) /\
    last (console w') MsgSuccess = MsgLlmFailed LLMException.
Proof.
  split; [apply example_network_ok|].
  split; [intros p; reflexivity|]. split; [reflexivity|].
  apply (llm_failure_yields_default (py "Acme") (py "Dev") (py "Build things")
           (example_oracle (Raised LLMException)) (fresh_world []) LLMException).
  - apply example_network_ok.
  - intros p; reflexivity.
  - reflexivity.
Defined.



Lemma has_field_set_other (d : dict) k k' v :
  str_eqb k k' = false -> has_field (dict_set d k v) k' = has_field d k'.
Proof. intros H. unfold has_field. now rewrite dict_get_set_other. Qed.

Lemma dict_keys_set (d : dict) k v :
  dict_keys (dict_set d k v)
  = dict_keys d ++ (if has_field d k then [] else [k]).
Proof.
  unfold has_field. induction d as [|[k0 v0] d IH]; [reflexivity|].
  cbn [dict_set dict_get]. destruct (str_eqb k0 k).
  - cbn. now rewrite app_nil_r.
  - cbn [dict_keys map fst app]. f_equal. exact IH.
Qed.

Lemma stamped_keys (d : dict) company role generated_at :
  dict_keys (stamped d company role generated_at)
  = dict_keys d ++ filter (fun k => negb (has_field d k)) system_keys.
Proof.
  unfold stamped. rewrite !dict_keys_set.
  rewrite !has_field_set_other by reflexivity.
  unfold system_keys. cbn [filter].
  destruct (has_field d (py "company")), (has_field d (py "role")),
    (has_field d (py "generated_at")), (has_field d (py "version"));
    cbn [negb]; rewrite <- ?app_assoc, ?app_nil_r; reflexivity.
Qed.

Lemma stamped_other_fields (d : dict) company role generated_at k :
  existsb (str_eqb k) system_keys = false ->
  dict_get (stamped d company role generated_at) k = dict_get d k.
Proof.
  unfold system_keys. cbn [existsb]. rewrite orb_false_r. intros H.
  apply orb_false_iff in H as [H1 H]. apply orb_false_iff in H as [H2 H].
  apply orb_false_iff in H as [H3 H4].
  unfold stamped.
  rewrite !dict_get_set_other by (rewrite str_eqb_sym; assumption).
  reflexivity.
Qed.

Lemma generate_roadmap_object (company role jd text : str) (d : dict)
      (o : Oracle) (w : World) :
  network_ok o ->
  (forall p, llm_invoke o p = Returned text) ->
  obind (json_candidate text) Json.loads = Returned (VDict d) ->
  exists w',
    generate_roadmap company role jd o w
    = (Returned (VDict (stamped d company role
                          (now_isoformat o (clock_reads w)))), w') /\
    files w' = files w /\ well_formed (VDict d) = true.
Proof.
  intros Hnet Hllm Hv.
  destruct (generate_roadmap_searched company role jd o w Hnet)
    as (info & w1 & (_ & Hck & _ & Hfs) & _ & ->).
  rewrite Hllm.
  destruct (extract_json_cases text o
              (before_llm (prompt_text company role jd info) w1))
    as (c & Hc & ->).
  rewrite Hc in Hv. cbn [obind] in Hv. rewrite Hv, stamp_record.
  eexists. split; [|split].
  - world_fields. rewrite Hck. reflexivity.
  - exact Hfs.
  - exact (loads_well_formed c _ Hv).
Qed.

Lemma generate_roadmap_non_object (company role jd text : str) (v : value)
      (o : Oracle) (w : World) :
  network_ok o ->
  (forall p, llm_invoke o p = Returned text) ->
  obind (json_candidate text) Json.loads = Returned v ->
  is_record v = false ->
  exists w',
    generate_roadmap company role jd o w = (Raised TypeError, w') /\
    files w' = files w.
Proof.
  intros Hnet Hllm Hv Hrec.
  destruct (generate_roadmap_searched company role jd o w Hnet)
    as (info & w1 & (_ & _ & _ & Hfs) & _ & ->).
  rewrite Hllm.
  destruct (extract_json_cases text o
              (before_llm (prompt_text company role jd info) w1))
    as (c & Hc & ->).
  rewrite Hc in Hv. cbn [obind] in Hv. rewrite Hv.
  rewrite stamp_not_record by exact Hrec.
  eexists. split; [reflexivity | exact Hfs].
Qed.

(** X8. When the model's answer decodes to an object, the record
    [generate_roadmap] returns keeps every field of that object other than
    the four the system sets, with its value untouched, and keeps the
    order of the object's keys; those of the four keys the object did not
    have come after them, in the order company, role, generated_at,
    version. *)
Theorem generate_roadmap_keeps_model_fields (company role jd text : str)
        (d : dict) (o : Oracle) (w : World) :
  network_ok o ->
  (forall p, llm_invoke o p = Returned text) ->
  obind (json_candidate text) Json.loads = Returned (VDict d) ->
  exists r w',
    generate_roadmap company role jd o w = (Returned r, w') /\
    (forall k, existsb (str_eqb k) system_keys = false ->
       field r k = dict_get d k) /\
    fields r
    = dict_keys d ++ filter (fun k => negb (has_field d k)) system_keys.
Proof.
  intros Hnet Hllm Hd.
  destruct (generate_roadmap_object company role jd text d o w Hnet Hllm Hd)
    as (w' & E & _).
  do 2 eexists. split; [exact E|]. split.
  - intros k Hk. cbn [field]. now apply stamped_other_fields.
  - cbn [fields]. apply stamped_keys.
Qed.

Lemma generate_roadmap_keeps_model_fields_witness :
  network_ok (example_oracle
                (Returned (pyq "{'company': 'Other', 'version': '9', 'x': 1}"))) /\
  obind (json_candidate (pyq "{'company': 'Other', 'version': '9', 'x': 1}"))
        Json.loads
  = Returned (VDict [(py "company", VStr (py "Other"));
                     (py "version", VStr (py "9")); (py "x", VInt 1)]) /\
  exists r w',
    generate_roadmap (py "Acme") (py "Dev") (py "Build things")
      (example_oracle
         (Returned (pyq "{'company': 'Other', 'version': '9', 'x': 1}")))
      (fresh_world [])
    = (Returned r, w') /\
    (forall k, existsb (str_eqb k) system_keys = false ->
       field r k
       = dict_get [(py "company", VStr (py "Other"));
                   (py "version", VStr (py "9")); (py "x", VInt 1)] k) /\
    fields r
    = [py "company"; py "version"; py "x"; py "role"; py "generated_at"].
Proof.
  split; [apply example_network_ok|].
  split; [vm_compute; reflexivity|].
  apply (generate_roadmap_keeps_model_fields (py "Acme") (py "Dev")
           (py "Build things")
           (pyq "{'company': 'Other', 'version': '9', 'x': 1}")
           [(py "company", VStr (py "Other"));
            (py "version", VStr (py "9")); (py "x", VInt 1)]
           (example_oracle
              (Returned (pyq "{'company': 'Other', 'version': '9', 'x': 1}")))
           (fresh_world [])).
  - apply example_network_ok.
  - intros p; reflexivity.
  - vm_compute; reflexivity.
Defined.

(** ** [save_roadmap]: the file name and a refused text *)





Lemma utf8_escape_char_eq (c : char) :
  utf8_encodable (JsonEnc.escape_char c) = utf8_encodable [c].
Proof.
  destruct (utf8_encodable [c]) eqn:E; [now apply utf8_escape_char|].
  cbn [utf8_encodable forallb] in E. rewrite andb_true_r in E.
  apply negb_false_iff, andb_true_iff in E as [E1 E2].
  apply N.leb_le in E1. unfold JsonEnc.escape_char.
  repeat match goal with
         | |- context [(c =? ?n)%N] =>
             destruct (N.eqb_spec c n); [unfold char in *; lia|]
         end.
  destruct (N.ltb_spec c 32); [unfold char in *; lia|].
  cbn [utf8_encodable forallb]. rewrite andb_true_r.
  apply negb_false_iff, andb_true_iff. split; [now apply N.leb_le | exact E2].
Qed.

Lemma utf8_basestring_eq (s : str) :
  utf8_encodable (JsonEnc.encode_basestring s) = utf8_encodable s.
Proof.
  unfold JsonEnc.encode_basestring.
  change (DQ :: flat_map JsonEnc.escape_char s ++ [DQ])
    with ([DQ] ++ flat_map JsonEnc.escape_char s ++ [DQ]).
  rewrite !utf8_app, utf8_flat_map. change (utf8_encodable [DQ]) with true.
  cbn [andb]. rewrite andb_true_r.
  induction s as [|c s IH]; [reflexivity|].
  cbn [forallb]. rewrite IH, utf8_escape_char_eq.
  cbn [utf8_encodable forallb]. now rewrite andb_true_r.
Qed.

(** A text the codec accepts was made from a value without surrogates. *)
Lemma utf8_encode_encodable fl v :
  forall level,
    utf8_encodable (JsonEnc.encode fl v level) = true -> encodable v = true.
Proof.
  induction v as [|b|z|f|s|l IH|d IH] using value_ind; intros level H;
    try reflexivity.
  - cbn [JsonEnc.encode JsonEnc.scalar_text] in H.
    now rewrite utf8_basestring_eq in H.
  - destruct l as [|x xs]; [reflexivity|].
    cbn [JsonEnc.encode] in H. cbn [encodable forallb].
    rewrite !utf8_app, utf8_flat_map in H.
    repeat (apply andb_true_iff in H as [? H]).
    inversion IH as [|? ? Px Pxs]; subst.
    apply andb_true_iff. split; [eapply Px; eassumption|].
    apply forallb_forall. intros y Hy.
    match goal with
    | Hall : forallb _ xs = true |- _ =>
        rewrite forallb_forall in Hall; specialize (Hall y Hy);
        rewrite !utf8_app in Hall;
        repeat (apply andb_true_iff in Hall as [? Hall])
    end.
    rewrite Forall_forall in Pxs. eapply Pxs; eassumption.
  - destruct d as [|[k x] kvs]; [reflexivity|].
    cbn [JsonEnc.encode] in H. cbn [encodable forallb].
    rewrite !utf8_app, utf8_flat_map in H.
    repeat (apply andb_true_iff in H as [? H]).
    inversion IH as [|? ? Px Pxs]; subst. cbn [snd] in Px.
    apply andb_true_iff. split.
    + apply andb_true_iff. split.
      * match goal with
        | Hk : utf8_encodable (JsonEnc.encode_basestring k) = true |- _ =>
            now rewrite utf8_basestring_eq in Hk
        end.
      * eapply Px; eassumption.
    + apply forallb_forall. intros [k' y] Hy.
      match goal with
      | Hall : forallb _ kvs = true |- _ =>
          rewrite forallb_forall in Hall; specialize (Hall _ Hy);
          cbv beta iota in Hall;
          rewrite !utf8_app in Hall;
          repeat (apply andb_true_iff in Hall as [? Hall])
      end.
      rewrite Forall_forall in Pxs. specialize (Pxs _ Hy). cbn [snd] in Pxs.
      apply andb_true_iff. split.
      * match goal with
        | Hk : utf8_encodable (JsonEnc.encode_basestring k') = true |- _ =>
            now rewrite utf8_basestring_eq in Hk
        end.
      * eapply Pxs; eassumption.
Qed.

Lemma write_chunks_refused name (chunks : list str) :
  forall (written : str) o w,
    forallb utf8_encodable chunks = false ->
    exists pre post : str,
      write_chunks name written chunks o w
      = (Raised UnicodeEncodeError, set_file name (written ++ pre) w) /\
      List.concat chunks = pre ++ post /\
      utf8_encodable pre = true /\ utf8_encodable post = false.
Proof.
  induction chunks as [|c chunks IH]; intros written o w H; [discriminate H|].
  cbn [forallb] in H. cbn [write_chunks List.concat].
  destruct (utf8_encodable c) eqn:Hc.
  - cbn [andb] in H.
    destruct (IH (written ++ c) o w H) as (pre & post & E & C & P1 & P2).
    exists (c ++ pre), post. rewrite E, C, <- !app_assoc, utf8_app, Hc, P1.
    repeat split; assumption.
  - exists [], (c ++ List.concat chunks). rewrite app_nil_r, utf8_app, Hc.
    repeat split.
Qed.

(** X10. A record with a surrogate code point in one of its strings or
    keys is never saved whole: [save_roadmap] raises [UnicodeEncodeError]
    and prints nothing, and the file, already opened for writing, is left
    with a beginning of the JSON text that stops before the piece the
    codec refused. *)
Theorem save_roadmap_refuses_surrogates (roadmap : value) (company role : str)
        (o : Oracle) (w : World) :
  encodable roadmap = false ->
  exists written rest : str,
    save_roadmap roadmap company role o w
    = (Raised UnicodeEncodeError,
       set_file (roadmap_filename (str_lower o) company role) written w) /\
    JsonEnc.dumps (floats o) roadmap = written ++ rest /\
    utf8_encodable written = true /\ utf8_encodable rest = false.
Proof.
  intros Hen.
  assert (Hbad : forallb utf8_encodable
                   (JsonEnc.iterencode (floats o) roadmap 0) = false).
  { rewrite <- utf8_concat, concat_iterencode.
    destruct (utf8_encodable (JsonEnc.encode (floats o) roadmap 0)) eqn:E;
      [|reflexivity].
    apply utf8_encode_encodable in E. congruence. }
  destruct (write_chunks_refused (roadmap_filename (str_lower o) company role)
              _ [] o w Hbad) as (pre & post & E & C & P1 & P2).
  exists pre, post. unfold save_roadmap, bind, oracle. rewrite E.
  rewrite concat_iterencode in C. repeat split; assumption.
Qed.

Lemma save_roadmap_refuses_surrogates_witness :
  encodable (VDict [(py "x", VStr [55296%N])]) = false /\
  exists written rest : str,
    save_roadmap (VDict [(py "x", VStr [55296%N])]) (py "Acme") (py "Dev")
      (example_oracle (Raised LLMException)) (fresh_world [])
    = (Raised UnicodeEncodeError,
       set_file (roadmap_filename
                   (str_lower (example_oracle (Raised LLMException)))
                   (py "Acme") (py "Dev")) written (fresh_world [])) /\
    JsonEnc.dumps (floats (example_oracle (Raised LLMException)))
      (VDict [(py "x", VStr [55296%N])]) = written ++ rest /\
    utf8_encodable written = true /\ utf8_encodable rest = false.
Proof.
  split; [reflexivity|].
  apply (save_roadmap_refuses_surrogates (VDict [(py "x", VStr [55296%N])])
           (py "Acme") (py "Dev") (example_oracle (Raised LLMException))
           (fresh_world [])).
  reflexivity.
Defined.

(** ** [display_roadmap] *)

Lemma printed_nil w : printed [] w = w.
Proof. destruct w. unfold printed. cbn. now rewrite app_nil_r. Qed.

Lemma printed_printed a b w : printed b (printed a w) = printed (a ++ b) w.
Proof. unfold printed. cbn. now rewrite app_assoc. Qed.

Lemma printed_set_stdin a inp w :
  printed a (set_stdin inp w) = set_stdin inp (printed a w).
Proof. reflexivity. Qed.

Lemma set_stdin_set_stdin a b w : set_stdin b (set_stdin a w) = set_stdin b w.
Proof. reflexivity. Qed.

Lemma prints_only_ret {A} (a : A) : prints_only (ret a).
Proof. intros o w. exists []. cbn. now rewrite printed_nil. Qed.

Lemma prints_only_lift {A} (r : outcome A) : prints_only (lift r).
Proof. intros o w. exists []. cbn. now rewrite printed_nil. Qed.

Lemma prints_only_oracle : prints_only oracle.
Proof. intros o w. exists []. cbn. now rewrite printed_nil. Qed.

Lemma prints_only_print m : prints_only (print m).
Proof. intros o w. exists [m]. reflexivity. Qed.

Lemma prints_only_bind {A B} (m : M A) (k : A -> M B) :
  prints_only m -> (forall a, prints_only (k a)) -> prints_only (bind m k).
Proof.
  intros Hm Hk o w. unfold bind. destruct (Hm o w) as [a Ha].
  destruct (m o w) as [[x|e] w1]; cbn [snd] in *; subst w1.
  - destruct (Hk x o (printed a w)) as [b Hb]. rewrite Hb, printed_printed.
    eauto.
  - eauto.
Qed.

Lemma prints_only_if {A} (b : bool) (x y : M A) :
  prints_only x -> prints_only y -> prints_only (if b then x else y).
Proof. destruct b; auto. Qed.

Ltac prints_only :=
  repeat first
    [ apply prints_only_print | apply prints_only_lift | apply prints_only_ret
    | apply prints_only_oracle
    | apply prints_only_if
    | apply prints_only_bind; [|intros ?] ].

Lemma prints_only_display_rounds rounds : forall i,
  prints_only (display_rounds i rounds).
Proof.
  induction rounds as [|r rounds IH]; intros i; cbn [display_rounds].
  - apply prints_only_ret.
  - prints_only. apply IH.
Qed.

(** X11. Whatever the record, and whether it completes or fails on the
    way, [display_roadmap] does nothing but print: it reads no input,
    sends no request and no prompt, does not read the clock and touches no
    file. *)
Theorem display_roadmap_only_prints (roadmap : value) (o : Oracle)
        (w : World) :
  exists msgs, snd (display_roadmap roadmap o w) = printed msgs w.
Proof.
  revert o w. change (prints_only (display_roadmap roadmap)).
  unfold display_roadmap. prints_only. apply prints_only_display_rounds.
Qed.

(** X12. A record without rounds, study order, evidence and note is
    shown with defaults and without the optional lines: "N/A" for a
    missing company, role or difficulty, zero rounds, an empty study
    order, no line of key skills (the default evidence is the empty
    object, which counts as false) and no note. *)
Theorem display_roadmap_missing_fields (d : dict) (o : Oracle) (w : World) :
  dict_get d (py "rounds") = None ->
  dict_get d (py "recommended_order") = None ->
  dict_get d (py "evidence") = None ->
  dict_get d (py "note") = None ->
  display_roadmap (VDict d) o w
  = (Returned tt,
     printed [ MsgRule 60; MsgSummaryTitle; MsgRule 60;
               MsgCompany (get_or d (py "company") (VStr (py "N/A")));
               MsgRole (get_or d (py "role") (VStr (py "N/A")));
               MsgDifficulty (get_or d (py "difficulty") (VStr (py "N/A")));
               MsgTotalRounds 0; MsgRoundsTitle; MsgStudyOrder [];
               MsgRule 60 ] w).
Proof.
  intros Hr Ho He Hn.
  unfold display_roadmap, bind, lift, print, py_get, oracle, get_or.
  rewrite Hr, Ho, He, Hn. cbn [py_len py_iter display_rounds ret].
  unfold ret.
  cbn [py_join py_iter obind join_values all_strs py_bool is_empty negb join].
  rewrite !printed_printed. reflexivity.
Qed.

Lemma display_roadmap_missing_fields_witness :
  display_roadmap
    (VDict (stamped [(py "company", VStr (py "X"))] (py "Acme") (py "Dev")
              (py "2025-01-01T00:00:00")))
    (example_oracle (Raised LLMException)) (fresh_world [])
  = (Returned tt,
     printed [ MsgRule 60; MsgSummaryTitle; MsgRule 60;
               MsgCompany (VStr (py "Acme")); MsgRole (VStr (py "Dev"));
               MsgDifficulty (VStr (py "N/A"));
               MsgTotalRounds 0; MsgRoundsTitle; MsgStudyOrder [];
               MsgRule 60 ] (fresh_world [])).
Proof.
  apply (display_roadmap_missing_fields
           (stamped [(py "company", VStr (py "X"))] (py "Acme") (py "Dev")
              (py "2025-01-01T00:00:00"))
           (example_oracle (Raised LLMException)) (fresh_world []));
    reflexivity.
Defined.

Lemma py_join_str_list sep v :
  str_list v = true -> exists s, py_join sep v = Returned s.
Proof.
  destruct v as [| | | | |l|]; try discriminate. cbn [str_list]. intros H.
  unfold py_join, py_iter, obind, join_values.
  assert (E : exists ss, all_strs l = Returned ss).
  { induction l as [|x l IH]; [eexists; reflexivity|].
    cbn [forallb] in H. apply andb_true_iff in H as [Hx H].
    destruct x; try discriminate Hx. destruct (IH H) as [ss E].
    cbn [all_strs]. rewrite E. eexists. reflexivity. }
  destruct E as [ss ->]. eexists. reflexivity.
Qed.

Lemma py_join_absent_or sep (d : dict) k :
  absent_or str_list d k = true ->
  exists s,
    py_join sep (match dict_get d k with
                 | Some x => x
                 | None => VList []
                 end) = Returned s.
Proof.
  unfold absent_or. destruct (dict_get d k) as [x|];
    [apply py_join_str_list | eexists; reflexivity].
Qed.

Lemma display_rounds_ok rounds : forall i o w,
  forallb round_ok rounds = true ->
  exists lines,
    display_rounds i rounds o w = (Returned tt, printed lines w) /\
    round_numbers lines = seq i (List.length rounds).
Proof.
  induction rounds as [|r rounds IH]; intros i o w H.
  - exists []. cbn. now rewrite printed_nil.
  - cbn [forallb] in H. apply andb_true_iff in H as [Hr H].
    destruct r as [| | | | | |rd]; try discriminate Hr.
    cbn [round_ok] in Hr.
    cbn [display_rounds]. unfold bind, lift, print, py_get.
    destruct (py_join_absent_or (py ", ") rd (py "topics") Hr) as [s ->].
    match goal with
    | |- context [display_rounds (S i) rounds o ?W] =>
        destruct (IH (S i) o W H) as (lines & -> & Hn)
    end.
    eexists. split.
    + rewrite !printed_printed. reflexivity.
    + cbn [app round_numbers flat_map List.length seq].
      fold (round_numbers lines). now rewrite Hn.
Qed.

Lemma round_numbers_app a b :
  round_numbers (a ++ b) = round_numbers a ++ round_numbers b.
Proof. apply flat_map_app. Qed.

(** What [display_roadmap] prints for a record it can show: the head of
    the summary, the total, the lines of the rounds, and the rest. *)
Lemma display_roadmap_shown (d : dict) (o : Oracle) (w : World) :
  displayable (VDict d) = true ->
  exists rounds_lines rest,
    display_roadmap (VDict d) o w
    = (Returned tt,
       printed ([ MsgRule 60; MsgSummaryTitle; MsgRule 60;
                  MsgCompany (get_or d (py "company") (VStr (py "N/A")));
                  MsgRole (get_or d (py "role") (VStr (py "N/A")));
                  MsgDifficulty (get_or d (py "difficulty") (VStr (py "N/A")));
                  MsgTotalRounds (List.length (rounds_of d)); MsgRoundsTitle ]
                ++ rounds_lines ++ rest) w) /\
    round_numbers rounds_lines = seq 1 (List.length (rounds_of d)) /\
    round_numbers rest = [].
Proof.
  cbn [displayable]. intros H.
  apply andb_true_iff in H as [H He]. apply andb_true_iff in H as [Hr Ho].
  unfold rounds_of, get_or.
  unfold display_roadmap, bind, lift, print, py_get, oracle.
  destruct (py_join_absent_or (py ", ") d (py "recommended_order") Ho)
    as [s Hs].
  unfold absent_or in Hr, He.
  set (rounds := match dict_get d (py "rounds") with
                 | Some x => x
                 | None => VList []
                 end).
  assert (Hl : exists l, rounds = VList l /\ forallb round_ok l = true /\
                 match dict_get d (py "rounds") with
                 | Some (VList l0) => l0
                 | _ => []
                 end = l).
  { subst rounds. destruct (dict_get d (py "rounds")) as [x|].
    - destruct x; try discriminate Hr. eauto.
    - exists []. repeat split. }
  destruct Hl as (l & -> & Hl & ->). cbn [py_len py_iter].
  match goal with
  | |- context [display_rounds 1 l o ?W] =>
      destruct (display_rounds_ok l 1 o W Hl) as (lines & -> & Hn)
  end.
  rewrite Hs.
  set (evidence := match dict_get d (py "evidence") with
                   | Some x => x
                   | None => VDict []
                   end).
  assert (Hev : exists e, evidence = VDict e /\
                  absent_or str_list e (py "key_skills") = true).
  { subst evidence. destruct (dict_get d (py "evidence")) as [x|].
    - destruct x; try discriminate He. eauto.
    - exists []. split; reflexivity. }
  destruct Hev as (e & -> & Hk). cbn [py_bool].
  destruct (py_join_absent_or (py ", ") e (py "key_skills") Hk) as [s' Hs'].
  exists lines.
  destruct (negb (is_empty e)); [rewrite Hs'|];
    (destruct (py_bool (floats o)
                 match dict_get d (py "note") with
                 | Some x => x
                 | None => VNone
                 end));
    unfold ret; rewrite !printed_printed; rewrite <- ?app_assoc; cbn [app];
    (eexists; split; [reflexivity|]); (split; [exact Hn | reflexivity]).
Qed.

(** X13. [display_roadmap] completes on every record of the schema's
    shape, whichever of its fields are missing: the rounds a list of
    objects, the evidence an object, the topics, the study order and the
    key skills lists of strings.  The number it prints as the total of
    rounds is the number of rounds it then lists, and it numbers them
    1, 2, ... in the order of the record. *)
Theorem display_roadmap_displayable (d : dict) (o : Oracle) (w : World) :
  displayable (VDict d) = true ->
  exists lines,
    display_roadmap (VDict d) o w = (Returned tt, printed lines w) /\
    In (MsgTotalRounds (List.length (rounds_of d))) lines /\
    round_numbers lines = seq 1 (List.length (rounds_of d)).
Proof.
  intros H.
  destruct (display_roadmap_shown d o w H) as (rl & rest & E & Hn & Hrest).
  eexists. split; [exact E|]. split.
  - apply in_or_app. left. do 6 right. left. reflexivity.
  - rewrite !round_numbers_app, Hn, Hrest, app_nil_r. reflexivity.
Qed.

Lemma display_roadmap_displayable_witness :
  displayable (default_record (py "Acme") (py "Dev") (py "2025-01-01T00:00:00"))
  = true /\
  exists lines,
    display_roadmap
      (default_record (py "Acme") (py "Dev") (py "2025-01-01T00:00:00"))
      (example_oracle (Raised LLMException)) (fresh_world [])
    = (Returned tt, printed lines (fresh_world [])) /\
    In (MsgTotalRounds 4) lines /\
    round_numbers lines = [1; 2; 3; 4].
Proof.
  split; [reflexivity|].
  apply (display_roadmap_displayable
           (record_dict (default_record (py "Acme") (py "Dev")
                           (py "2025-01-01T00:00:00")))
           (example_oracle (Raised LLMException)) (fresh_world [])).
  reflexivity.
Defined.

Lemma display_rounds_bad good : forall i o w bad rest,
  forallb round_ok good = true ->
  is_record bad = false ->
  fst (display_rounds i (good ++ bad :: rest) o w) = Raised AttributeError.
Proof.
  induction good as [|r good IH]; intros i o w bad rest H Hbad.
  - cbn [app display_rounds]. unfold bind, lift.
    destruct bad; try reflexivity. discriminate Hbad.
  - cbn [forallb] in H. apply andb_true_iff in H as [Hr H].
    destruct r as [| | | | | |rd]; try discriminate Hr.
    cbn [round_ok] in Hr.
    cbn [app display_rounds]. unfold bind, lift, print, py_get.
    destruct (py_join_absent_or (py ", ") rd (py "topics") Hr) as [s ->].
    match goal with
    | |- context [display_rounds (S i) _ o ?W] =>
        specialize (IH (S i) o W bad rest H Hbad);
        destruct (display_rounds (S i) (good ++ bad :: rest) o W)
          as [[[]|e] w']
    end; [discriminate IH | exact IH].
Qed.

(** X14. When the rounds of a record are a list in which an entry is not
    an object (a list of round names, say) and the rounds before it can be
    shown, [display_roadmap] raises [AttributeError] at that entry: the
    record is not shown to the end. *)
Theorem display_roadmap_bad_round (d : dict) (good : list value) (bad : value)
        (rest : list value) (o : Oracle) (w : World) :
  dict_get d (py "rounds") = Some (VList (good ++ bad :: rest)) ->
  forallb round_ok good = true ->
  is_record bad = false ->
  fst (display_roadmap (VDict d) o w) = Raised AttributeError.
Proof.
  intros Hd Hg Hb.
  unfold display_roadmap, bind, lift, print, py_get, oracle. rewrite Hd.
  cbn [py_len py_iter].
  match goal with
  | |- context [display_rounds 1 _ o ?W] =>
      pose proof (display_rounds_bad good 1 o W bad rest Hg Hb) as H;
      destruct (display_rounds 1 (good ++ bad :: rest) o W) as [[[]|e] w']
  end; [discriminate H | exact H].
Qed.

Lemma display_roadmap_bad_round_witness :
  dict_get [(py "rounds",
             VList ([round (py "Screening") [py "Algorithms"]]
                    ++ VStr (py "Behavioral") :: []))] (py "rounds")
  = Some (VList ([round (py "Screening") [py "Algorithms"]]
                 ++ VStr (py "Behavioral") :: [])) /\
  forallb round_ok [round (py "Screening") [py "Algorithms"]] = true /\
  is_record (VStr (py "Behavioral")) = false /\
  fst (display_roadmap
         (VDict [(py "rounds",
                  VList ([round (py "Screening") [py "Algorithms"]]
                         ++ VStr (py "Behavioral") :: []))])
         (example_oracle (Raised LLMException)) (fresh_world []))
  = Raised AttributeError.
Proof.
  split; [reflexivity|]. split; [reflexivity|]. split; [reflexivity|].
  apply (display_roadmap_bad_round
           [(py "rounds",
             VList ([round (py "Screening") [py "Algorithms"]]
                    ++ VStr (py "Behavioral") :: []))]
           [round (py "Screening") [py "Algorithms"]]
           (VStr (py "Behavioral")) []
           (example_oracle (Raised LLMException)) (fresh_world []));
    reflexivity.
Defined.

(** ** [get_job_description] and the parser on an empty answer *)

Lemma read_lines_lines (lines : list str) (tail : list stdin_event) :
  read_lines (map Line lines ++ tail)
  = (lines ++ fst (read_lines tail), snd (read_lines tail)).
Proof.
  induction lines as [|l lines IH]; cbn [map app read_lines].
  - now destruct (read_lines tail).
  - rewrite IH. reflexivity.
Qed.

Lemma get_job_description_text o w inp :
  stdin w = inp ->
  is_empty (strip (jd_text_of inp)) = false ->
  get_job_description o w
  = (Returned (Some (jd_text_of inp)),
     set_stdin (snd (read_lines inp))
       (printed [MsgPasteJobDescription; MsgPasteHint; MsgRule 50] w)).
Proof.
  unfold jd_text_of. intros <- H.
  unfold get_job_description, bind, print, input_lines.
  rewrite !printed_printed. cbn [app].
  change (stdin (printed [MsgPasteJobDescription; MsgPasteHint; MsgRule 50] w))
    with (stdin w).
  destruct (read_lines (stdin w)) as [jd_lines rest]. cbn [fst snd] in *.
  rewrite H. reflexivity.
Qed.

Lemma get_job_description_cases o w :
  get_job_description o w
  = (if is_empty (strip (jd_text_of (stdin w)))
     then (Returned None,
           set_stdin (snd (read_lines (stdin w)))
             (printed [MsgPasteJobDescription; MsgPasteHint; MsgRule 50;
                       MsgJobDescriptionEmpty] w))
     else (Returned (Some (jd_text_of (stdin w))),
           set_stdin (snd (read_lines (stdin w)))
             (printed [MsgPasteJobDescription; MsgPasteHint; MsgRule 50] w))).
Proof.
  destruct (is_empty (strip (jd_text_of (stdin w)))) eqn:H.
  - rewrite get_job_description_empty by exact H.
    rewrite !printed_set_stdin, !printed_printed. reflexivity.
  - now apply get_job_description_text.
Qed.

(** X15. [get_job_description] treats an interrupt from the keyboard as
    the end of the input.  In both cases it returns the lines read so far
    joined by line feeds, as they were typed, or the empty marker when that
    text is blank; it consumes the interrupt and leaves what follows it
    unread. *)
Theorem get_job_description_reads (lines : list str) (rest : list stdin_event)
        (o : Oracle) (w w0 : World) :
  stdin w = map Line lines ++ Interrupt :: rest ->
  stdin w0 = map Line lines ->
  fst (get_job_description o w)
  = Returned (if is_empty (strip (join [NL] lines)) then None
              else Some (join [NL] lines)) /\
  fst (get_job_description o w0) = fst (get_job_description o w) /\
  stdin (snd (get_job_description o w)) = rest /\
  stdin (snd (get_job_description o w0)) = [].
Proof.
  intros Hw Hw0.
  assert (E : read_lines (stdin w) = (lines, rest)).
  { rewrite Hw, read_lines_lines. cbn [read_lines fst snd].
    now rewrite app_nil_r. }
  assert (E0 : read_lines (stdin w0) = (lines, [])).
  { rewrite Hw0, <- (app_nil_r (map Line lines)), read_lines_lines.
    cbn [read_lines fst snd]. now rewrite app_nil_r. }
  rewrite !get_job_description_cases. unfold jd_text_of. rewrite E, E0.
  cbn [fst snd].
  destruct (is_empty (strip (join [NL] lines))); repeat split.
Qed.

Lemma get_job_description_reads_witness :
  fst (get_job_description (example_oracle (Raised LLMException))
         (fresh_world (map Line [py "Build things"; []; py "in Rocq"]
                       ++ Interrupt :: [Line (py "later")])))
  = Returned (Some (py "Build things" ++ [NL; NL] ++ py "in Rocq")) /\
  fst (get_job_description (example_oracle (Raised LLMException))
         (fresh_world (map Line [py "Build things"; []; py "in Rocq"])))
  = fst (get_job_description (example_oracle (Raised LLMException))
           (fresh_world (map Line [py "Build things"; []; py "in Rocq"]
                         ++ Interrupt :: [Line (py "later")]))) /\
  stdin (snd (get_job_description (example_oracle (Raised LLMException))
                (fresh_world (map Line [py "Build things"; []; py "in Rocq"]
                              ++ Interrupt :: [Line (py "later")]))))
  = [Line (py "later")] /\
  stdin (snd (get_job_description (example_oracle (Raised LLMException))
                (fresh_world (map Line [py "Build things"; []; py "in Rocq"]))))
  = [].
Proof.
  apply (get_job_description_reads [py "Build things"; []; py "in Rocq"]
           [Line (py "later")] (example_oracle (Raised LLMException))
           (fresh_world (map Line [py "Build things"; []; py "in Rocq"]
                         ++ Interrupt :: [Line (py "later")]))
           (fresh_world (map Line [py "Build things"; []; py "in Rocq"])));
    reflexivity.
Defined.

(** X16. On an answer that is empty or all whitespace the parser falls
    back: it prints the failure and the (empty) preview and returns the
    default record for ("Unknown", "Unknown"), stamped with a reading of
    the clock. *)
Theorem blank_answer_yields_default (text : str) (o : Oracle) (w : World) :
  is_empty (strip text) = true ->
  extract_json_from_text text o w
  = (Returned (default_record (py "Unknown") (py "Unknown")
                 (now_isoformat o (clock_reads w))),
     after_fallback text w).
Proof.
  intros H. destruct (extract_json_cases text o w) as (c & Hc & ->).
  assert (Hs : strip text = [])
    by (destruct (strip text); [reflexivity | discriminate H]).
  unfold json_candidate in Hc. rewrite Hs in Hc. vm_compute in Hc.
  injection Hc as <-. reflexivity.
Qed.

Lemma blank_answer_yields_default_witness :
  is_empty (strip [32; 10; 9; 32]%N) = true /\
  extract_json_from_text [32; 10; 9; 32]%N
    (example_oracle (Raised LLMException)) (fresh_world [])
  = (Returned (default_record (py "Unknown") (py "Unknown")
                 (py "2025-01-01T00:00:00")),
     after_fallback [32; 10; 9; 32]%N (fresh_world [])).
Proof.
  split; [reflexivity|].
  apply (blank_answer_yields_default [32; 10; 9; 32]%N
           (example_oracle (Raised LLMException)) (fresh_world [])).
  reflexivity.
Defined.

(** ** The prompt *)

Lemma contains_prefix (x b : str) : contains x (x ++ b) = true.
Proof. exact (contains_at x [] b). Qed.

Lemma contains_start (x rest s : str) :
  s = x ++ rest -> contains x s = true.
Proof. intros ->. apply contains_prefix. Qed.

Ltac skip_to lit :=
  repeat lazymatch goal with
         | |- contains _ (lit ++ _) = true => fail
         | |- contains _ (_ ++ _) = true => apply contains_app_r
         end.

Ltac embedded indented lit :=
  unfold prompt_text; cbn [join]; rewrite <- ?app_assoc;
  skip_to indented;
  change indented with (py "        " ++ lit);
  rewrite <- app_assoc; apply contains_app_r;
  eapply contains_start; rewrite <- ?app_assoc; reflexivity.

(** X17. The prompt carries the company, the role, the whole job
    description and the whole company-info text as they are, each on the
    line or under the heading that announces it: nothing is escaped or cut
    short, whatever the texts contain. *)
Theorem prompt_embeds_inputs (company role jd_text company_info : str) :
  contains (py "COMPANY: " ++ company ++ [NL])
    (prompt_text company role jd_text company_info) = true /\
  contains (py "ROLE: " ++ role ++ [NL])
    (prompt_text company role jd_text company_info) = true /\
  contains (py "JOB DESCRIPTION:" ++ [NL] ++ py "        " ++ jd_text ++ [NL])
    (prompt_text company role jd_text company_info) = true /\
  contains (py "COMPANY INTERVIEW INFO:" ++ [NL] ++ py "        "
            ++ company_info ++ [NL])
    (prompt_text company role jd_text company_info) = true.
Proof.
  repeat split.
  - embedded (py "        COMPANY: ") (py "COMPANY: ").
  - embedded (py "        ROLE: ") (py "ROLE: ").
  - embedded (py "        JOB DESCRIPTION:") (py "JOB DESCRIPTION:").
  - embedded (py "        COMPANY INTERVIEW INFO:")
             (py "COMPANY INTERVIEW INFO:").
Qed.

(** ** [main] *)

(** X18. Without the key in the environment, or with an empty one, [main]
    prints its two lines and returns: it asks nothing, reads nothing,
    sends nothing and writes nothing. *)
Theorem main_without_api_key (o : Oracle) (w : World) :
  GOOGLE_API_KEY o = None \/ GOOGLE_API_KEY o = Some [] ->
  main o w = (Returned tt, printed [MsgApiKeyMissing; MsgApiKeyHint] w).
Proof.
  intros H. unfold main, bind, oracle, has_api_key.
  destruct H as [-> | ->]; cbn [negb is_empty]; unfold print;
    rewrite printed_printed; reflexivity.
Qed.

Lemma main_without_api_key_witness :
  main (no_key_oracle (Some []))
       (fresh_world [Line (py "Acme"); Line (py "Dev"); Line (py "Build")])
  = (Returned tt,
     printed [MsgApiKeyMissing; MsgApiKeyHint]
       (fresh_world [Line (py "Acme"); Line (py "Dev"); Line (py "Build")])).
Proof.
  apply (main_without_api_key (no_key_oracle (Some []))
           (fresh_world [Line (py "Acme"); Line (py "Dev"); Line (py "Build")])).
  right. reflexivity.
Defined.

Lemma ask_loop_eof prompt required blanks : forall out,
  forallb blank blanks = true ->
  ask_loop prompt required blanks out
  = (Raised EOFError, [], out ++ asked prompt required (List.length blanks)).
Proof.
  unfold asked.
  induction blanks as [|ev blanks IH]; intros out Hb; cbn [ask_loop].
  - reflexivity.
  - cbn [forallb] in Hb. apply andb_true_iff in Hb as [Hev Hb].
    destruct ev as [s|]; [|discriminate Hev]. cbn [blank] in Hev.
    rewrite Hev. cbn [negb]. rewrite (IH _ Hb).
    cbn [List.length repeat List.concat]. rewrite <- !app_assoc. reflexivity.
Qed.

Lemma ask_eof prompt required o w :
  forallb blank (stdin w) = true ->
  ask prompt required o w
  = (Raised EOFError,
     printed (asked prompt required (List.length (stdin w))) (set_stdin [] w)).
Proof.
  intros Hb. unfold ask. rewrite (ask_loop_eof prompt required _ [] Hb).
  reflexivity.
Qed.

(** X19. When the input ends before a company name and a role were
    given (only blank lines are left at one of the two questions), [main]
    does not return: the [EOFError] of [input] leaves it uncaught, after
    the question was repeated for every blank line, and before any
    request, prompt or file. *)
Theorem main_end_of_input (o : Oracle) (w : World)
        (blanks : list stdin_event) :
  has_api_key o = true ->
  forallb blank blanks = true ->
  (stdin w = blanks \/
   exists blanks1 company,
     stdin w = blanks1 ++ Line company :: blanks /\
     forallb blank blanks1 = true /\ is_empty (strip company) = false) ->
  exists w',
    main o w = (Raised EOFError, w') /\
    files w' = files w /\ requests_sent w' = requests_sent w /\
    prompts_sent w' = prompts_sent w /\ stdin w' = [].
Proof.
  intros Hkey Hb [Hin|(blanks1 & company & Hin & Hb1 & Hc)];
    unfold main, bind, oracle; rewrite Hkey; cbn [negb]; unfold print at 1 2.
  - rewrite ask_eof by (cbn [stdin printed]; now rewrite Hin).
    eexists. split; [reflexivity|]. repeat split.
  - rewrite (ask_answer MsgPromptCompany MsgCompanyRequired blanks1 company
               blanks) by first [assumption | exact Hin].
    rewrite ask_eof by exact Hb.
    eexists. split; [reflexivity|]. repeat split.
Qed.

Lemma main_end_of_input_witness :
  has_api_key (example_oracle (Raised LLMException)) = true /\
  forallb blank [Line (py "  "); Line []] = true /\
  exists w',
    main (example_oracle (Raised LLMException))
      (fresh_world [Line []; Line (py "Acme"); Line (py "  "); Line []])
    = (Raised EOFError, w') /\
    files w' = [] /\ requests_sent w' = [] /\ prompts_sent w' = [] /\
    stdin w' = [].
Proof.
  split; [reflexivity|]. split; [reflexivity|].
  apply (main_end_of_input (example_oracle (Raised LLMException))
           (fresh_world [Line []; Line (py "Acme"); Line (py "  "); Line []])
           [Line (py "  "); Line []]);
    [reflexivity | reflexivity |].
  right. exists [Line []], (py "Acme"). repeat split.
Defined.

(** [main] once the three inputs are read. *)
Lemma main_inputs (o : Oracle) (w : World)
      (blanks1 blanks2 jd_events : list stdin_event) (company role : str) :
  has_api_key o = true ->
  stdin w = blanks1 ++ Line company :: blanks2 ++ Line role :: jd_events ->
  forallb blank blanks1 = true -> is_empty (strip company) = false ->
  forallb blank blanks2 = true -> is_empty (strip role) = false ->
  is_empty (strip (jd_text_of jd_events)) = false ->
  main o w
  = try_except
      (main_try (strip company) (strip role) (jd_text_of jd_events))
      is_Exception
      (fun e => print (MsgErrorGenerating e))
      o
      (inputs_read (List.length blanks1) (List.length blanks2)
         (snd (read_lines jd_events)) w).
Proof.
  intros Hkey Hin Hb1 Hc Hb2 Hr Hjd.
  unfold main, bind, oracle. rewrite Hkey. cbn [negb]. unfold print at 1 2.
  rewrite (ask_answer MsgPromptCompany MsgCompanyRequired blanks1 company
             (blanks2 ++ Line role :: jd_events))
    by first [assumption | exact Hin].
  rewrite (ask_answer MsgPromptRole MsgRoleRequired blanks2 role jd_events)
    by first [assumption | reflexivity].
  rewrite (get_job_description_text o _ jd_events)
    by first [reflexivity | exact Hjd].
  match goal with
  | |- try_except ?b ?c ?h o ?w1 = try_except ?b' ?c ?h' o ?w2 =>
      replace w1 with w2; [reflexivity|]
  end.
  unfold inputs_read.
  rewrite !printed_set_stdin, !set_stdin_set_stdin, !printed_printed.
  rewrite <- ?app_assoc. reflexivity.
Qed.

Lemma safe_run_ret {A} o (a : A) : safe_run o (ret a).
Proof. intros w e w' H. discriminate H. Qed.

Lemma safe_run_print o m : safe_run o (print m).
Proof. intros w e w' H. discriminate H. Qed.

Lemma safe_run_oracle o : safe_run o oracle.
Proof. intros w e w' H. discriminate H. Qed.

Lemma safe_run_now o : safe_run o now.
Proof. intros w e w' H. discriminate H. Qed.

Lemma safe_run_lift {A} o (r : outcome A) : safe r -> safe_run o (lift r).
Proof. intros Hr w e w' H. injection H as H _. exact (Hr e H). Qed.

Lemma safe_run_bind {A B} o (m : M A) (k : A -> M B) :
  safe_run o m -> (forall a, safe_run o (k a)) -> safe_run o (bind m k).
Proof.
  intros Hm Hk w e w' H. unfold bind in H.
  destruct (m o w) as [[a|e0] w1] eqn:E.
  - exact (Hk a w1 e w' H).
  - injection H as <- _. exact (Hm w e0 w1 E).
Qed.

Lemma safe_run_if {A} o (b : bool) (x y : M A) :
  safe_run o x -> safe_run o y -> safe_run o (if b then x else y).
Proof. destruct b; auto. Qed.

Lemma safe_py_len v : safe (py_len v).
Proof. destruct v; cbn; auto using safe_returned, safe_raised. Qed.

Lemma safe_py_join sep v : safe (py_join sep v).
Proof.
  unfold py_join. apply safe_obind; [apply safe_py_iter|].
  intros; apply safe_join_values.
Qed.

Lemma safe_py_setitem v k x : safe (py_setitem v k x).
Proof. destruct v; cbn; auto using safe_returned, safe_raised. Qed.

Ltac safe_run :=
  repeat first
    [ apply safe_run_print | apply safe_run_ret | apply safe_run_oracle
    | apply safe_run_now
    | apply safe_run_lift;
      first [ apply safe_py_get | apply safe_py_len | apply safe_py_iter
            | apply safe_py_join | apply safe_py_setitem ]
    | apply safe_run_if
    | apply safe_run_bind; [|intros ?] ].

Lemma safe_run_display_rounds o rounds : forall i,
  safe_run o (display_rounds i rounds).
Proof.
  induction rounds as [|r rounds IH]; intros i; cbn [display_rounds].
  - apply safe_run_ret.
  - safe_run. apply IH.
Qed.

Lemma safe_run_display_roadmap o roadmap : safe_run o (display_roadmap roadmap).
Proof.
  unfold display_roadmap. safe_run. apply safe_run_display_rounds.
Qed.

Lemma safe_run_write_chunks o name chunks : forall written,
  safe_run o (write_chunks name written chunks).
Proof.
  induction chunks as [|c chunks IH]; intros written; cbn [write_chunks].
  - intros w e w' H. discriminate H.
  - destruct (utf8_encodable c); [apply IH|].
    intros w e w' H. injection H as <- _. reflexivity.
Qed.

Lemma safe_run_save_roadmap o roadmap company role :
  safe_run o (save_roadmap roadmap company role).
Proof.
  unfold save_roadmap. safe_run. apply safe_run_write_chunks.
Qed.

Lemma safe_run_stamp o v company role : safe_run o (stamp v company role).
Proof. unfold stamp. safe_run. Qed.

Lemma safe_run_generate_roadmap o company role jd :
  network_ok o -> llm_ok o -> safe_run o (generate_roadmap company role jd).
Proof.
  intros Hnet Hllm w e w' H.
  destruct (generate_roadmap_searched company role jd o w Hnet)
    as (info & w1 & _ & _ & E).
  rewrite E in H. clear E.
  destruct (llm_invoke o (prompt_text company role jd info)) as [text|e0] eqn:L.
  - destruct (extract_json_cases text o
                (before_llm (prompt_text company role jd info) w1))
      as (c & _ & Ex).
    rewrite Ex in H.
    destruct (Json.loads c) as [v|e1];
      (destruct (stamp _ company role o _) as [[r|e2] w4] eqn:S;
       [discriminate H|]);
      injection H as <- _; exact (safe_run_stamp o _ _ _ _ _ _ S).
  - rewrite (Hllm _ _ L) in H. discriminate H.
Qed.

Lemma safe_run_main_try o company role jd :
  network_ok o -> llm_ok o -> safe_run o (main_try company role jd).
Proof.
  intros Hnet Hllm. unfold main_try.
  apply safe_run_bind; [now apply safe_run_generate_roadmap|]. intros roadmap.
  apply safe_run_bind; [apply safe_run_display_roadmap|]. intros _.
  apply safe_run_bind; [apply safe_run_save_roadmap|]. intros filename.
  apply safe_run_print.
Qed.

Lemma main_try_returns company role jd o w w' :
  main_try company role jd o w = (Returned tt, w') ->
  exists filename w1, w' = printed [MsgComplete filename] w1.
Proof.
  unfold main_try, bind, print. intros H.
  destruct (generate_roadmap company role jd o w) as [[r|e] w1];
    [|discriminate H].
  destruct (display_roadmap r o w1) as [[[]|e] w2]; [|discriminate H].
  destruct (save_roadmap r company role o w2) as [[f|e] w3];
    [|discriminate H].
  injection H as <-. eauto.
Qed.

(** X20. With the key set and a company and a role entered, and with a
    search service and a model that fail, if they fail, with exceptions of
    the [Exception] family, [main] always returns, whatever the job
    description, the search results and the model's answer are: every
    failure of generating, showing or saving the roadmap is caught and
    reported.  The last line it prints tells the outcome: the job
    description was empty, the roadmap was saved, or an error occurred. *)
Theorem main_never_raises (o : Oracle) (w : World)
        (blanks1 blanks2 jd_events : list stdin_event) (company role : str) :
  has_api_key o = true ->
  stdin w = blanks1 ++ Line company :: blanks2 ++ Line role :: jd_events ->
  forallb blank blanks1 = true -> is_empty (strip company) = false ->
  forallb blank blanks2 = true -> is_empty (strip role) = false ->
  network_ok o -> llm_ok o ->
  exists w',
    main o w = (Returned tt, w') /\
    (last (console w') MsgBanner = MsgJobDescriptionEmpty \/
     (exists filename, last (console w') MsgBanner = MsgComplete filename) \/
     (exists e, last (console w') MsgBanner = MsgErrorGenerating e /\
                is_Exception e = true)).
Proof.
  intros Hkey Hin Hb1 Hc Hb2 Hr Hnet Hllm.
  destruct (is_empty (strip (jd_text_of jd_events))) eqn:Hjd.
  - unfold main, bind, oracle. rewrite Hkey. cbn [negb]. unfold print at 1 2.
    rewrite (ask_answer MsgPromptCompany MsgCompanyRequired blanks1 company
               (blanks2 ++ Line role :: jd_events))
      by first [assumption | exact Hin].
    rewrite (ask_answer MsgPromptRole MsgRoleRequired blanks2 role jd_events)
      by first [assumption | reflexivity].
    rewrite get_job_description_empty by exact Hjd.
    eexists. split; [reflexivity|]. left.
    cbn [console printed]. apply last_last.
  - rewrite (main_inputs o w blanks1 blanks2 jd_events company role)
      by assumption.
    unfold try_except.
    pose proof (safe_run_main_try o (strip company) (strip role)
                  (jd_text_of jd_events) Hnet Hllm) as Hsafe.
    destruct (main_try _ _ _ o _) as [[[]|e] w1] eqn:E.
    + eexists. split; [reflexivity|]. right. left.
      destruct (main_try_returns _ _ _ _ _ _ E) as (f & w2 & ->).
      exists f. cbn [console printed]. apply last_last.
    + rewrite (Hsafe _ _ _ E). eexists. split; [reflexivity|].
      right. right. exists e. split; [|exact (Hsafe _ _ _ E)].
      cbn [print snd console printed]. apply last_last.
Qed.

Lemma main_never_raises_witness :
  has_api_key (example_oracle (Returned (py "Sorry, I cannot help."))) = true /\
  network_ok (example_oracle (Returned (py "Sorry, I cannot help."))) /\
  llm_ok (example_oracle (Returned (py "Sorry, I cannot help."))) /\
  exists w',
    main (example_oracle (Returned (py "Sorry, I cannot help.")))
      (fresh_world [Line []; Line (py " Acme "); Line (py "Dev");
                    Line (py "Build things"); Interrupt])
    = (Returned tt, w') /\
    (last (console w') MsgBanner = MsgJobDescriptionEmpty \/
     (exists filename, last (console w') MsgBanner = MsgComplete filename) \/
     (exists e, last (console w') MsgBanner = MsgErrorGenerating e /\
                is_Exception e = true)).
Proof.
  split; [reflexivity|]. split; [apply example_network_ok|].
  split; [apply example_llm_ok; intros e H; discriminate H|].
  apply (main_never_raises
           (example_oracle (Returned (py "Sorry, I cannot help.")))
           (fresh_world [Line []; Line (py " Acme "); Line (py "Dev");
                         Line (py "Build things"); Interrupt])
           [Line []] [] [Line (py "Build things"); Interrupt]
           (py " Acme ") (py "Dev"));
    first [ reflexivity | apply example_network_ok
          | apply example_llm_ok; intros e H; discriminate H ].
Defined.

(** X21. When the model's answer decodes to JSON that is not an object
    (an array, a number, a string), the run ends with the error report for
    a [TypeError]: the assignments of [generate_roadmap] fail, nothing is
    shown and no file is written. *)
Theorem main_non_object_answer (o : Oracle) (w : World)
        (blanks1 blanks2 jd_events : list stdin_event)
        (company role text : str) (v : value) :
  has_api_key o = true ->
  stdin w = blanks1 ++ Line company :: blanks2 ++ Line role :: jd_events ->
  forallb blank blanks1 = true -> is_empty (strip company) = false ->
  forallb blank blanks2 = true -> is_empty (strip role) = false ->
  is_empty (strip (jd_text_of jd_events)) = false ->
  network_ok o ->
  (forall p, llm_invoke o p = Returned text) ->
  obind (json_candidate text) Json.loads = Returned v ->
  is_record v = false ->
  exists w',
    main o w = (Returned tt, w') /\
    files w' = files w /\
    last (console w') MsgBanner = MsgErrorGenerating TypeError.
Proof.
  intros Hkey Hin Hb1 Hc Hb2 Hr Hjd Hnet Hllm Hv Hrec.
  rewrite (main_inputs o w blanks1 blanks2 jd_events company role)
    by assumption.
  unfold try_except, main_try, bind.
  destruct (generate_roadmap_non_object (strip company) (strip role)
              (jd_text_of jd_events) text v o
              (inputs_read (List.length blanks1) (List.length blanks2)
                 (snd (read_lines jd_events)) w) Hnet Hllm Hv Hrec)
    as (w1 & -> & Hfs).
  cbn [is_Exception]. unfold print. eexists. split; [reflexivity|]. split.
  - cbn [files printed]. exact Hfs.
  - cbn [console printed]. apply last_last.
Qed.

Lemma main_non_object_answer_witness :
  has_api_key (example_oracle (Returned (py "[1, 2]"))) = true /\
  is_empty (strip (jd_text_of [Line (py "Build things")])) = false /\
  network_ok (example_oracle (Returned (py "[1, 2]"))) /\
  obind (json_candidate (py "[1, 2]")) Json.loads
  = Returned (VList [VInt 1; VInt 2]) /\
  is_record (VList [VInt 1; VInt 2]) = false /\
  exists w',
    main (example_oracle (Returned (py "[1, 2]")))
      (fresh_world [Line (py "Acme"); Line (py "Dev"); Line (py "Build things")])
    = (Returned tt, w') /\
    files w' = [] /\
    last (console w') MsgBanner = MsgErrorGenerating TypeError.
Proof.
  split; [reflexivity|]. split; [reflexivity|].
  split; [apply example_network_ok|].
  split; [vm_compute; reflexivity|]. split; [reflexivity|].
  apply (main_non_object_answer (example_oracle (Returned (py "[1, 2]")))
           (fresh_world [Line (py "Acme"); Line (py "Dev");
                         Line (py "Build things")])
           [] [] [Line (py "Build things")] (py "Acme") (py "Dev")
           (py "[1, 2]") (VList [VInt 1; VInt 2]));
    first [ reflexivity | apply example_network_ok | intros p; reflexivity
          | vm_compute; reflexivity ].
Defined.











(** ** An interrupt during the search *)

(** X24. An interrupt from the keyboard while the first search request
    is under way is caught by none of the handlers ([except Exception]
    does not cover it): it leaves [search_duckduckgo],
    [search_company_info], [generate_roadmap] and [main] in turn, after one
    request and before the second, and no file is written. *)
Theorem main_interrupted_search (o : Oracle) (w : World)
        (blanks1 blanks2 jd_events : list stdin_event) (company role : str) :
  has_api_key o = true ->
  stdin w = blanks1 ++ Line company :: blanks2 ++ Line role :: jd_events ->
  forallb blank blanks1 = true -> is_empty (strip company) = false ->
  forallb blank blanks2 = true -> is_empty (strip role) = false ->
  is_empty (strip (jd_text_of jd_events)) = false ->
  (forall n q, http_get_json o n q = Raised KeyboardInterrupt) ->
  exists w',
    main o w = (Raised KeyboardInterrupt, w') /\
    requests_sent w'
    = requests_sent w ++ firstn 1 (queries (strip company) (strip role)) /\
    prompts_sent w' = prompts_sent w /\
    files w' = files w.
Proof.
  intros Hkey Hin Hb1 Hc Hb2 Hr Hjd Hnet.
  rewrite (main_inputs o w blanks1 blanks2 jd_events company role)
    by assumption.
  unfold try_except, main_try, bind at 1. rewrite generate_roadmap_cases.
  unfold search_company_info, bind, print.
  cbn [queries firstn search_queries]. unfold bind at 1. unfold try_except.
  unfold bind at 1. rewrite search_duckduckgo_cases, Hnet.
  cbn [obind is_Exception]. eexists. split; [reflexivity|].
  repeat split.
Qed.

Lemma main_interrupted_search_witness :
  has_api_key
    {| GOOGLE_API_KEY := Some (py "key");
       http_get_json := fun _ _ => Raised KeyboardInterrupt;
       llm_invoke := fun _ => Raised LLMException;
       now_isoformat := fun _ => py "2025-01-01T00:00:00";
       str_lower := map lower_char;
       floats := {| floatstr := fun lit => lit;
                    float_bool := fun _ => true |} |} = true /\
  exists w',
    main
      {| GOOGLE_API_KEY := Some (py "key");
         http_get_json := fun _ _ => Raised KeyboardInterrupt;
         llm_invoke := fun _ => Raised LLMException;
         now_isoformat := fun _ => py "2025-01-01T00:00:00";
         str_lower := map lower_char;
         floats := {| floatstr := fun lit => lit;
                      float_bool := fun _ => true |} |}
      (fresh_world [Line (py "Acme"); Line (py "Dev"); Line (py "Build things")])
    = (Raised KeyboardInterrupt, w') /\
    requests_sent w' = [py "Acme Dev interview process"] /\
    prompts_sent w' = [] /\ files w' = [].
Proof.
  split; [reflexivity|].
  apply (main_interrupted_search
           {| GOOGLE_API_KEY := Some (py "key");
              http_get_json := fun _ _ => Raised KeyboardInterrupt;
              llm_invoke := fun _ => Raised LLMException;
              now_isoformat := fun _ => py "2025-01-01T00:00:00";
              str_lower := map lower_char;
              floats := {| floatstr := fun lit => lit;
                           float_bool := fun _ => true |} |}
           (fresh_world [Line (py "Acme"); Line (py "Dev");
                         Line (py "Build things")])
           [] [] [Line (py "Build things")] (py "Acme") (py "Dev"));
    first [ reflexivity | intros n q; reflexivity ].
Defined.

(** ** A fence that is never closed *)




